(** * Connection access: grant, evaluation, expiry and review solicitation

    A shallow embedding of the contact-unlock flow of the marketplace
    front end:

    - [ConnectionAccessDialog] (Razorpay checkout handler) stores the chosen
      tier in [localStorage];
    - [ThankYouPage.processPage] verifies the payment and writes the
      [userProviderConnections] document;
    - [ProviderCard] / [ProviderDetailsClient] grant free access, evaluate a
      stored connection against the wall clock in their [onSnapshot]
      callback, and create the review placeholder booking on expiry.

    Modelling conventions.
    - Instants ([Date], Firestore [Timestamp]) are integers: milliseconds
      since the epoch.  Every [Timestamp] of the flow comes from
      [Timestamp.fromDate] or [Timestamp.now], so millisecond precision
      loses nothing.  Calendar arithmetic ([setDate], [setMinutes]) is done
      in a zone with a fixed UTC offset, where a day is 86400000 ms.
    - JavaScript numbers that the flow uses (durations in days and minutes,
      prices) are integers ([Z]), in the range where [toString] prints plain
      decimal digits.  Strings are sequences of bytes.
    - Firestore collections and [localStorage] are finite maps; the
      [bookings] collection, written with [addDoc], is a list in creation
      order.
    - Each read of the wall clock and each Firestore request consults the
      environment part of the [World]: the clock may advance between two
      reads and any request may reject.
    - [async] functions are run to completion one at a time. *)

From Stdlib Require Import ZArith Lia Ascii Sorted.
From stdpp Require Import base option list gmap strings.

Local Open Scope Z_scope.

(** ** JavaScript values *)

Module JS.

(** Truthiness of a [string | null | undefined] value. *)
Definition truthy (v : option string) : bool :=
  match v with
  | Some s => negb (String.eqb s "")
  | None => false
  end.

(** [a || b] on a [string | null] with a string default. *)
Definition or_str (v : option string) (d : string) : string :=
  if truthy v then default d v else d.

(** [a || b] where both sides may be absent. *)
Definition or_opt (v w : option string) : option string :=
  if truthy v then v else w.

(** Truthiness of a [number | null | undefined] value (integers only). *)
Definition truthy_num (v : option Z) : bool :=
  match v with
  | Some n => negb (n =? 0)
  | None => false
  end.

Definition or_num (v : option Z) (d : Z) : Z :=
  if truthy_num v then default d v else d.

(** *** [Number.prototype.toString] on an integer *)

Definition digit_char (d : Z) : Ascii.ascii :=
  Ascii.ascii_of_nat (48 + Z.to_nat d).

Fixpoint digits_acc (fuel : nat) (n : Z) (rest : string) : string :=
  match fuel with
  | O => rest
  | S fuel' =>
      if n <? 10 then String (digit_char n) rest
      else digits_acc fuel' (n / 10) (String (digit_char (n mod 10)) rest)
  end.

Definition digits (n : Z) : string :=
  digits_acc (S (Z.to_nat (Z.log2 n))) n "".

Definition toString (n : Z) : string :=
  if n <? 0 then String "-"%char (digits (- n)) else digits n.

(** *** [parseInt(s, 10)]

    Leading white space is skipped, a sign is accepted, then the longest
    run of decimal digits is read.  [None] is [NaN]. *)

Definition is_white (c : Ascii.ascii) : bool :=
  let n := Z.of_nat (Ascii.nat_of_ascii c) in
  ((9 <=? n) && (n <=? 13)) || (n =? 32).

Fixpoint skip_white (s : string) : string :=
  match s with
  | String c s' => if is_white c then skip_white s' else s
  | EmptyString => s
  end.

Definition digit_val (c : Ascii.ascii) : option Z :=
  let n := Z.of_nat (Ascii.nat_of_ascii c) in
  if (48 <=? n) && (n <=? 57) then Some (n - 48) else None.

Fixpoint parse_digits (s : string) (acc : option Z) : option Z :=
  match s with
  | String c s' =>
      match digit_val c with
      | Some d => parse_digits s' (Some (10 * default 0 acc + d))
      | None => acc
      end
  | EmptyString => acc
  end.

Definition parseInt (s : string) : option Z :=
  match skip_white s with
  | String c s' =>
      if Ascii.eqb c "-"%char then Z.opp <$> parse_digits s' None
      else if Ascii.eqb c "+"%char then parse_digits s' None
      else parse_digits (String c s') None
  | EmptyString => None
  end.

(** [x > 0] where [x] may be [NaN]. *)
Definition gt0 (v : option Z) : bool :=
  match v with
  | Some n => 0 <? n
  | None => false
  end.

(** [s.substring(0, n)]. *)
Definition substring0 (n : nat) (s : string) : string := String.substring 0 n s.

End JS.

(** ** Data model *)

(** Ids of the purchasable tiers ([connectionAccessOptionSchema]). *)
Inductive AccessOptionId := oneTime | sevenDays | thirtyDays | lifetime.

#[global] Instance AccessOptionId_eq_dec : EqDecision AccessOptionId.
Proof. solve_decision. Defined.

Definition AccessOptionId_string (i : AccessOptionId) : string :=
  match i with
  | oneTime => "oneTime"
  | sevenDays => "sevenDays"
  | thirtyDays => "thirtyDays"
  | lifetime => "lifetime"
  end.

Record ConnectionAccessOption := mkOption {
  opt_id : AccessOptionId;
  opt_label : string;
  opt_price : Z;
  opt_durationDays : option Z;
  opt_enabled : bool;
}.

(** The part of [AppSettings] read by the flow. *)
Record AppSettings := mkSettings {
  connectionAccessOptions : option (list ConnectionAccessOption);
  isFreeAccessFallbackEnabled : bool;
  freeAccessDurationMinutes : option Z;
}.

(** A document of [userProviderConnections].  [accessType] is whatever
    string the writer stored; absent optional fields are [None]. *)
Record UserProviderConnection := mkConnection {
  userId : string;
  providerId : string;
  accessType : option string;
  grantedAt : Z;
  expiresAt : option Z;
  paymentId : option string;
  reviewRequested : option bool;
}.

Record User := mkUser {
  uid : string;
  displayName : option string;
  email : option string;
  phoneNumber : option string;
}.

Record FirestoreUser := mkFirestoreUser {
  fs_displayName : option string;
  fs_email : option string;
  fs_mobileNumber : option string;
}.

Record ProviderApplication := mkProvider {
  p_id : string;
  fullName : option string;
  p_email : option string;
  workCategoryName : option string;
}.

Record BookingServiceItem := mkServiceItem {
  serviceId : string;
  name : string;
  quantity : Z;
  pricePerUnit : Z;
}.

(** A document of [bookings].  [scheduledDate] keeps the instant whose ISO
    date the source stores. *)
Record FirestoreBooking := mkBooking {
  bookingId : string;
  b_userId : option string;
  b_providerId : option string;
  customerName : string;
  customerEmail : string;
  customerPhone : string;
  addressLine1 : string;
  city : string;
  state : string;
  pincode : string;
  scheduledDate : Z;
  scheduledTimeSlot : string;
  services : list BookingServiceItem;
  subTotal : Z;
  taxAmount : Z;
  totalAmount : Z;
  paymentMethod : string;
  status : string;
  isReviewedByCustomer : option bool;
  createdAt : Z;
  updatedAt : option Z;
}.

(** The JSON answer of [/api/razorpay/verify-payment]. *)
Record VerificationResult := mkVerification {
  success : bool;
  v_status : option string;
  v_error : option string;
}.

(** ** Observable effects *)

Inductive Event :=
| Toast (title : string)
| RouterPush (path : string)
| ConsoleError (msg : string)
| ConsoleLog (msg : string)
| SetAuthActionRedirectPath (path : string)
| SetDocConnection (key : string) (data : UserProviderConnection)
| AddDocBooking (data : FirestoreBooking)
| UpdateDocReviewRequested (key : string)
| QueryPendingReview (user : string)
| SendConnectionUnlockEmail (transactionId : string)
| ShowLoading
| HideLoading.

(** ** The world: stores, environment, component state *)

Record World := mkWorld {
  (* Firestore *)
  userProviderConnections : gmap string UserProviderConnection;
  bookings : list FirestoreBooking;
  providerApplications : gmap string ProviderApplication;
  (* browser *)
  localStorage : gmap string string;
  (* environment: wall clock, the delays before the next reads, the fate of
     the next Firestore requests (true: rejected), the gateway's answer
     (None: the fetch itself rejects) *)
  wallClock : Z;
  ticks : list Z;
  faults : list bool;
  verifyPayment : option VerificationResult;
  (* React state of the provider components *)
  connection : option UserProviderConnection;
  isConnectionLoading : bool;
  isConnectModalOpen : bool;
  providerToConnect : option ProviderApplication;
  (* React state of the thank-you page *)
  isLoadingPage : bool;
  unlockedProviderDetails : option ProviderApplication;
  (* everything else that can be observed, oldest first *)
  trace : list Event;
}.

Definition set_userProviderConnections (f : gmap string UserProviderConnection -> gmap string UserProviderConnection) (w : World) : World :=
  mkWorld (f (userProviderConnections w)) (bookings w) (providerApplications w)
    (localStorage w) (wallClock w) (ticks w) (faults w) (verifyPayment w)
    (connection w) (isConnectionLoading w) (isConnectModalOpen w)
    (providerToConnect w) (isLoadingPage w) (unlockedProviderDetails w) (trace w).

Definition set_bookings (f : list FirestoreBooking -> list FirestoreBooking) (w : World) : World :=
  mkWorld (userProviderConnections w) (f (bookings w)) (providerApplications w)
    (localStorage w) (wallClock w) (ticks w) (faults w) (verifyPayment w)
    (connection w) (isConnectionLoading w) (isConnectModalOpen w)
    (providerToConnect w) (isLoadingPage w) (unlockedProviderDetails w) (trace w).

Definition set_localStorage (f : gmap string string -> gmap string string) (w : World) : World :=
  mkWorld (userProviderConnections w) (bookings w) (providerApplications w)
    (f (localStorage w)) (wallClock w) (ticks w) (faults w) (verifyPayment w)
    (connection w) (isConnectionLoading w) (isConnectModalOpen w)
    (providerToConnect w) (isLoadingPage w) (unlockedProviderDetails w) (trace w).

Definition set_clock (t : Z) (ts : list Z) (w : World) : World :=
  mkWorld (userProviderConnections w) (bookings w) (providerApplications w)
    (localStorage w) t ts (faults w) (verifyPayment w)
    (connection w) (isConnectionLoading w) (isConnectModalOpen w)
    (providerToConnect w) (isLoadingPage w) (unlockedProviderDetails w) (trace w).

Definition set_faults (fs : list bool) (w : World) : World :=
  mkWorld (userProviderConnections w) (bookings w) (providerApplications w)
    (localStorage w) (wallClock w) (ticks w) fs (verifyPayment w)
    (connection w) (isConnectionLoading w) (isConnectModalOpen w)
    (providerToConnect w) (isLoadingPage w) (unlockedProviderDetails w) (trace w).

Definition set_verifyPayment (v : option VerificationResult) (w : World) : World :=
  mkWorld (userProviderConnections w) (bookings w) (providerApplications w)
    (localStorage w) (wallClock w) (ticks w) (faults w) v
    (connection w) (isConnectionLoading w) (isConnectModalOpen w)
    (providerToConnect w) (isLoadingPage w) (unlockedProviderDetails w) (trace w).

Definition set_connection (c : option UserProviderConnection) (w : World) : World :=
  mkWorld (userProviderConnections w) (bookings w) (providerApplications w)
    (localStorage w) (wallClock w) (ticks w) (faults w) (verifyPayment w)
    c (isConnectionLoading w) (isConnectModalOpen w)
    (providerToConnect w) (isLoadingPage w) (unlockedProviderDetails w) (trace w).

Definition set_isConnectionLoading (b : bool) (w : World) : World :=
  mkWorld (userProviderConnections w) (bookings w) (providerApplications w)
    (localStorage w) (wallClock w) (ticks w) (faults w) (verifyPayment w)
    (connection w) b (isConnectModalOpen w)
    (providerToConnect w) (isLoadingPage w) (unlockedProviderDetails w) (trace w).

Definition set_connectModal (p : option ProviderApplication) (b : bool) (w : World) : World :=
  mkWorld (userProviderConnections w) (bookings w) (providerApplications w)
    (localStorage w) (wallClock w) (ticks w) (faults w) (verifyPayment w)
    (connection w) (isConnectionLoading w) b
    p (isLoadingPage w) (unlockedProviderDetails w) (trace w).

Definition set_isLoadingPage (b : bool) (w : World) : World :=
  mkWorld (userProviderConnections w) (bookings w) (providerApplications w)
    (localStorage w) (wallClock w) (ticks w) (faults w) (verifyPayment w)
    (connection w) (isConnectionLoading w) (isConnectModalOpen w)
    (providerToConnect w) b (unlockedProviderDetails w) (trace w).

Definition set_unlockedProviderDetails (p : option ProviderApplication) (w : World) : World :=
  mkWorld (userProviderConnections w) (bookings w) (providerApplications w)
    (localStorage w) (wallClock w) (ticks w) (faults w) (verifyPayment w)
    (connection w) (isConnectionLoading w) (isConnectModalOpen w)
    (providerToConnect w) (isLoadingPage w) p (trace w).

Definition add_event (e : Event) (w : World) : World :=
  mkWorld (userProviderConnections w) (bookings w) (providerApplications w)
    (localStorage w) (wallClock w) (ticks w) (faults w) (verifyPayment w)
    (connection w) (isConnectionLoading w) (isConnectModalOpen w)
    (providerToConnect w) (isLoadingPage w) (unlockedProviderDetails w)
    (trace w ++ [e]).

(** ** A state and exception monad for the handlers *)

Inductive Outcome (A : Type) :=
| Ok (a : A)
| Throw (msg : string).
Arguments Ok {A} a.
Arguments Throw {A} msg.

Definition M (A : Type) : Type := World -> Outcome A * World.

#[global] Instance M_ret : MRet M := λ A a w, (Ok a, w).

#[global] Instance M_bind : MBind M := λ A B f m w,
  match m w with
  | (Ok a, w') => f a w'
  | (Throw e, w') => (Throw e, w')
  end.

Definition throw {A} (msg : string) : M A := λ w, (Throw msg, w).

(** [try { m } catch (e) { h e }]. *)
Definition try_catch {A} (m : M A) (h : string -> M A) : M A := λ w,
  match m w with
  | (Ok a, w') => (Ok a, w')
  | (Throw e, w') => h e w'
  end.

(** [try { m } finally { f }]. *)
Definition try_finally {A} (m : M A) (f : M unit) : M A := λ w,
  match m w with
  | (r, w') =>
      match f w' with
      | (Ok _, w'') => (r, w'')
      | (Throw e, w'') => (Throw e, w'')
      end
  end.

Definition modify (f : World -> World) : M unit := λ w, (Ok tt, f w).
Definition gets {A} (f : World -> A) : M A := λ w, (Ok (f w), w).
Definition emit (e : Event) : M unit := modify (add_event e).
Definition when (b : bool) (m : M unit) : M unit := if b then m else mret tt.

(** The final world and the result of running a handler. *)
Definition exec {A} (m : M A) (w : World) : World := (m w).2.
Definition result {A} (m : M A) (w : World) : Outcome A := (m w).1.

(** *** Environment primitives *)

(** [new Date()] and [Timestamp.now()]: both read the wall clock, which then
    moves on by the next delay (it stands still once the delays are used up). *)
Definition readClock : M Z := λ w,
  (Ok (wallClock w), set_clock (wallClock w + hd 0 (ticks w)) (tl (ticks w)) w).

Definition newDate : M Z := readClock.
Definition Timestamp_now : M Z := readClock.

(** Every Firestore request may reject: the head of [faults] tells; requests
    succeed once the list is used up. *)
Definition firestoreRequest : M unit := λ w,
  (if hd false (faults w) then Throw "FirebaseError" else Ok tt,
   set_faults (tl (faults w)) w).

Definition getItem (k : string) : M (option string) :=
  gets (λ w, localStorage w !! k).
Definition setItem (k v : string) : M unit :=
  modify (set_localStorage (insert k v)).
Definition removeItem (k : string) : M unit :=
  modify (set_localStorage (delete k)).

(** *** Firestore requests *)

(** Document key [`${user.uid}_${provider.id}`]. *)
Definition connectionKey (u p : string) : string := u +:+ "_" +:+ p.

Definition markReviewRequested (c : UserProviderConnection) : UserProviderConnection :=
  mkConnection (userId c) (providerId c) (accessType c) (grantedAt c)
    (expiresAt c) (paymentId c) (Some true).

(** [setDoc(doc(db, "userProviderConnections", key), data)]: no merge option,
    the document is replaced. *)
Definition setDoc_connection (key : string) (data : UserProviderConnection) : M unit :=
  firestoreRequest ;;
  modify (set_userProviderConnections (insert key data)) ;;
  emit (SetDocConnection key data).

(** [addDoc(collection(db, "bookings"), data)]. *)
Definition addDoc_booking (data : FirestoreBooking) : M unit :=
  firestoreRequest ;;
  modify (set_bookings (λ l, l ++ [data])) ;;
  emit (AddDocBooking data).

(** [updateDoc(doc(db, "userProviderConnections", key), { reviewRequested: true })]:
    rejects when the document does not exist. *)
Definition updateDoc_reviewRequested (key : string) : M unit :=
  firestoreRequest ;;
  c ← gets (λ w, userProviderConnections w !! key);
  match c with
  | Some c =>
      modify (set_userProviderConnections (insert key (markReviewRequested c))) ;;
      emit (UpdateDocReviewRequested key)
  | None => throw "No document to update"
  end.

(** [where("userId", "==", u)] and [where("isReviewedByCustomer", "==", false)]. *)
Definition isPendingReviewOf (u : string) (b : FirestoreBooking) : bool :=
  match b_userId b, isReviewedByCustomer b with
  | Some v, Some false => String.eqb v u
  | _, _ => false
  end.

(** The [pendingReviewQuery] with its [limit(1)]. *)
Definition getDocs_pendingReview (u : string) : M (list FirestoreBooking) :=
  firestoreRequest ;;
  emit (QueryPendingReview u) ;;
  gets (λ w, take 1 (List.filter (isPendingReviewOf u) (bookings w))).

(** [getDoc(doc(db, "providerApplications", id))]. *)
Definition getDoc_provider (i : string) : M (option ProviderApplication) :=
  firestoreRequest ;;
  gets (λ w, providerApplications w !! i).

(** [fetch('/api/razorpay/verify-payment', ...)] followed by [.json()]. *)
Definition fetch_verifyPayment : M VerificationResult := λ w,
  match verifyPayment w with
  | Some r => (Ok r, w)
  | None => (Throw "Failed to fetch", w)
  end.

(** ** ProviderCard and ProviderDetailsClient

    The two components carry the same [useEffect], [handleFreeAccessUnlock]
    and [handleConnectClick], statement for statement; they are embedded
    once. *)

Definition msPerMinute : Z := 60000.
Definition msPerDay : Z := 86400000.

(** [connectionData.expiresAt ? connectionData.expiresAt.toDate() < new Date() : false]
    once the clock has been read. *)
Definition isExpired (connectionData : UserProviderConnection) (now : Z) : bool :=
  match expiresAt connectionData with
  | Some e => e <? now
  | None => false
  end.

Definition reviewBooking (user : User) (firestoreUser : option FirestoreUser)
    (provider : ProviderApplication) (scheduled created : Z) : FirestoreBooking :=
  {| bookingId := "REVIEW-" +:+ JS.substring0 5 (p_id provider) +:+ "-" +:+ JS.substring0 5 (uid user);
     b_userId := Some (uid user);
     b_providerId := Some (p_id provider);
     customerName :=
       JS.or_str (JS.or_opt (firestoreUser ≫= fs_displayName) (displayName user)) "Valued Customer";
     customerEmail := JS.or_str (JS.or_opt (firestoreUser ≫= fs_email) (email user)) "";
     customerPhone := JS.or_str (JS.or_opt (firestoreUser ≫= fs_mobileNumber) (phoneNumber user)) "";
     addressLine1 := "N/A"; city := "N/A"; state := "N/A"; pincode := "N/A";
     scheduledDate := scheduled;
     scheduledTimeSlot := "N/A";
     services :=
       [ {| serviceId := "provider_review";
            name := "Interaction with " +:+ default "undefined" (fullName provider);
            quantity := 1;
            pricePerUnit := 0 |} ];
     subTotal := 0;
     taxAmount := 0;
     totalAmount := 0;
     paymentMethod := "N/A";
     status := "Completed";
     isReviewedByCustomer := Some false;
     createdAt := created;
     updatedAt := None |}.

(** The [try] block of the review trigger. *)
Definition reviewTrigger (user : User) (firestoreUser : option FirestoreUser)
    (provider : ProviderApplication) : M unit :=
  pendingReviewSnap ← getDocs_pendingReview (uid user);
  match pendingReviewSnap with
  | [] =>
      scheduled ← Timestamp_now;
      created ← Timestamp_now;
      addDoc_booking (reviewBooking user firestoreUser provider scheduled created) ;;
      updateDoc_reviewRequested (connectionKey (uid user) (p_id provider)) ;;
      emit (ConsoleLog ("Review request created for expired connection with provider " +:+ p_id provider))
  | _ :: _ =>
      emit (ConsoleLog "Skipping review request creation; another one is already pending.")
  end.

(** The callback handed to [onSnapshot(connectionDocRef, ...)]; [docSnap] is
    [None] when [docSnap.exists()] is false. *)
Definition onSnapshot_callback (user : User) (firestoreUser : option FirestoreUser)
    (provider : ProviderApplication) (docSnap : option UserProviderConnection) : M unit :=
  match docSnap with
  | Some connectionData =>
      expired ← match expiresAt connectionData with
                | Some _ => now ← newDate; mret (isExpired connectionData now)
                | None => mret false
                end;
      if negb expired then modify (set_connection (Some connectionData))
      else
        modify (set_connection None) ;;
        when (negb (default false (reviewRequested connectionData)))
          (try_catch (reviewTrigger user firestoreUser provider)
             (λ _, emit (ConsoleError "Error creating provider review request:")))
  | None => modify (set_connection None)
  end ;;
  modify (set_isConnectionLoading false).

(** The [useEffect] that subscribes to the connection document, together
    with the delivery of the current snapshot. *)
Definition observeConnection (user : option User) (firestoreUser : option FirestoreUser)
    (provider : ProviderApplication) : M unit :=
  match user with
  | Some u =>
      if JS.truthy (Some (uid u)) && JS.truthy (Some (p_id provider)) then
        modify (set_isConnectionLoading true) ;;
        docSnap ← gets (λ w, userProviderConnections w !! connectionKey (uid u) (p_id provider));
        onSnapshot_callback u firestoreUser provider docSnap
      else modify (set_isConnectionLoading false)
  | None => modify (set_isConnectionLoading false)
  end.

Definition handleFreeAccessUnlock (appConfig : AppSettings) (user : option User)
    (providerForUnlock : ProviderApplication) : M unit :=
  match user with
  | Some u =>
      if negb (JS.truthy (Some (p_id providerForUnlock))) then mret tt
      else
        emit ShowLoading ;;
        try_finally
          (try_catch
             (let expiryMinutes := JS.or_num (freeAccessDurationMinutes appConfig) 30 in
              now ← newDate;
              let expiresAt := now + expiryMinutes * msPerMinute in
              granted ← Timestamp_now;
              let connectionData :=
                {| userId := uid u;
                   providerId := p_id providerForUnlock;
                   accessType := Some "free";
                   grantedAt := granted;
                   expiresAt := Some expiresAt;
                   paymentId := None;
                   reviewRequested := None |} in
              setDoc_connection (connectionKey (uid u) (p_id providerForUnlock)) connectionData ;;
              emit (Toast "Free Access Granted!") ;;
              _ ← newDate; (* the [timestamp] of the e-mail *)
              emit (SendConnectionUnlockEmail "FREE_ACCESS") ;;
              emit (RouterPush ("/provider/" +:+ p_id providerForUnlock)))
             (λ _,
              emit (ConsoleError "Error granting free access:") ;;
              emit (Toast "Error")))
          (emit HideLoading)
  | None => mret tt
  end.

(** [encodeURIComponent] on a string held as its UTF-8 bytes: letters,
    digits and [- _ . ! ~ * ' ( )] are kept, every other byte becomes [%XX]. *)
Definition isUnreserved (c : Ascii.ascii) : bool :=
  let n := Z.of_nat (Ascii.nat_of_ascii c) in
  ((48 <=? n) && (n <=? 57)) || ((65 <=? n) && (n <=? 90)) || ((97 <=? n) && (n <=? 122))
  || (n =? 45) || (n =? 95) || (n =? 46) || (n =? 33) || (n =? 126) || (n =? 42)
  || (n =? 39) || (n =? 40) || (n =? 41).

Definition hexDigit (d : Z) : Ascii.ascii :=
  if d <? 10 then Ascii.ascii_of_nat (48 + Z.to_nat d)
  else Ascii.ascii_of_nat (55 + Z.to_nat d).

Fixpoint encodeURIComponent (s : string) : string :=
  match s with
  | String c s' =>
      if isUnreserved c then String c (encodeURIComponent s')
      else
        let n := Z.of_nat (Ascii.nat_of_ascii c) in
        String "%"%char (String (hexDigit (n / 16)) (String (hexDigit (n mod 16))
          (encodeURIComponent s')))
  | EmptyString => EmptyString
  end.

(** [triggerAuthRedirect] of the auth context. *)
Definition triggerAuthRedirect (intendedPath : string) : M unit :=
  emit (SetAuthActionRedirectPath intendedPath) ;;
  emit (RouterPush ("/auth/login?redirect=" +:+ encodeURIComponent intendedPath)).

Definition handleConnectClick (appConfig : AppSettings) (isLoadingConfig : bool)
    (user : option User) (provider : ProviderApplication) : M unit :=
  match user with
  | None => triggerAuthRedirect ("/provider/" +:+ p_id provider +:+ "?connect=true")
  | Some _ =>
      if isLoadingConfig then mret tt
      else
        let enabledPaidOptions :=
          List.filter opt_enabled (default [] (connectionAccessOptions appConfig)) in
        if (0 <? Z.of_nat (length enabledPaidOptions)) then
          modify (set_connectModal (Some provider) true)
        else if isFreeAccessFallbackEnabled appConfig then
          handleFreeAccessUnlock appConfig user provider
        else emit (Toast "Connection Unavailable")
  end.

(** ** ConnectionAccessDialog *)

(** The [response] object Razorpay passes to the checkout [handler]. *)
Record RazorpayResponse := mkResponse {
  razorpay_payment_id : string;
  razorpay_order_id : string;
  razorpay_signature : string;
}.

(** [selectedOption.durationDays || (id === 'oneTime' ? 1 : (id === 'lifetime' ? 9999 : 0))]. *)
Definition storedDurationDays (selectedOption : ConnectionAccessOption) : Z :=
  JS.or_num (opt_durationDays selectedOption)
    (match opt_id selectedOption with
     | oneTime => 1
     | lifetime => 9999
     | _ => 0
     end).

(** The [handler] of [razorpayOptions]: called by the gateway when the
    checkout completes. *)
Definition razorpay_handler (provider : ProviderApplication)
    (selectedOption : ConnectionAccessOption) (response : RazorpayResponse) : M unit :=
  setItem "razorpayPaymentId" (razorpay_payment_id response) ;;
  setItem "razorpayOrderId" (razorpay_order_id response) ;;
  setItem "razorpaySignature" (razorpay_signature response) ;;
  setItem "fixbroPaymentMethod" "Online" ;;
  setItem "isProcessingConnectionUnlock" "true" ;;
  setItem "connectionProviderId" (p_id provider) ;;
  setItem "connectionProviderName" (JS.or_str (fullName provider) "the provider") ;;
  setItem "connectionAccessType" (AccessOptionId_string (opt_id selectedOption)) ;;
  setItem "connectionDurationDays" (JS.toString (storedDurationDays selectedOption)) ;;
  setItem "connectionAmountPaid" (JS.toString (opt_price selectedOption)) ;;
  emit (RouterPush ("/checkout/thank-you?status=connection-unlocked&providerId=" +:+ p_id provider)).

(** [rzp.on('payment.failed', ...)]. *)
Definition razorpay_onPaymentFailed : M unit :=
  emit (Toast "Payment Failed") ;;
  emit HideLoading.

(** [modal.ondismiss]: the user closed the checkout. *)
Definition razorpay_ondismiss : M unit :=
  emit HideLoading.

(** ** ThankYouPage *)

(** [clearLocalStorageItems(userId, true)], restricted to [localStorage]
    (the cart store and the [userCarts] document are not part of the model). *)
Definition clearLocalStorageItems : M unit :=
  removeItem "isProcessingConnectionUnlock" ;;
  removeItem "connectionProviderId" ;;
  removeItem "connectionAccessType" ;;
  removeItem "connectionDurationDays" ;;
  removeItem "connectionAmountPaid" ;;
  removeItem "fixbroScheduledDate" ;;
  removeItem "fixbroScheduledTimeSlot" ;;
  removeItem "fixbroCustomerAddress" ;;
  removeItem "razorpayPaymentId" ;;
  removeItem "razorpayOrderId" ;;
  removeItem "razorpaySignature" ;;
  removeItem "fixbroAppliedPromoCode" ;;
  removeItem "fixbroBookingDiscountCode" ;;
  removeItem "fixbroBookingDiscountAmount" ;;
  removeItem "fixbroAppliedPromoCodeId" ;;
  removeItem "fixbroAppliedPlatformFees" ;;
  removeItem "isProcessingCancellationFee" ;;
  removeItem "bookingIdForCancellationFee" ;;
  removeItem "cancellationFeeAmount" ;;
  removeItem "fixbroPaymentMethod" ;;
  removeItem "fixbroFinalBookingTotal".

(** [!verificationResult.success || verificationResult.status !== 'captured']. *)
Definition verificationRejected (r : VerificationResult) : bool :=
  negb (success r) || negb (bool_decide (v_status r = Some "captured")).

(** The branch of [processPage] taken when [status=connection-unlocked] and a
    [providerId] are in the query string.  The other branch (bookings and
    cancellation fees) holds no write to [userProviderConnections]. *)
Definition processPage (currentUser : option User) (providerIdParam : string) : M unit :=
  modify (set_isLoadingPage true) ;;
  emit HideLoading ;;
  flag ← getItem "isProcessingConnectionUnlock";
  let isFirstTimeProcessing := bool_decide (flag = Some "true") in
  continue ←
    ((if isFirstTimeProcessing then
       razorpayPaymentId ← getItem "razorpayPaymentId";
       razorpayOrderId ← getItem "razorpayOrderId";
       razorpaySignature ← getItem "razorpaySignature";
       if negb (JS.truthy razorpayPaymentId) || negb (JS.truthy razorpayOrderId)
          || negb (JS.truthy razorpaySignature) then
         emit (Toast "Verification Failed") ;;
         emit (RouterPush ("/provider/" +:+ providerIdParam)) ;;
         modify (set_isLoadingPage false) ;;
         mret false
       else
         try_catch
           (verificationResult ← fetch_verifyPayment;
            (if verificationRejected verificationResult then
               throw (JS.or_str (v_error verificationResult)
                        "Connection payment verification failed.")
             else mret tt) ;;
            emit (Toast "Payment Verified") ;;
            match currentUser with
            | Some u =>
                accessType ← getItem "connectionAccessType";
                stored ← getItem "connectionDurationDays";
                let durationDays := JS.parseInt (JS.or_str stored "0") in
                expiryDate ← newDate;
                let expiresAt :=
                  if negb (bool_decide (accessType = Some "lifetime")) then
                    let finalDuration :=
                      if JS.gt0 durationDays then default 1 durationDays else 1 in
                    Some (expiryDate + finalDuration * msPerDay)
                  else None in
                granted ← Timestamp_now;
                let connectionData :=
                  {| userId := uid u;
                     providerId := providerIdParam;
                     accessType := accessType;
                     grantedAt := granted;
                     expiresAt := expiresAt;
                     paymentId := razorpayPaymentId;
                     reviewRequested := None |} in
                setDoc_connection (connectionKey (uid u) providerIdParam) connectionData ;;
                providerDocSnap ← getDoc_provider providerIdParam;
                match providerDocSnap with
                | Some _ =>
                    _ ← newDate; (* the [timestamp] of the e-mail *)
                    emit (SendConnectionUnlockEmail (JS.or_str razorpayPaymentId "N/A"))
                | None => mret tt
                end
            | None => mret tt
            end ;;
            clearLocalStorageItems ;;
            mret true)
           (λ msg,
            emit (ConsoleError "Error during connection payment verification/update:") ;;
            emit (Toast "Payment Error") ;;
            emit (RouterPush ("/provider/" +:+ providerIdParam)) ;;
            modify (set_isLoadingPage false) ;;
            mret false)
     else mret true) : M bool);
  if (continue : bool) then
    (* here [paymentVerified] is true on both ways in *)
    try_catch
      (providerDocSnap ← getDoc_provider providerIdParam;
       match providerDocSnap with
       | Some p => modify (set_unlockedProviderDetails (Some p))
       | None => throw "Provider details not found after unlocking."
       end)
      (λ _, emit (Toast "Error")) ;;
    modify (set_isLoadingPage false)
  else mret tt.

(** ** Other readers of [expiresAt] *)

(** My-contacts page: [.filter(conn => !conn.expiresAt || conn.expiresAt.toDate() > now)]. *)
Definition MyContactsPage_keeps (conn : UserProviderConnection) (now : Z) : bool :=
  match expiresAt conn with
  | Some e => now <? e
  | None => true
  end.

(** [ExpiryCountdown.calculateTimeLeft]: [difference = +expiryDate - +now];
    the countdown shows "Expired" unless [difference > 0]. *)
Definition ExpiryCountdown_isExpired (expiryDate now : Z) : bool :=
  negb (0 <? expiryDate - now).

(** Admin connections table: the "Expired" badge is shown under
    [accessType !== 'lifetime' && expiresAt && expiresAt.toDate() <= new Date()]
    once [expiresAt.toDate() > new Date()] has failed. *)
Definition AdminConnections_showsExpired (conn : UserProviderConnection) (now : Z) : bool :=
  match expiresAt conn with
  | Some e =>
      if now <? e then false
      else negb (bool_decide (accessType conn = Some "lifetime")) && (e <=? now)
  | None => false
  end.

(** ** Concrete data used in the examples *)

Definition emptyWorld : World :=
  {| userProviderConnections := ∅;
     bookings := [];
     providerApplications := ∅;
     localStorage := ∅;
     wallClock := 0;
     ticks := [];
     faults := [];
     verifyPayment := None;
     connection := None;
     isConnectionLoading := true;
     isConnectModalOpen := false;
     providerToConnect := None;
     isLoadingPage := true;
     unlockedProviderDetails := None;
     trace := [] |}.

Definition alice : User :=
  {| uid := "alice"; displayName := Some "Alice"; email := Some "a@x.in"; phoneNumber := None |}.

Definition plumber : ProviderApplication :=
  {| p_id := "prov1"; fullName := Some "Ravi"; p_email := Some "r@x.in";
     workCategoryName := Some "Plumbing" |}.

Definition painter : ProviderApplication :=
  {| p_id := "prov2"; fullName := Some "Sita"; p_email := None;
     workCategoryName := Some "Painting" |}.

Definition sevenDayOption : ConnectionAccessOption :=
  {| opt_id := sevenDays; opt_label := "7 Days Access"; opt_price := 250;
     opt_durationDays := Some 7; opt_enabled := true |}.

Definition lifetimeOption : ConnectionAccessOption :=
  {| opt_id := lifetime; opt_label := "Lifetime Access"; opt_price := 2000;
     opt_durationDays := None; opt_enabled := true |}.

Definition paymentOk : RazorpayResponse :=
  {| razorpay_payment_id := "pay_1"; razorpay_order_id := "order_1";
     razorpay_signature := "sig_1" |}.

Definition captured : VerificationResult :=
  {| success := true; v_status := Some "captured"; v_error := None |}.

(** No paid tier is on offer and the free fallback is on for 30 minutes. *)
Definition freeOnlyConfig : AppSettings :=
  {| connectionAccessOptions :=
       Some [ {| opt_id := oneTime; opt_label := "One-time Access"; opt_price := 50;
                 opt_durationDays := Some 1; opt_enabled := false |} ];
     isFreeAccessFallbackEnabled := true;
     freeAccessDurationMinutes := Some 30 |}.

(** ** Review submission (CategoryPageClient) *)

(** [updateDoc(bookingDocRef, { isReviewedByCustomer: true, updatedAt: Timestamp.now() })]. *)
Definition markReviewed (now : Z) (b : FirestoreBooking) : FirestoreBooking :=
  mkBooking (bookingId b) (b_userId b) (b_providerId b) (customerName b)
    (customerEmail b) (customerPhone b) (addressLine1 b) (city b) (state b)
    (pincode b) (scheduledDate b) (scheduledTimeSlot b) (services b)
    (subTotal b) (taxAmount b) (totalAmount b) (paymentMethod b) (status b)
    (Some true) (createdAt b) (Some now).

(** ** Vocabulary of the statements *)

(** The events a handler adds to the trace. *)
Definition emitted {A} (m : M A) (w : World) : list Event :=
  drop (length (trace w)) (trace (exec m w)).

(** Number of pending review placeholders of a user. *)
Definition pendingCount (u : string) (bks : list FirestoreBooking) : nat :=
  length (List.filter (isPendingReviewOf u) bks).

(** The guard read by the review trigger: [!connectionData.reviewRequested]. *)
Definition guardSet (c : UserProviderConnection) : bool :=
  default false (reviewRequested c).

(** [n] successive deliveries of the snapshot to the same component. *)
Fixpoint observeTimes (n : nat) (user : option User) (firestoreUser : option FirestoreUser)
    (provider : ProviderApplication) : M unit :=
  match n with
  | O => mret tt
  | S k =>
      observeConnection user firestoreUser provider ;;
      observeTimes k user firestoreUser provider
  end.

(** What can happen to the world while review placeholders are at stake:
    some signed-in session observes some provider's connection, time passes
    and requests start or stop failing, or a customer submits the review of
    a booking. *)
Inductive step : World -> World -> Prop :=
| step_observe user firestoreUser provider w :
    step w (exec (observeConnection user firestoreUser provider) w)
| step_environment t ts fs w :
    step w (set_faults fs (set_clock t ts w))
| step_reviewSubmitted i now w :
    step w (set_bookings (alter (markReviewed now) i) w).

(** The situation the review trigger is written for: a signed-in session
    looks at a provider whose stored connection has expired by the clock and
    whose guard is not set. *)
Definition observesExpired (user : User) (provider : ProviderApplication)
    (c : UserProviderConnection) (w : World) : Prop :=
  JS.truthy (Some (uid user)) = true
  /\ JS.truthy (Some (p_id provider)) = true
  /\ userProviderConnections w !! connectionKey (uid user) (p_id provider) = Some c
  /\ isExpired c (wallClock w) = true
  /\ guardSet c = false.

(** No pending Firestore request is going to reject. *)
Definition requestsSucceed (w : World) : Prop := Forall (λ b, b = false) (faults w).

(** The wall clock never runs backwards. *)
Definition clockMonotone (w : World) : Prop := Forall (λ d, 0 <= d) (ticks w).

(** What a skipped attempt leaves in the trace. *)
Definition skipEvents (u : string) : list Event :=
  [ QueryPendingReview u;
    ConsoleLog "Skipping review request creation; another one is already pending." ].

(** A checkout followed by the thank-you page. *)
Definition purchase (currentUser : option User) (provider : ProviderApplication)
    (selectedOption : ConnectionAccessOption) (response : RazorpayResponse) : M unit :=
  razorpay_handler provider selectedOption response ;;
  processPage currentUser (p_id provider).

(** Alice holds two connections, both past their expiry at instant [now]. *)
Definition twoExpired (now : Z) : World :=
  set_clock now []
    (set_userProviderConnections
       (insert (connectionKey "alice" "prov2")
          {| userId := "alice"; providerId := "prov2"; accessType := Some "oneTime";
             grantedAt := 2000; expiresAt := Some (2000 + msPerDay);
             paymentId := Some "pay_2"; reviewRequested := None |})
       (set_userProviderConnections
          (insert (connectionKey "alice" "prov1")
             {| userId := "alice"; providerId := "prov1"; accessType := Some "sevenDays";
                grantedAt := 1000; expiresAt := Some (1000 + 7 * msPerDay);
                paymentId := Some "pay_1"; reviewRequested := None |})
          emptyWorld)).

(** A seven-day record granted at instant 1000. *)
Definition sevenDayRecord : UserProviderConnection :=
  {| userId := "alice"; providerId := "prov1"; accessType := Some "sevenDays";
     grantedAt := 1000; expiresAt := Some (1000 + 7 * msPerDay);
     paymentId := Some "pay_1"; reviewRequested := None |}.

Definition worldWith (c : UserProviderConnection) (now : Z) : World :=
  set_clock now []
    (set_userProviderConnections (insert (connectionKey "alice" "prov1") c) emptyWorld).

(** A browser in which the gateway will confirm the capture and the clock
    moves by one millisecond between the next two reads. *)
Definition shopWorld : World :=
  {| userProviderConnections := ∅;
     bookings := [];
     providerApplications := {[ "prov1" := plumber ]};
     localStorage := ∅;
     wallClock := 1000;
     ticks := [1];
     faults := [];
     verifyPayment := Some captured;
     connection := None;
     isConnectionLoading := true;
     isConnectModalOpen := false;
     providerToConnect := None;
     isLoadingPage := true;
     unlockedProviderDetails := None;
     trace := [] |}.

(** The same browser right after a completed seven-day checkout for the
    provider "prov1". *)
Definition checkoutDone : World :=
  exec (razorpay_handler plumber sevenDayOption paymentOk) shopWorld.

(** The record of an expired one-time access whose review was requested. *)
Definition staleRecord : UserProviderConnection :=
  {| userId := "alice"; providerId := "prov1"; accessType := Some "oneTime";
     grantedAt := 5; expiresAt := Some 500; paymentId := Some "pay_0";
     reviewRequested := Some true |}.

(** What the catch block of the review trigger logs. *)
Definition errorEvent : Event := ConsoleError "Error creating provider review request:".

(** * Further components *)

(** ** The WhatsApp button (ProviderCard, ProviderDetailsClient, ThankYouPage, my-contacts) *)

(** [\d]: an ASCII decimal digit. *)
Definition isDigit (c : Ascii.ascii) : bool :=
  let n := Z.of_nat (Ascii.nat_of_ascii c) in
  (48 <=? n) && (n <=? 57).

(** [s.replace(/\D/g, '')]. *)
Fixpoint removeNonDigits (s : string) : string :=
  match s with
  | String c s' => if isDigit c then String c (removeNonDigits s') else removeNonDigits s'
  | EmptyString => EmptyString
  end.

(** [s.startsWith(p)]. *)
Fixpoint startsWith (p s : string) : bool :=
  match p with
  | String a p' =>
      match s with
      | String b s' => Ascii.eqb a b && startsWith p' s'
      | EmptyString => false
      end
  | EmptyString => true
  end.

(** [s.substring(1)]. *)
Definition substringFrom1 (s : string) : string :=
  match s with
  | String _ s' => s'
  | EmptyString => EmptyString
  end.

(** The number put into the [wa.me] link. *)
Definition normalizePhone (mobileNumber : string) : string :=
  let phoneNumber := removeNonDigits mobileNumber in
  if Nat.eqb (String.length phoneNumber) 10 then "91" +:+ phoneNumber
  else if Nat.eqb (String.length phoneNumber) 11 && startsWith "0" phoneNumber
       then "91" +:+ substringFrom1 phoneNumber
       else phoneNumber.

(** [handleWhatsAppClick(mobileNumber)] of the thank-you page: the URL handed
    to [window.open], if any.  [message] is the greeting of the component. *)
Definition handleWhatsAppClick (message : string) (mobileNumber : option string) : option string :=
  if JS.truthy mobileNumber then
    Some ("https://wa.me/" +:+ normalizePhone (default "" mobileNumber)
          +:+ "?text=" +:+ encodeURIComponent message)
  else None.

(** The same handler on the provider card and page, where it also asks for
    the active [connection]. *)
Definition handleWhatsAppClick_card (connection : option UserProviderConnection)
    (mobileNumber : option string) : option string :=
  match connection with
  | Some _ =>
      handleWhatsAppClick
        "Hi, I connected with you on Fixbro and would like to inquire about your services."
        mobileNumber
  | None => None
  end.

Fixpoint allDigits (s : string) : bool :=
  match s with
  | String c s' => isDigit c && allDigits s'
  | EmptyString => true
  end.

(** ** ExpiryCountdown *)

(** [s.padStart(2, '0')]. *)
Definition padStart2 (s : string) : string :=
  match String.length s with
  | O => "00"
  | S O => "0" +:+ s
  | _ => s
  end.

(** The four numbers of [calculateTimeLeft] for a positive [difference] in
    milliseconds.  The quotients are floored, so integer division gives the
    same values (exactly so for differences of up to centuries). *)
Definition timeParts (difference : Z) : Z * Z * Z * Z :=
  let days := difference / (1000 * 60 * 60 * 24) in
  let hours := (difference / (1000 * 60 * 60)) mod 24 in
  let minutes := (difference / 1000 / 60) mod 60 in
  let seconds := (difference / 1000) mod 60 in
  (days, hours, minutes, seconds).

(** [calculateTimeLeft]: the string and the [isExpired] flag it sets. *)
Definition calculateTimeLeft (expiryDate now : Z) : string * bool :=
  let difference := expiryDate - now in
  if 0 <? difference then
    let '(days, hours, minutes, seconds) := timeParts difference in
    if 0 <? days then
      (JS.toString days +:+ "d " +:+ JS.toString hours +:+ "h left", false)
    else
      (padStart2 (JS.toString hours) +:+ ":" +:+ padStart2 (JS.toString minutes)
       +:+ ":" +:+ padStart2 (JS.toString seconds), false)
  else ("Expired", true).

(** What the component renders. *)
Definition ExpiryCountdown_text (expiryDate now : Z) : string :=
  let '(timeLeft, isExpired) := calculateTimeLeft expiryDate now in
  if isExpired then "Access Expired" else "Access expires: " +:+ timeLeft.

(** ** [Array.prototype.sort]

    [l.sort(compareFn)]: stable, and [a] is placed before [b] when
    [compareFn(a, b) <= 0]. *)
Fixpoint sortInsert {A} (compareFn : A -> A -> Z) (x : A) (l : list A) : list A :=
  match l with
  | [] => [x]
  | y :: l' =>
      if compareFn x y <=? 0 then x :: y :: l'
      else y :: sortInsert compareFn x l'
  end.

Definition arraySort {A} (compareFn : A -> A -> Z) (l : list A) : list A :=
  foldr (sortInsert compareFn) [] l.

(** The order left by a sort on [key]. *)
Definition byKey {A} (key : A -> Z) (a b : A) : Prop := key a <= key b.

(** ** Tiered unit prices (ThankYouPage)

    Amounts are whole numbers of rupees. *)

Record PriceVariant := mkVariant {
  fromQuantity : Z;
  toQuantity : option Z;
  pv_price : Z;
}.

(** The part of [FirestoreService] read by the price functions; an absent
    [hasPriceVariants] is [false]. *)
Record FirestoreService := mkService {
  price : Z;
  discountedPrice : option Z;
  hasPriceVariants : bool;
  priceVariants : option (list PriceVariant);
}.

(** [service.discountedPrice ?? service.price]. *)
Definition unitPrice (service : FirestoreService) : Z :=
  default (price service) (discountedPrice service).

(** [!service.hasPriceVariants || !service.priceVariants || service.priceVariants.length === 0]. *)
Definition noVariants (service : FirestoreService) : bool :=
  negb (hasPriceVariants service)
  || match priceVariants service with
     | Some l => Nat.eqb (length l) 0
     | None => true
     end.

(** [[...priceVariants].sort((a, b) => a.fromQuantity - b.fromQuantity)]. *)
Definition sortVariants (l : list PriceVariant) : list PriceVariant :=
  arraySort (λ a b, fromQuantity a - fromQuantity b) l.

(** [n >= tier.fromQuantity && n <= (tier.toQuantity ?? Infinity)]. *)
Definition covers (n : Z) (tier : PriceVariant) : bool :=
  (fromQuantity tier <=? n)
  && match toQuantity tier with
     | Some e => n <=? e
     | None => true
     end.

Definition startsAtOrBelow (n : Z) (tier : PriceVariant) : bool := fromQuantity tier <=? n.

Definition getPriceForNthUnit (service : FirestoreService) (n : Z) : Z :=
  if noVariants service || (n <=? 0) then unitPrice service
  else
    let sortedVariants := sortVariants (default [] (priceVariants service)) in
    match List.find (covers n) sortedVariants with
    | Some applicableTier => pv_price applicableTier
    | None =>
        match List.find (startsAtOrBelow n) (rev sortedVariants) with
        | Some lastApplicableTier => pv_price lastApplicableTier
        | None => unitPrice service
        end
    end.

(** The [for (let i = 1; i <= quantity; i++)] loop is a left fold over
    [1 .. quantity]. *)
Definition calculateIncrementalTotalPriceForItem (service : FirestoreService) (quantity : Z) : Z :=
  if noVariants service then unitPrice service * quantity
  else foldl (λ total i, total + getPriceForNthUnit service i) 0 (seqZ 1 quantity).

(** A service with three tiers stored out of order, and a gap after 10. *)
Definition tieredService : FirestoreService :=
  {| price := 500; discountedPrice := Some 450; hasPriceVariants := true;
     priceVariants :=
       Some [ {| fromQuantity := 6; toQuantity := Some 10; pv_price := 300 |};
              {| fromQuantity := 1; toQuantity := Some 2; pv_price := 400 |};
              {| fromQuantity := 3; toQuantity := Some 5; pv_price := 350 |} ] |}.
(** The same tiers stored in ascending order. *)
Definition tieredServiceSorted : FirestoreService :=
  {| price := 500; discountedPrice := Some 450; hasPriceVariants := true;
     priceVariants :=
       Some [ {| fromQuantity := 1; toQuantity := Some 2; pv_price := 400 |};
              {| fromQuantity := 3; toQuantity := Some 5; pv_price := 350 |};
              {| fromQuantity := 6; toQuantity := Some 10; pv_price := 300 |} ] |}.

(** The keys [clearLocalStorageItems] removes, in the order of the source. *)
Definition clearedKeys : list string :=
  [ "isProcessingConnectionUnlock"; "connectionProviderId"; "connectionAccessType";
    "connectionDurationDays"; "connectionAmountPaid"; "fixbroScheduledDate";
    "fixbroScheduledTimeSlot"; "fixbroCustomerAddress"; "razorpayPaymentId";
    "razorpayOrderId"; "razorpaySignature"; "fixbroAppliedPromoCode";
    "fixbroBookingDiscountCode"; "fixbroBookingDiscountAmount"; "fixbroAppliedPromoCodeId";
    "fixbroAppliedPlatformFees"; "isProcessingCancellationFee"; "bookingIdForCancellationFee";
    "cancellationFeeAmount"; "fixbroPaymentMethod"; "fixbroFinalBookingTotal" ].

(** A later moment in the same browser: the clock shows [t] and will move
    by the delays [ts]. *)
Definition laterAt (t : Z) (ts : list Z) (w : World) : World := set_clock t ts w.

(** ** MyContactsPage

    The callback handed to [onSnapshot] on the user's connections.  Its
    argument is the list of documents of the query snapshot; its result is
    the list handed to [setConnections]. *)

(** A connection with the [providerDetails] looked up for it, if any. *)
Definition EnrichedConnection : Type := UserProviderConnection * option ProviderApplication.

(** One of the [enrichedPromises]: a failed or empty lookup leaves the
    connection without details. *)
Definition enrichConnection (conn : UserProviderConnection) : M EnrichedConnection :=
  if JS.truthy (Some (providerId conn)) then
    try_catch
      (providerDocSnap ← getDoc_provider (providerId conn);
       match providerDocSnap with
       | Some p => mret (conn, Some p)
       | None => mret (conn, None)
       end)
      (λ _,
       emit (ConsoleError ("Failed to fetch provider details for ID " +:+ providerId conn)) ;;
       mret (conn, None))
  else mret (conn, None).

(** [Promise.all(fetchedConnections.map(...))]: the lookups are issued in
    the order of the list and none of them rejects. *)
Fixpoint enrichAll (conns : list UserProviderConnection) : M (list EnrichedConnection) :=
  match conns with
  | [] => mret []
  | conn :: rest =>
      e ← enrichConnection conn;
      es ← enrichAll rest;
      mret (e :: es)
  end.

(** [(a, b) => (b.grantedAt?.toMillis() || 0) - (a.grantedAt?.toMillis() || 0)]. *)
Definition byGrantedAtDesc (a b : EnrichedConnection) : Z :=
  JS.or_num (Some (grantedAt b.1)) 0 - JS.or_num (Some (grantedAt a.1)) 0.

Definition contactsSnapshot (docs : list UserProviderConnection) : M (list EnrichedConnection) :=
  now ← newDate;
  let fetchedConnections := List.filter (λ conn, MyContactsPage_keeps conn now) docs in
  resolvedConnections ← enrichAll fetchedConnections;
  mret (arraySort byGrantedAtDesc resolvedConnections).

(** ** AdminConnectionsPage *)

(** [deleteDoc(doc(db, "userProviderConnections", connectionId))]. *)
Definition deleteDoc_connection (key : string) : M unit :=
  firestoreRequest ;;
  modify (set_userProviderConnections (delete key)).

(** [handleDeleteConnection]; the [isDeleting] marker of the row, set before
    the [try] and reset in its [finally], is local to the table and not part
    of the world. *)
Definition handleDeleteConnection (connectionId : string) : M unit :=
  if negb (JS.truthy (Some connectionId)) then emit (Toast "Error")
  else
    try_finally
      (try_catch
         (deleteDoc_connection connectionId ;;
          emit (Toast "Success"))
         (λ _,
          emit (ConsoleError "Error deleting connection:") ;;
          emit (Toast "Error")))
      (mret tt).

(** ** The review popup (AppLayout and ReviewSubmissionModal) *)

(** [where("userId", "==", u)], [where("status", "==", "Completed")] and
    [where("isReviewedByCustomer", "==", false)]. *)
Definition isPopupCandidate (u : string) (b : FirestoreBooking) : bool :=
  match b_userId b, isReviewedByCustomer b with
  | Some v, Some false => String.eqb v u && String.eqb (status b) "Completed"
  | _, _ => false
  end.

(** The popup state of [AppLayout]: the booking to review, with the id of
    its document (its position in the collection), and whether the popup is
    open. *)
Definition PopupState : Type := option (nat * FirestoreBooking) * bool.

(** [fetchPendingReview]: the query with its [limit(1)]; the [await] is not
    guarded, a rejected query rejects the callback. *)
Definition fetchPendingReview (user : option User) (authIsLoading : bool)
    (popup : PopupState) : M PopupState :=
  match user with
  | Some u =>
      if negb authIsLoading && negb (bool_decide (is_Some popup.1)) && negb popup.2 then
        firestoreRequest ;;
        snap ← gets (λ w, list_find (λ b, isPopupCandidate (uid u) b = true) (bookings w));
        match snap with
        | Some b => mret (Some b, true)
        | None => mret popup
        end
      else mret popup
  | None => mret popup
  end.

(** [booking.services[0].serviceId === 'provider_review'], evaluated when
    [booking.services.length > 0]. *)
Definition isProviderReviewBooking (booking : FirestoreBooking) : bool :=
  match services booking with
  | s :: _ => String.eqb (serviceId s) "provider_review"
  | [] => false
  end.

(** [updateDoc(bookingDocRef, { isReviewedByCustomer: true, updatedAt })]:
    rejects when the document does not exist. *)
Definition updateDoc_reviewed (i : nat) (now : Z) : M unit :=
  firestoreRequest ;;
  b ← gets (λ w, bookings w !! i);
  match b with
  | Some _ => modify (set_bookings (alter (markReviewed now) i))
  | None => throw "No document to update"
  end.

(** [onSubmit] of the modal.  [booking] is the popup's booking with its
    document id; [serviceLoaded] tells whether [serviceToReview] is set.
    The review document added to [adminReviews] is not kept in the world:
    of that [addDoc] only the request, which may reject, is modelled. *)
Definition onSubmit (user : option User) (booking : option nat * FirestoreBooking)
    (isProviderReview serviceLoaded : bool) : M unit :=
  match user, booking.1 with
  | Some _, Some i =>
      if negb (JS.truthy (b_providerId booking.2)) then emit (Toast "Error")
      else if negb isProviderReview && negb serviceLoaded then emit (Toast "Error")
      else
        try_finally
          (try_catch
             (_ ← Timestamp_now; (* [createdAt] of the review *)
              firestoreRequest ;; (* [addDoc(collection(db, "adminReviews"), reviewData)] *)
              now ← Timestamp_now;
              updateDoc_reviewed i now ;;
              emit (Toast "Review Submitted"))
             (λ _,
              emit (ConsoleError "Error submitting review:") ;;
              emit (Toast "Error")))
          (mret tt)
  | _, _ => emit (Toast "Error")
  end.

(** ** The login redirect (AuthContext)

    [router.push] takes the browser to a URL; the login page reads the
    [redirect] parameter back with [searchParams.get].  Strings are held as
    their UTF-8 bytes, as for [encodeURIComponent]. *)

(** The part of [s] before the first [sep] (all of [s] without one). *)
Fixpoint beforeFirst (sep : Ascii.ascii) (s : string) : string :=
  match s with
  | String c s' => if Ascii.eqb c sep then EmptyString else String c (beforeFirst sep s')
  | EmptyString => EmptyString
  end.

(** The part of [s] after the first [sep], if there is one. *)
Fixpoint afterFirst (sep : Ascii.ascii) (s : string) : option string :=
  match s with
  | String c s' => if Ascii.eqb c sep then Some s' else afterFirst sep s'
  | EmptyString => None
  end.

(** The query of a URL: what stands between the first [?] and the
    fragment. *)
Definition queryOf (url : string) : string :=
  default "" (afterFirst "?"%char (beforeFirst "#"%char url)).

(** [s.split(sep)] for a separator of one character. *)
Fixpoint splitOn (sep : Ascii.ascii) (s : string) : list string :=
  match s with
  | String c s' =>
      if Ascii.eqb c sep then EmptyString :: splitOn sep s'
      else match splitOn sep s' with
           | h :: t => String c h :: t
           | [] => [String c EmptyString]
           end
  | EmptyString => [EmptyString]
  end.

Definition hexVal (c : Ascii.ascii) : option Z :=
  let n := Z.of_nat (Ascii.nat_of_ascii c) in
  if (48 <=? n) && (n <=? 57) then Some (n - 48)
  else if (65 <=? n) && (n <=? 70) then Some (n - 55)
  else if (97 <=? n) && (n <=? 102) then Some (n - 87)
  else None.

(** Decoding of a name or value of a query: [+] is a space, [%XX] is the
    byte XX, a [%] not followed by two hexadecimal digits stays. *)
Fixpoint formDecode (s : string) : string :=
  match s with
  | String c s' =>
      if Ascii.eqb c "%"%char then
        match s' with
        | String a (String b rest) =>
            match hexVal a, hexVal b with
            | Some x, Some y =>
                String (Ascii.ascii_of_nat (Z.to_nat (16 * x + y))) (formDecode rest)
            | _, _ => String c (formDecode s')
            end
        | _ => String c (formDecode s')
        end
      else String (if Ascii.eqb c "+"%char then " "%char else c) (formDecode s')
  | EmptyString => EmptyString
  end.

(** One [name=value] sequence of a query. *)
Definition parsePair (sequence : string) : string * string :=
  (formDecode (beforeFirst "="%char sequence),
   formDecode (default "" (afterFirst "="%char sequence))).

(** [new URLSearchParams(query).get(name)]. *)
Definition searchParams_get (name : string) (query : string) : option string :=
  let sequences := List.filter (λ s, negb (String.eqb s "")) (splitOn "&"%char query) in
  snd <$> List.find (λ p, String.eqb p.1 name) (parsePair <$> sequences).

Definition ADMIN_EMAIL : string := "fixbro.in@gmail.com".

(** [s.toLowerCase()] on the ASCII letters; no other character lower-cases
    to a character of [ADMIN_EMAIL]. *)
Definition lowerChar (c : Ascii.ascii) : Ascii.ascii :=
  let n := Ascii.nat_of_ascii c in
  if (Nat.leb 65 n && Nat.leb n 90)%bool then Ascii.ascii_of_nat (n + 32) else c.

Fixpoint toLowerCase (s : string) : string :=
  match s with
  | String c s' => String (lowerChar c) (toLowerCase s')
  | EmptyString => EmptyString
  end.

(** The [finalRedirectPath] computed by [handleSuccessfulAuth] and by
    [completeProfileSetup] from the e-mail of the user, the [redirect]
    parameter and [authActionRedirectPath]. *)
Definition finalRedirectPath (email redirectPathFromQuery authActionRedirectPath : option string)
    : string :=
  if match email with
     | Some e => String.eqb (toLowerCase e) (toLowerCase ADMIN_EMAIL)
     | None => false
     end
  then "/admin"
  else if JS.truthy redirectPathFromQuery
          && negb (startsWith "/auth/" (default "" redirectPathFromQuery))
  then default "" redirectPathFromQuery
  else if JS.truthy authActionRedirectPath
          && negb (startsWith "/auth/" (default "" authActionRedirectPath))
  then default "" authActionRedirectPath
  else "/".

(** No character of the string is one of [& = # ? +]. *)
Fixpoint queryInert (s : string) : bool :=
  match s with
  | String c s' =>
      negb (Ascii.eqb c "&"%char) && negb (Ascii.eqb c "="%char)
      && negb (Ascii.eqb c "#"%char) && negb (Ascii.eqb c "?"%char)
      && negb (Ascii.eqb c "+"%char) && queryInert s'
  | EmptyString => true
  end.

(** ** The device fingerprint (AuthContext)

    The loop of [getSimpleDeviceId] over [dataString], given as its UTF-16
    code units.  Its result is printed as [Math.abs(hash).toString(36)]. *)

(** [x | 0]: the signed 32-bit integer congruent to [x]. *)
Definition toInt32 (x : Z) : Z := (x + 2 ^ 31) mod 2 ^ 32 - 2 ^ 31.

(** [hash = ((hash << 5) - hash) + char; hash |= 0]: the shift wraps to 32
    bits, the subtraction and the addition are exact. *)
Definition hashStep (hash char : Z) : Z :=
  toInt32 (toInt32 (hash * 2 ^ 5) - hash + char).

Definition simpleHash (dataString : list Z) : Z := foldl hashStep 0 dataString.

(** The polynomial [c0 * 31^(n-1) + ... + c(n-1)], without any wrapping. *)
Definition polynomial31 (dataString : list Z) : Z :=
  foldl (λ h c, 31 * h + c) 0 dataString.

(** ** AdminConnectionsPage: the table

    The callback handed to [onSnapshot] on the whole collection.  The
    [users] collection is an argument; [providerApplications] is read from
    the world. *)

(** [[...new Set(l)]]: the first occurrences, in order. *)
Definition newSet (l : list string) : list string :=
  foldl (λ acc x, if bool_decide (x ∈ acc) then acc else acc ++ [x]) [] l.

(** [l.filter(Boolean)] on strings. *)
Definition filterBoolean (l : list string) : list string :=
  List.filter (λ s, JS.truthy (Some s)) l.

Definition CHUNK_SIZE : nat := 30.

(** The chunks visited by [for (let i = 0; i < ids.length; i += CHUNK_SIZE)]
    with [ids.slice(i, i + CHUNK_SIZE)]; [fuel] bounds the number of rounds. *)
Fixpoint chunkLoop (fuel i : nat) (ids : list string) : list (list string) :=
  match fuel with
  | O => []
  | S fuel' =>
      if Nat.ltb i (length ids) then
        take CHUNK_SIZE (drop i ids) :: chunkLoop fuel' (i + CHUNK_SIZE) ids
      else []
  end.

Definition chunks (ids : list string) : list (list string) :=
  chunkLoop (length ids) 0 ids.

(** The [forEach] over the snapshot of an [in] query: the documents of the
    collection whose id is one of [ks] are put into the map. *)
Definition fill {A} (collection : gmap string A) (found : gmap string A) (ks : list string)
    : gmap string A :=
  foldl (λ m k, match collection !! k with
                | Some v => <[k := v]> m
                | None => m
                end) found ks.

(** [getDocs(query(collection, where(documentId(), "in", chunk)))] and the
    [forEach]; an empty chunk sends no query. *)
Definition fetchChunk {A} (collection : gmap string A) (chunk : list string)
    (found : gmap string A) : M (gmap string A) :=
  if Nat.ltb 0 (length chunk) then
    firestoreRequest ;;
    mret (fill collection found chunk)
  else mret found.

Fixpoint fetchChunks {A} (collection : gmap string A) (cs : list (list string))
    (found : gmap string A) : M (gmap string A) :=
  match cs with
  | [] => mret found
  | chunk :: rest =>
      found' ← fetchChunk collection chunk found;
      fetchChunks collection rest found'
  end.

(** A row of the table: the connection and the five looked-up columns,
    absent when the enrichment failed. *)
Record ConnectionRow := mkRow {
  row_connection : UserProviderConnection;
  userName : option string;
  userEmail : option string;
  userMobileNumber : option string;
  providerName : option string;
  providerWorkCategory : option string;
}.

Definition enrichRow (usersMap : gmap string FirestoreUser)
    (providersMap : gmap string ProviderApplication) (conn : UserProviderConnection)
    : ConnectionRow :=
  let user := usersMap !! userId conn in
  let provider := providersMap !! providerId conn in
  {| row_connection := conn;
     userName := Some (JS.or_str (user ≫= fs_displayName) "Unknown User");
     userEmail := Some (JS.or_str (user ≫= fs_email) "N/A");
     userMobileNumber := Some (JS.or_str (user ≫= fs_mobileNumber) "N/A");
     providerName := Some (JS.or_str (provider ≫= fullName) "Unknown Provider");
     providerWorkCategory := Some (JS.or_str (provider ≫= workCategoryName) "N/A") |}.

Definition basicRow (conn : UserProviderConnection) : ConnectionRow :=
  {| row_connection := conn; userName := None; userEmail := None;
     userMobileNumber := None; providerName := None; providerWorkCategory := None |}.

(** The snapshot callback: the rows handed to [setConnections]. *)
Definition adminSnapshot (users : gmap string FirestoreUser)
    (fetchedConnections : list UserProviderConnection) : M (list ConnectionRow) :=
  match fetchedConnections with
  | [] => mret []
  | _ :: _ =>
      try_catch
        (let userIds := newSet (filterBoolean (userId <$> fetchedConnections)) in
         let providerIds := newSet (filterBoolean (providerId <$> fetchedConnections)) in
         usersMap ← fetchChunks users (chunks userIds) ∅;
         providerApplications ← gets providerApplications;
         providersMap ← fetchChunks providerApplications (chunks providerIds) ∅;
         mret (enrichRow usersMap providersMap <$> fetchedConnections))
        (λ _,
         emit (ConsoleError "Error enriching connection data:") ;;
         emit (Toast "Data Error") ;;
         mret (basicRow <$> fetchedConnections))
  end.

(** ** ConnectionAccessDialog: proceeding to payment *)

(** The answer of [/api/razorpay/create-order]. *)
Record OrderDetails := mkOrder {
  order_id : string;
  order_amount : Z;
}.

(** What [rzp.open()] shows: the checkout for an option and an order. *)
Record Checkout := mkCheckout {
  checkout_option : ConnectionAccessOption;
  checkout_order : OrderDetails;
}.

(** [handleProceedToPayment].  The payment settings of the application, the
    loading of the gateway script and the order service are arguments:
    [createOrder amount] is [None] when the request fails or its answer is
    not ok.  The result is the value of [isProcessing] the handler leaves
    (it starts from false, the button being disabled otherwise) and the
    checkout it opened, if any.  The amount asked for is
    [Math.round(price * 100)], prices being whole rupees. *)
Definition handleProceedToPayment (selectedOptionId : option AccessOptionId)
    (user : option User) (provider : option ProviderApplication)
    (options : list ConnectionAccessOption)
    (enableOnlinePayment : bool) (razorpayKeyId : option string) (scriptLoaded : bool)
    (createOrder : Z -> option OrderDetails) : M (bool * option Checkout) :=
  match selectedOptionId with
  | None => emit (Toast "Please select an option.") ;; mret (false, None)
  | Some i =>
      match user, provider with
      | Some _, Some _ =>
          match List.find (λ opt, bool_decide (opt_id opt = i)) options with
          | None => emit (Toast "Error") ;; mret (false, None)
          | Some selectedOption =>
              emit ShowLoading ;;
              if negb enableOnlinePayment || negb (JS.truthy razorpayKeyId) then
                emit (Toast "Online Payments Disabled") ;;
                emit HideLoading ;;
                mret (false, None)
              else if negb scriptLoaded then
                emit (Toast "Error") ;;
                emit HideLoading ;;
                mret (false, None)
              else
                match createOrder (opt_price selectedOption * 100) with
                | Some orderDetails =>
                    mret (true, Some {| checkout_option := selectedOption;
                                        checkout_order := orderDetails |})
                | None =>
                    emit (Toast "Payment Error") ;;
                    emit HideLoading ;;
                    mret (false, None)
                end
          end
      | _, _ => emit (Toast "Error") ;; mret (false, None)
      end
  end.


(** How often the loading overlay is switched on and off. *)
Definition countShow (events : list Event) : nat :=
  length (List.filter (λ e, match e with ShowLoading => true | _ => false end) events).
Definition countHide (events : list Event) : nat :=
  length (List.filter (λ e, match e with HideLoading => true | _ => false end) events).



(** ** Proof automation *)

Ltac unfold_model :=
  unfold emitted, exec, result, purchase,
     observeConnection, onSnapshot_callback, reviewTrigger, handleConnectClick,
     handleFreeAccessUnlock, triggerAuthRedirect,
     razorpay_handler, razorpay_onPaymentFailed, razorpay_ondismiss,
     processPage, clearLocalStorageItems,
     setDoc_connection, addDoc_booking, updateDoc_reviewRequested, getDocs_pendingReview,
     getDoc_provider, fetch_verifyPayment,
     getItem, setItem, removeItem, newDate, Timestamp_now, readClock, firestoreRequest,
     when, emit, modify, gets, try_catch, try_finally, throw,
     mbind, M_bind, mret, M_ret in *.

(** Case analysis on a condition that is not itself a conditional. *)
Ltac split_atom :=
  match goal with
  | |- context [match ?x with _ => _ end] =>
      lazymatch x with
      | context [match _ with _ => _ end] => fail
      | _ => destruct x eqn:?
      end
  end.

(** Run a handler along every path through its conditions. *)
Ltac run := unfold_model; cbn; repeat (split_atom; cbn).

(** [emitted] once the final trace is known. *)
Ltac trace_norm :=
  rewrite <- ?app_assoc; cbn [app];
  rewrite ?drop_app_length, ?drop_all.

(** Membership of an event in an explicit list of events. *)
Ltac in_events H :=
  repeat (apply elem_of_cons in H as [H | H]; [try discriminate H |]);
  try (apply not_elem_of_nil in H; destruct H).

(** * Properties *)

(** ** Sanity checks of the JavaScript helpers *)

Example toString_7 : JS.toString 7 = "7".
Proof. reflexivity. Qed.

Example toString_9999 : JS.toString 9999 = "9999".
Proof. reflexivity. Qed.

Example toString_neg : JS.toString (-30) = "-30".
Proof. reflexivity. Qed.

Example parseInt_7 : JS.parseInt "7" = Some 7.
Proof. reflexivity. Qed.

Example parseInt_prefix : JS.parseInt " 12px" = Some 12.
Proof. reflexivity. Qed.

Example parseInt_nan : JS.parseInt "abc" = None.
Proof. reflexivity. Qed.

Example encodeURIComponent_path :
  encodeURIComponent "/provider/p1?connect=true" = "%2Fprovider%2Fp1%3Fconnect%3Dtrue".
Proof. reflexivity. Qed.

Lemma drop_trace (tr new : list Event) : drop (length tr) (tr ++ new) = new.
Proof. apply drop_app_length. Qed.

(** ** [parseInt] reads back what [toString] printed *)

Section ParseIntToString.

Lemma digit_val_digit_char d : 0 <= d < 10 -> JS.digit_val (JS.digit_char d) = Some d.
Proof.
  intros Hd.
  assert (Hcases : d = 0 \/ d = 1 \/ d = 2 \/ d = 3 \/ d = 4 \/ d = 5 \/ d = 6
                   \/ d = 7 \/ d = 8 \/ d = 9) by lia.
  repeat (destruct Hcases as [-> | Hcases]; [reflexivity |]).
  subst d. reflexivity.
Qed.

Lemma digit_is_not_white c d : JS.digit_val c = Some d -> JS.is_white c = false.
Proof.
  unfold JS.digit_val, JS.is_white.
  set (n := Z.of_nat (nat_of_ascii c)).
  destruct ((48 <=? n) && (n <=? 57)) eqn:Hrange; [| discriminate].
  intros _. apply andb_true_iff in Hrange as [H1 H2].
  apply Z.leb_le in H1. apply Z.leb_le in H2.
  rewrite (proj2 (Z.leb_gt n 13)) by lia.
  rewrite (proj2 (Z.eqb_neq n 32)) by lia.
  rewrite andb_false_r. reflexivity.
Qed.

Lemma digit_is_not_sign c d :
  JS.digit_val c = Some d -> Ascii.eqb c "-" = false /\ Ascii.eqb c "+" = false.
Proof.
  intros Hc. split.
  - destruct (Ascii.eqb c "-") eqn:E; [| reflexivity].
    apply Ascii.eqb_eq in E. subst c. discriminate Hc.
  - destruct (Ascii.eqb c "+") eqn:E; [| reflexivity].
    apply Ascii.eqb_eq in E. subst c. discriminate Hc.
Qed.

Lemma digits_acc_S fuel n rest :
  JS.digits_acc (S fuel) n rest =
  if n <? 10 then String (JS.digit_char n) rest
  else JS.digits_acc fuel (n / 10) (String (JS.digit_char (n mod 10)) rest).
Proof. reflexivity. Qed.








End ParseIntToString.

Lemma take_1_nil {A} (l : list A) : take 1 l = [] -> l = [].
Proof. destruct l; [reflexivity | discriminate]. Qed.

(** ** The evaluator *)

Section Evaluator.

Variables (user : User) (firestoreUser : option FirestoreUser)
          (provider : ProviderApplication).

(** An absent record: no access is shown and nothing is touched. *)
Lemma absent_is_no_access w :
  exec (onSnapshot_callback user firestoreUser provider None) w
  = set_isConnectionLoading false (set_connection None w).
Proof. reflexivity. Qed.

(** A record that expires after the instant read from the clock is shown
    as the active connection, and nothing else happens. *)
Lemma later_expiry_is_active c e w :
  expiresAt c = Some e -> wallClock w < e ->
  connection (exec (onSnapshot_callback user firestoreUser provider (Some c)) w) = Some c
  /\ emitted (onSnapshot_callback user firestoreUser provider (Some c)) w = []
  /\ isExpired c (wallClock w) = false.
Proof.
  intros He Hlt.
  assert (Hexp : isExpired c (wallClock w) = false).
  { unfold isExpired. rewrite He. apply Z.ltb_ge. lia. }
  unfold_model. rewrite He. cbn. rewrite Hexp. cbn.
  trace_norm. auto.
Qed.

(** A record that expired before the instant read from the clock is
    withheld. *)
Lemma earlier_expiry_is_expired c e w :
  expiresAt c = Some e -> e < wallClock w ->
  connection (exec (onSnapshot_callback user firestoreUser provider (Some c)) w) = None
  /\ isExpired c (wallClock w) = true.
Proof.
  intros He Hlt.
  assert (Hexp : isExpired c (wallClock w) = true).
  { unfold isExpired. rewrite He. apply Z.ltb_lt. lia. }
  split; [| exact Hexp].
  unfold_model. rewrite He. cbn. rewrite Hexp. cbn.
  repeat (split_atom; cbn); reflexivity.
Qed.

(** At the very instant of expiry the comparison [expiresAt < now] is
    false: the record is still shown as the active connection. *)
Lemma boundary_is_active c w :
  expiresAt c = Some (wallClock w) ->
  exec (onSnapshot_callback user firestoreUser provider (Some c)) w
  = set_isConnectionLoading false
      (set_connection (Some c)
         (set_clock (wallClock w + hd 0 (ticks w)) (tl (ticks w)) w)).
Proof.
  intros He. unfold_model. rewrite He. cbn.
  unfold isExpired. rewrite He, Z.ltb_irrefl. reflexivity.
Qed.

(** The evaluator withholds the contact exactly when [expiresAt < now]. *)
Lemma withheld_iff_strictly_past c w :
  connection (exec (onSnapshot_callback user firestoreUser provider (Some c)) w) = None
  <-> exists e, expiresAt c = Some e /\ e < wallClock w.
Proof.
  split.
  - unfold_model. destruct (expiresAt c) as [e |] eqn:He; cbn.
    + unfold isExpired. rewrite He.
      destruct (e <? wallClock w) eqn:Hlt; cbn.
      * intros _. exists e. split; [reflexivity | apply Z.ltb_lt, Hlt].
      * discriminate.
    + discriminate.
  - intros (e & He & Hlt). apply (earlier_expiry_is_expired c e w He Hlt).
Qed.

End Evaluator.

(** C1 (evaluator; the boundary instant).  At [now == expiresAt] the
    [onSnapshot] callback of the provider components still hands out the
    contact (the record is the active connection, no review is triggered),
    while the countdown, the my-contacts filter and the admin table all
    treat the same instant as expired. *)
Theorem evaluator_boundary_shows_contact :
  let now := 1000 + 7 * msPerDay in
  let w := worldWith sevenDayRecord now in
  let w' := exec (observeConnection (Some alice) None plumber) w in
  expiresAt sevenDayRecord = Some now
  /\ connection w' = Some sevenDayRecord
  /\ isConnectionLoading w' = false
  /\ bookings w' = []
  /\ ExpiryCountdown_isExpired now now = true
  /\ MyContactsPage_keeps sevenDayRecord now = false
  /\ AdminConnections_showsExpired sevenDayRecord now = true.
Proof. vm_compute. repeat split; reflexivity. Qed.

(** One millisecond later the provider components agree with the others. *)
Example evaluator_after_boundary :
  let now := 1000 + 7 * msPerDay + 1 in
  connection (exec (observeConnection (Some alice) None plumber)
                (worldWith sevenDayRecord now)) = None.
Proof. vm_compute. reflexivity. Qed.

(** C10 (null expiry).  A stored record without [expiresAt] is handed out as
    the active connection whatever its [accessType] and whatever the clock
    says; the clock is not even read, no request is sent, nothing is
    written, so the review trigger never fires for it. *)
Theorem null_expiry_never_expires (user : User) (firestoreUser : option FirestoreUser)
    (provider : ProviderApplication) (c : UserProviderConnection) (w : World) :
  expiresAt c = None ->
  let w' := exec (onSnapshot_callback user firestoreUser provider (Some c)) w in
  connection w' = Some c
  /\ isConnectionLoading w' = false
  /\ emitted (onSnapshot_callback user firestoreUser provider (Some c)) w = []
  /\ bookings w' = bookings w
  /\ userProviderConnections w' = userProviderConnections w
  /\ wallClock w' = wallClock w
  /\ faults w' = faults w
  /\ (forall now, isExpired c now = false).
Proof.
  intros He. unfold_model. rewrite He. cbn. trace_norm.
  repeat split; try reflexivity.
  intros now. unfold isExpired. rewrite He. reflexivity.
Qed.

(** A seven-day record that lost its [expiresAt], observed ten years on. *)
Lemma null_expiry_never_expires_witness :
  let c := {| userId := "alice"; providerId := "prov1"; accessType := Some "sevenDays";
              grantedAt := 1000; expiresAt := None; paymentId := Some "pay_1";
              reviewRequested := None |} in
  let w := worldWith c (3650 * msPerDay) in
  expiresAt c = None
  /\ connection (exec (onSnapshot_callback alice None plumber (Some c)) w) = Some c
  /\ bookings (exec (onSnapshot_callback alice None plumber (Some c)) w) = bookings w.
Proof.
  intros c w.
  pose proof (null_expiry_never_expires alice None plumber c w eq_refl) as H.
  split; [reflexivity |].
  split; [apply H | apply H].
Defined.

(** ** The review trigger *)

Section ReviewTrigger.

Variables (user : User) (firestoreUser : option FirestoreUser)
          (provider : ProviderApplication).

Let key := connectionKey (uid user) (p_id provider).
Let observe := observeConnection (Some user) firestoreUser provider.

Lemma expired_has_expiry c now :
  isExpired c now = true -> exists e, expiresAt c = Some e /\ e < now.
Proof.
  unfold isExpired. destruct (expiresAt c) as [e |]; [| discriminate].
  intros H. exists e. split; [reflexivity | apply Z.ltb_lt, H].
Qed.

Lemma pendingCount_0 u bks :
  pendingCount u bks = 0%nat <-> List.filter (isPendingReviewOf u) bks = [].
Proof. unfold pendingCount. split; [apply nil_length_inv | intros ->; reflexivity]. Qed.

(** The observation that finds no pending placeholder and whose three
    requests succeed. *)
Lemma trigger_creates c w :
  observesExpired user provider c w ->
  pendingCount (uid user) (bookings w) = 0%nat ->
  hd false (faults w) = false ->
  hd false (tl (faults w)) = false ->
  hd false (tl (tl (faults w))) = false ->
  let placeholder :=
    reviewBooking user firestoreUser provider
      (wallClock w + hd 0 (ticks w))
      (wallClock w + hd 0 (ticks w) + hd 0 (tl (ticks w))) in
  bookings (exec observe w) = bookings w ++ [placeholder]
  /\ userProviderConnections (exec observe w)
     = <[key := markReviewRequested c]> (userProviderConnections w)
  /\ emitted observe w
     = [ QueryPendingReview (uid user);
         AddDocBooking placeholder;
         UpdateDocReviewRequested key;
         ConsoleLog ("Review request created for expired connection with provider "
                     +:+ p_id provider) ]
  /\ connection (exec observe w) = None
  /\ isConnectionLoading (exec observe w) = false.
Proof.
  intros (Hu & Hp & Hstored & Hexp & Hguard) Hnone F1 F2 F3.
  apply pendingCount_0 in Hnone.
  destruct (expired_has_expiry _ _ Hexp) as (e & He & _).
  unfold guardSet in Hguard. subst observe key.
  unfold_model. rewrite Hu, Hp. cbn. rewrite Hstored. cbn. rewrite He. cbn.
  rewrite Hexp. cbn. rewrite Hguard. cbn. rewrite F1. cbn.
  rewrite Hnone. cbn. rewrite F2. cbn. rewrite F3. cbn.
  rewrite Hstored. cbn. trace_norm.
  repeat split; reflexivity.
Qed.

(** The observation that finds a placeholder already pending. *)
Lemma trigger_skips c w :
  observesExpired user provider c w ->
  pendingCount (uid user) (bookings w) <> 0%nat ->
  hd false (faults w) = false ->
  bookings (exec observe w) = bookings w
  /\ userProviderConnections (exec observe w) = userProviderConnections w
  /\ trace (exec observe w) = trace w ++ skipEvents (uid user)
  /\ connection (exec observe w) = None
  /\ isConnectionLoading (exec observe w) = false
  /\ wallClock (exec observe w) = wallClock w + hd 0 (ticks w)
  /\ ticks (exec observe w) = tl (ticks w)
  /\ faults (exec observe w) = tl (faults w).
Proof.
  intros (Hu & Hp & Hstored & Hexp & Hguard) Hsome F1.
  rewrite pendingCount_0 in Hsome.
  destruct (expired_has_expiry _ _ Hexp) as (e & He & _).
  unfold guardSet in Hguard. subst observe key.
  unfold_model. rewrite Hu, Hp. cbn. rewrite Hstored. cbn. rewrite He. cbn.
  rewrite Hexp. cbn. rewrite Hguard. cbn. rewrite F1. cbn.
  destruct (List.filter (isPendingReviewOf (uid user)) (bookings w)) as [| b bs] eqn:Hf;
    [congruence |].
  cbn. rewrite <- !app_assoc. repeat split; reflexivity.
Qed.

End ReviewTrigger.

(** ** Sequencing *)

Lemma exec_seq {A B} (m : M A) (f : A -> M B) (a : A) (w : World) :
  result m w = Ok a -> exec (m ≫= f) w = exec (f a) (exec m w).
Proof.
  unfold exec, result, mbind, M_bind.
  destruct (m w) as [[a' | e] w']; cbn; intros H; [| discriminate].
  injection H as ->. reflexivity.
Qed.

(** No exception leaves the subscription: whatever the store, the clock and
    the requests do, the callback returns normally. *)
Lemma observe_never_throws user firestoreUser provider w :
  result (observeConnection user firestoreUser provider) w = Ok tt.
Proof. run; reflexivity. Qed.

Lemma hd_requestsSucceed w : requestsSucceed w -> hd false (faults w) = false.
Proof.
  unfold requestsSucceed. destruct (faults w) as [| b fs]; [reflexivity |].
  intros H. apply Forall_cons in H as [-> _]. reflexivity.
Qed.

Lemma hd_clockMonotone w : clockMonotone w -> 0 <= hd 0 (ticks w).
Proof.
  unfold clockMonotone. destruct (ticks w) as [| d ds]; cbn; [lia |].
  intros H. apply Forall_cons in H as [H _]. exact H.
Qed.

Lemma Forall_tl {A} (P : A -> Prop) (l : list A) : Forall P l -> Forall P (tl l).
Proof. destruct l; [trivial |]. intros H. apply Forall_cons in H as [_ H]. exact H. Qed.

Lemma isExpired_later c now later :
  isExpired c now = true -> now <= later -> isExpired c later = true.
Proof.
  unfold isExpired. destruct (expiresAt c) as [e |]; [| discriminate].
  intros H Hle. apply Z.ltb_lt in H. apply Z.ltb_lt. lia.
Qed.

(** While a placeholder of the user is pending, every further observation of
    the expired record asks again, skips again and changes neither store. *)
Lemma observeTimes_skips user firestoreUser provider c n : forall w,
  observesExpired user provider c w ->
  pendingCount (uid user) (bookings w) <> 0%nat ->
  requestsSucceed w -> clockMonotone w ->
  let w' := exec (observeTimes n (Some user) firestoreUser provider) w in
  bookings w' = bookings w
  /\ userProviderConnections w' = userProviderConnections w
  /\ trace w' = trace w ++ concat (replicate n (skipEvents (uid user))).
Proof.
  induction n as [| n IH]; intros w Hobs Hpending Hreq Hclock; cbn zeta.
  - cbn. rewrite app_nil_r. auto.
  - cbn [observeTimes].
    rewrite (exec_seq _ _ tt) by apply observe_never_throws.
    destruct (trigger_skips user firestoreUser provider c w Hobs Hpending
                (hd_requestsSucceed w Hreq))
      as (Hb & Hc & Ht & _ & _ & Hw & Hticks & Hfaults).
    set (w1 := exec (observeConnection (Some user) firestoreUser provider) w) in *.
    destruct (IH w1) as (Hb' & Hc' & Ht').
    + destruct Hobs as (Hu & Hp & Hstored & Hexp & Hguard).
      repeat split; try assumption.
      * rewrite Hc. exact Hstored.
      * rewrite Hw. apply (isExpired_later c (wallClock w)); [exact Hexp |].
        pose proof (hd_clockMonotone w Hclock). lia.
    + rewrite Hb. exact Hpending.
    + unfold requestsSucceed. rewrite Hfaults. apply Forall_tl, Hreq.
    + unfold clockMonotone. rewrite Hticks. apply Forall_tl, Hclock.
    + rewrite Hb', Hc', Ht', Hb, Hc, Ht.
      cbn [replicate concat]. rewrite <- app_assoc. auto.
Qed.

(** C4 (review trigger).  An expired record whose guard is not set is
    observed and no request fails.  If the user has no pending placeholder
    anywhere, a placeholder for this (user, provider) pair is added to
    [bookings] and after that [reviewRequested] becomes true on the record.
    If some placeholder of the user is pending, nothing is created, the
    record keeps its unset guard, and every later observation repeats the
    attempt in the same way. *)
Theorem review_trigger_on_expiry (user : User) (firestoreUser : option FirestoreUser)
    (provider : ProviderApplication) (c : UserProviderConnection) (w : World) :
  observesExpired user provider c w ->
  requestsSucceed w -> clockMonotone w ->
  let key := connectionKey (uid user) (p_id provider) in
  let observe := observeConnection (Some user) firestoreUser provider in
  (pendingCount (uid user) (bookings w) = 0%nat ->
   exists placeholder,
     bookings (exec observe w) = bookings w ++ [placeholder]
     /\ b_userId placeholder = Some (uid user)
     /\ b_providerId placeholder = Some (p_id provider)
     /\ isReviewedByCustomer placeholder = Some false
     /\ userProviderConnections (exec observe w) !! key = Some (markReviewRequested c)
     /\ reviewRequested (markReviewRequested c) = Some true
     /\ emitted observe w
        = [ QueryPendingReview (uid user);
            AddDocBooking placeholder;
            UpdateDocReviewRequested key;
            ConsoleLog ("Review request created for expired connection with provider "
                        +:+ p_id provider) ])
  /\ (pendingCount (uid user) (bookings w) <> 0%nat ->
      forall n,
        let w' := exec (observeTimes n (Some user) firestoreUser provider) w in
        bookings w' = bookings w
        /\ userProviderConnections w' !! key = Some c
        /\ guardSet c = false
        /\ emitted (observeTimes n (Some user) firestoreUser provider) w
           = concat (replicate n (skipEvents (uid user)))).
Proof.
  intros Hobs Hreq Hclock key observe. split.
  - intros Hnone.
    pose proof (hd_requestsSucceed w Hreq) as F1.
    assert (F2 : hd false (tl (faults w)) = false).
    { unfold requestsSucceed in Hreq. destruct (faults w) as [| b fs]; [reflexivity |].
      apply Forall_cons in Hreq as [_ Hreq]. destruct fs as [| b' fs]; [reflexivity |].
      apply Forall_cons in Hreq as [-> _]. reflexivity. }
    assert (F3 : hd false (tl (tl (faults w))) = false).
    { unfold requestsSucceed in Hreq. destruct (faults w) as [| b fs]; [reflexivity |].
      apply Forall_cons in Hreq as [_ Hreq]. destruct fs as [| b' fs]; [reflexivity |].
      apply Forall_cons in Hreq as [_ Hreq]. destruct fs as [| b'' fs]; [reflexivity |].
      apply Forall_cons in Hreq as [-> _]. reflexivity. }
    destruct (trigger_creates user firestoreUser provider c w Hobs Hnone F1 F2 F3)
      as (Hb & Hc & He & _).
    eexists. split; [exact Hb |].
    repeat split; try reflexivity.
    + subst observe key. rewrite Hc. apply lookup_insert_eq.
    + exact He.
  - intros Hpending n w'.
    destruct (observeTimes_skips user firestoreUser provider c n w
                Hobs Hpending Hreq Hclock) as (Hb & Hc & Ht).
    destruct Hobs as (_ & _ & Hstored & _ & Hguard).
    repeat split.
    + exact Hb.
    + subst w' key. rewrite Hc. exact Hstored.
    + exact Hguard.
    + unfold emitted. rewrite Ht. apply drop_trace.
Qed.

(** An observation eight days after the grant, with no placeholder around. *)
Lemma review_trigger_on_expiry_witness :
  let w := worldWith sevenDayRecord (1000 + 8 * msPerDay) in
  let observe := observeConnection (Some alice) None plumber in
  observesExpired alice plumber sevenDayRecord w
  /\ requestsSucceed w
  /\ clockMonotone w
  /\ pendingCount (uid alice) (bookings w) = 0%nat
  /\ exists placeholder,
       bookings (exec observe w) = bookings w ++ [placeholder]
       /\ userProviderConnections (exec observe w) !! connectionKey (uid alice) (p_id plumber)
          = Some (markReviewRequested sevenDayRecord).
Proof.
  intros w observe.
  assert (Hobs : observesExpired alice plumber sevenDayRecord w).
  { unfold observesExpired. repeat split; vm_compute; reflexivity. }
  assert (Hreq : requestsSucceed w) by apply Forall_nil_2.
  assert (Hclock : clockMonotone w) by apply Forall_nil_2.
  repeat (split; [first [assumption | reflexivity] |]).
  destruct (review_trigger_on_expiry alice None plumber sevenDayRecord w Hobs Hreq Hclock)
    as [Hcreate _].
  destruct (Hcreate eq_refl) as (placeholder & Hb & _ & _ & _ & Hc & _).
  exists placeholder. split; [exact Hb | exact Hc].
Defined.

(** ** At most one pending placeholder *)

Section PendingInvariant.

Variable u : string.

Lemma pendingCount_app bks b :
  pendingCount u (bks ++ [b])
  = (pendingCount u bks + if isPendingReviewOf u b then 1 else 0)%nat.
Proof.
  unfold pendingCount. rewrite List.filter_app, length_app. cbn.
  destruct (isPendingReviewOf u b); reflexivity.
Qed.

Lemma markReviewed_not_pending now b : isPendingReviewOf u (markReviewed now b) = false.
Proof. unfold isPendingReviewOf, markReviewed. cbn. destruct (b_userId b); reflexivity. Qed.

(** Submitting a review never adds a pending placeholder. *)
Lemma pendingCount_alter now (bks : list FirestoreBooking) : forall i,
  (pendingCount u (alter (markReviewed now) i bks) <= pendingCount u bks)%nat.
Proof.
  unfold pendingCount.
  induction bks as [| b bks IH]; intros i; [destruct i; cbn; lia |].
  destruct i as [| i]; cbn.
  - rewrite markReviewed_not_pending. destruct (isPendingReviewOf u b); cbn; lia.
  - specialize (IH i). destruct (isPendingReviewOf u b); cbn; lia.
Qed.

(** The placeholder of another user does not count; one's own is only
    created when the query came back empty. *)
Lemma pending_after_placeholder user firestoreUser provider t1 t2 bks :
  take 1 (List.filter (isPendingReviewOf (uid user)) bks) = [] ->
  (pendingCount u bks <= 1)%nat ->
  (pendingCount u (bks ++ [reviewBooking user firestoreUser provider t1 t2]) <= 1)%nat.
Proof.
  intros Hempty Hle. apply take_1_nil in Hempty.
  rewrite pendingCount_app.
  change (isPendingReviewOf u (reviewBooking user firestoreUser provider t1 t2))
    with (String.eqb (uid user) u).
  destruct (String.eqb (uid user) u) eqn:Heq; [| lia].
  apply String.eqb_eq in Heq. subst u.
  unfold pendingCount. rewrite Hempty. cbn. lia.
Qed.

Lemma observe_keeps_pending user firestoreUser provider w :
  (pendingCount u (bookings w) <= 1)%nat ->
  (pendingCount u (bookings (exec (observeConnection user firestoreUser provider) w)) <= 1)%nat.
Proof.
  intros Hle. run; try exact Hle.
  all: apply pending_after_placeholder; assumption.
Qed.

Lemma step_keeps_pending w w' :
  step w w' -> (pendingCount u (bookings w) <= 1)%nat -> (pendingCount u (bookings w') <= 1)%nat.
Proof.
  intros Hstep Hle. destruct Hstep as [user firestoreUser provider w | t ts fs w | i now w].
  - apply observe_keeps_pending, Hle.
  - exact Hle.
  - exact (Nat.le_trans _ _ _ (pendingCount_alter now (bookings w) i) Hle).
Qed.

End PendingInvariant.

(** A placeholder is only ever added right after the pending-review query of
    that very observation came back empty. *)
Lemma creation_is_gated user firestoreUser provider b w :
  AddDocBooking b ∈ emitted (observeConnection user firestoreUser provider) w ->
  exists v, user = Some v /\ pendingCount (uid v) (bookings w) = 0%nat
            /\ b_userId b = Some (uid v).
Proof.
  run; trace_norm; intros H; in_events H.
  all: injection H as ->; eexists; split; [reflexivity |]; split; [| reflexivity].
  all: unfold pendingCount; match goal with
       | Hq : take 1 _ = [] |- _ => apply take_1_nil in Hq; rewrite Hq; reflexivity
       end.
Qed.

(** C5 (at most one pending placeholder).  Start from a world in which the
    user has at most one pending placeholder.  Whatever sequence of
    observations (of any provider, by any session, with requests failing or
    not), clock movements and review submissions follows, the user never has
    more than one; and every placeholder that an observation creates was
    preceded, in that same observation, by a query that found none pending
    for that user. *)
Theorem at_most_one_pending (u : string) (w0 w : World) :
  (pendingCount u (bookings w0) <= 1)%nat ->
  rtc step w0 w ->
  (pendingCount u (bookings w) <= 1)%nat
  /\ (forall user firestoreUser provider b,
        AddDocBooking b ∈ emitted (observeConnection user firestoreUser provider) w ->
        exists v, user = Some v /\ pendingCount (uid v) (bookings w) = 0%nat
                  /\ b_userId b = Some (uid v)).
Proof.
  intros Hle Hsteps. split.
  - induction Hsteps as [w | w1 w2 w3 Hstep _ IH]; [exact Hle |].
    apply IH. exact (step_keeps_pending u w1 w2 Hstep Hle).
  - intros user firestoreUser provider b. apply creation_is_gated.
Qed.

(** Two expired connections observed one after the other. *)
Lemma at_most_one_pending_witness :
  let w0 := twoExpired (1000 + 8 * msPerDay) in
  let w1 := exec (observeConnection (Some alice) None plumber) w0 in
  let w2 := exec (observeConnection (Some alice) None painter) w1 in
  (pendingCount "alice" (bookings w0) <= 1)%nat
  /\ rtc step w0 w2
  /\ (pendingCount "alice" (bookings w2) <= 1)%nat.
Proof.
  intros w0 w1 w2.
  assert (H0 : (pendingCount "alice" (bookings w0) <= 1)%nat) by (vm_compute; lia).
  assert (Hsteps : rtc step w0 w2).
  { apply (rtc_l step w0 w1 w2); [apply step_observe |].
    apply rtc_once, step_observe. }
  split; [exact H0 |]. split; [exact Hsteps |].
  apply (at_most_one_pending "alice" w0 w2 H0 Hsteps).
Defined.

Example second_expiry_creates_nothing :
  let w0 := twoExpired (1000 + 8 * msPerDay) in
  let w1 := exec (observeConnection (Some alice) None plumber) w0 in
  let w2 := exec (observeConnection (Some alice) None painter) w1 in
  length (bookings w1) = 1%nat
  /\ bookings w2 = bookings w1
  /\ (userProviderConnections w2 !! connectionKey "alice" "prov2" ≫= reviewRequested) = None.
Proof. vm_compute. repeat split; reflexivity. Qed.

(** ** Failures inside the review trigger *)

Section TriggerFailures.

Variables (user : User) (firestoreUser : option FirestoreUser)
          (provider : ProviderApplication).

Let key := connectionKey (uid user) (p_id provider).
Let observe := observeConnection (Some user) firestoreUser provider.

(** Whatever the requests do, the expired state is what the component
    ends up showing. *)
Lemma expired_state_is_rendered c w :
  observesExpired user provider c w ->
  connection (exec observe w) = None /\ isConnectionLoading (exec observe w) = false.
Proof.
  intros (Hu & Hp & Hstored & Hexp & Hguard).
  destruct (expired_has_expiry _ _ Hexp) as (e & He & _).
  subst observe key. unfold_model. rewrite Hu, Hp. cbn. rewrite Hstored. cbn.
  rewrite He. cbn. rewrite Hexp. cbn.
  repeat (split_atom; cbn); auto.
Qed.

(** The pending-review query rejects. *)
Lemma query_fails c w :
  observesExpired user provider c w ->
  hd false (faults w) = true ->
  bookings (exec observe w) = bookings w
  /\ userProviderConnections (exec observe w) = userProviderConnections w
  /\ emitted observe w = [errorEvent].
Proof.
  intros (Hu & Hp & Hstored & Hexp & Hguard) F1.
  destruct (expired_has_expiry _ _ Hexp) as (e & He & _).
  unfold guardSet in Hguard. subst observe key.
  unfold_model. rewrite Hu, Hp. cbn. rewrite Hstored. cbn. rewrite He. cbn.
  rewrite Hexp. cbn. rewrite Hguard. cbn. rewrite F1. cbn. trace_norm.
  repeat split; reflexivity.
Qed.

(** The placeholder write rejects. *)
Lemma addDoc_fails c w :
  observesExpired user provider c w ->
  pendingCount (uid user) (bookings w) = 0%nat ->
  hd false (faults w) = false ->
  hd false (tl (faults w)) = true ->
  bookings (exec observe w) = bookings w
  /\ userProviderConnections (exec observe w) = userProviderConnections w
  /\ emitted observe w = [QueryPendingReview (uid user); errorEvent].
Proof.
  intros (Hu & Hp & Hstored & Hexp & Hguard) Hnone F1 F2.
  apply pendingCount_0 in Hnone.
  destruct (expired_has_expiry _ _ Hexp) as (e & He & _).
  unfold guardSet in Hguard. subst observe key.
  unfold_model. rewrite Hu, Hp. cbn. rewrite Hstored. cbn. rewrite He. cbn.
  rewrite Hexp. cbn. rewrite Hguard. cbn. rewrite F1. cbn.
  rewrite Hnone. cbn. rewrite F2. cbn. trace_norm.
  repeat split; reflexivity.
Qed.

(** The placeholder write succeeds and the guard write rejects: the
    placeholder stays and the guard is not set. *)
Lemma updateDoc_fails c w :
  observesExpired user provider c w ->
  pendingCount (uid user) (bookings w) = 0%nat ->
  hd false (faults w) = false ->
  hd false (tl (faults w)) = false ->
  hd false (tl (tl (faults w))) = true ->
  let placeholder :=
    reviewBooking user firestoreUser provider
      (wallClock w + hd 0 (ticks w))
      (wallClock w + hd 0 (ticks w) + hd 0 (tl (ticks w))) in
  bookings (exec observe w) = bookings w ++ [placeholder]
  /\ userProviderConnections (exec observe w) = userProviderConnections w
  /\ emitted observe w
     = [QueryPendingReview (uid user); AddDocBooking placeholder; errorEvent].
Proof.
  intros (Hu & Hp & Hstored & Hexp & Hguard) Hnone F1 F2 F3.
  apply pendingCount_0 in Hnone.
  destruct (expired_has_expiry _ _ Hexp) as (e & He & _).
  unfold guardSet in Hguard. subst observe key.
  unfold_model. rewrite Hu, Hp. cbn. rewrite Hstored. cbn. rewrite He. cbn.
  rewrite Hexp. cbn. rewrite Hguard. cbn. rewrite F1. cbn.
  rewrite Hnone. cbn. rewrite F2. cbn. rewrite F3. cbn. trace_norm.
  repeat split; reflexivity.
Qed.

End TriggerFailures.

(** C6, as stated, fails.  The query finds nothing pending, [addDoc] goes
    through and [updateDoc] rejects: the placeholder is in [bookings], the
    record still has no [reviewRequested], and the error was caught. *)
Lemma placeholder_without_guard_flip :
  let w := set_faults [false; false; true]
             (worldWith sevenDayRecord (1000 + 8 * msPerDay)) in
  let observe := observeConnection (Some alice) None plumber in
  let placeholder :=
    reviewBooking alice None plumber (1000 + 8 * msPerDay) (1000 + 8 * msPerDay) in
  bookings w = []
  /\ bookings (exec observe w) = [placeholder]
  /\ isReviewedByCustomer placeholder = Some false
  /\ userProviderConnections (exec observe w) !! connectionKey "alice" "prov1"
     = Some sevenDayRecord
  /\ reviewRequested sevenDayRecord = None
  /\ emitted observe w
     = [QueryPendingReview "alice"; AddDocBooking placeholder; errorEvent]
  /\ result observe w = Ok tt.
Proof. vm_compute. repeat split; reflexivity. Qed.

(** C6 (amended).  A failure inside the review trigger is caught and logged:
    the callback returns normally and the component shows the expired state.
    When the query or the placeholder write rejects, neither store changes.
    When the placeholder write succeeds and the guard write rejects, the
    placeholder stays in [bookings] and the record keeps its unset guard:
    the two writes are not undone together. *)
Theorem review_trigger_failure (user : User) (firestoreUser : option FirestoreUser)
    (provider : ProviderApplication) (c : UserProviderConnection) (w : World) :
  observesExpired user provider c w ->
  pendingCount (uid user) (bookings w) = 0%nat ->
  let key := connectionKey (uid user) (p_id provider) in
  let observe := observeConnection (Some user) firestoreUser provider in
  result observe w = Ok tt
  /\ connection (exec observe w) = None
  /\ isConnectionLoading (exec observe w) = false
  /\ (hd false (faults w) = true ->
      bookings (exec observe w) = bookings w
      /\ userProviderConnections (exec observe w) = userProviderConnections w
      /\ emitted observe w = [errorEvent])
  /\ (hd false (faults w) = false -> hd false (tl (faults w)) = true ->
      bookings (exec observe w) = bookings w
      /\ userProviderConnections (exec observe w) = userProviderConnections w
      /\ emitted observe w = [QueryPendingReview (uid user); errorEvent])
  /\ (hd false (faults w) = false -> hd false (tl (faults w)) = false ->
      hd false (tl (tl (faults w))) = true ->
      exists placeholder,
        bookings (exec observe w) = bookings w ++ [placeholder]
        /\ isPendingReviewOf (uid user) placeholder = true
        /\ userProviderConnections (exec observe w) !! key = Some c
        /\ guardSet c = false
        /\ emitted observe w
           = [QueryPendingReview (uid user); AddDocBooking placeholder; errorEvent]).
Proof.
  intros Hobs Hnone key observe.
  split; [apply observe_never_throws |].
  destruct (expired_state_is_rendered user firestoreUser provider c w Hobs) as [Hconn Hload].
  split; [exact Hconn |]. split; [exact Hload |].
  split; [| split].
  - intros F1. exact (query_fails user firestoreUser provider c w Hobs F1).
  - intros F1 F2. exact (addDoc_fails user firestoreUser provider c w Hobs Hnone F1 F2).
  - intros F1 F2 F3.
    destruct (updateDoc_fails user firestoreUser provider c w Hobs Hnone F1 F2 F3)
      as (Hb & Hc & He).
    eexists. split; [exact Hb |].
    destruct Hobs as (_ & _ & Hstored & _ & Hguard).
    split; [| split; [| split]].
    + unfold isPendingReviewOf. cbn. apply String.eqb_refl.
    + subst observe key. rewrite Hc. exact Hstored.
    + exact Hguard.
    + exact He.
Qed.

(** The guard write of an observation rejects. *)
Lemma review_trigger_failure_witness :
  let w := set_faults [false; false; true]
             (worldWith sevenDayRecord (1000 + 8 * msPerDay)) in
  let observe := observeConnection (Some alice) None plumber in
  observesExpired alice plumber sevenDayRecord w
  /\ pendingCount (uid alice) (bookings w) = 0%nat
  /\ result observe w = Ok tt
  /\ connection (exec observe w) = None
  /\ isConnectionLoading (exec observe w) = false.
Proof.
  intros w observe.
  assert (Hobs : observesExpired alice plumber sevenDayRecord w).
  { unfold observesExpired. repeat split; vm_compute; reflexivity. }
  split; [exact Hobs |]. split; [reflexivity |].
  destruct (review_trigger_failure alice None plumber sevenDayRecord w Hobs eq_refl)
    as (Hres & Hconn & Hload & _).
  split; [exact Hres |]. split; [exact Hconn | exact Hload].
Defined.

(** ** Who writes [userProviderConnections] *)

(** The thank-you page writes a connection only after the gateway answered
    [success] with status [captured]. *)
Lemma grant_needs_capture currentUser pid w k r :
  SetDocConnection k r ∈ emitted (processPage currentUser pid) w ->
  exists v, verifyPayment w = Some v /\ success v = true /\ v_status v = Some "captured".
Proof.
  run; trace_norm; intros H; in_events H.
  all: match goal with
       | Hv : verificationRejected ?v = false |- _ =>
           exists v; split; [reflexivity |];
           unfold verificationRejected in Hv;
           apply orb_false_elim in Hv as [Hs Hc];
           apply negb_false_iff in Hs; apply negb_false_iff in Hc;
           apply bool_decide_eq_true in Hc; auto
       end.
Qed.

(** The store of connections changes by logged [setDoc]s only. *)
Lemma processPage_store currentUser pid w :
  (userProviderConnections (exec (processPage currentUser pid) w) = userProviderConnections w
   /\ forall k r, SetDocConnection k r ∉ emitted (processPage currentUser pid) w)
  \/ (exists k r,
        SetDocConnection k r ∈ emitted (processPage currentUser pid) w
        /\ userProviderConnections (exec (processPage currentUser pid) w)
           = <[k := r]> (userProviderConnections w)).
Proof.
  run; trace_norm.
  all: first
    [ left; split; [reflexivity |]; intros k r H; in_events H; fail
    | right; eexists _, _; split; [| reflexivity];
      rewrite !elem_of_cons; auto 10 ].
Qed.

(** Without the three payment details nothing is verified and nothing is
    written. *)
Lemma missing_payment_details currentUser pid w :
  localStorage w !! "isProcessingConnectionUnlock" = Some "true" ->
  JS.truthy (localStorage w !! "razorpayPaymentId") = false
  \/ JS.truthy (localStorage w !! "razorpayOrderId") = false
  \/ JS.truthy (localStorage w !! "razorpaySignature") = false ->
  userProviderConnections (exec (processPage currentUser pid) w) = userProviderConnections w
  /\ emitted (processPage currentUser pid) w
     = [HideLoading; Toast "Verification Failed"; RouterPush ("/provider/" +:+ pid)].
Proof.
  intros Hflag Hmissing.
  assert (Hcond : negb (JS.truthy (localStorage w !! "razorpayPaymentId"))
                  || negb (JS.truthy (localStorage w !! "razorpayOrderId"))
                  || negb (JS.truthy (localStorage w !! "razorpaySignature")) = true).
  { destruct Hmissing as [-> | [-> | ->]]; cbn; rewrite ?orb_true_r; reflexivity. }
  run; trace_norm; auto.
  all: try match goal with
           | H : bool_decide _ = false |- _ => rewrite Hflag in H; discriminate H
           end.
  all: discriminate Hcond.
Qed.

(** A connect click writes only on the free-fallback path. *)
Lemma connect_click_store appConfig isLoadingConfig user provider w :
  (userProviderConnections (exec (handleConnectClick appConfig isLoadingConfig user provider) w)
   = userProviderConnections w
   /\ forall k r,
        SetDocConnection k r ∉ emitted (handleConnectClick appConfig isLoadingConfig user provider) w)
  \/ (exists k r,
        userProviderConnections (exec (handleConnectClick appConfig isLoadingConfig user provider) w)
        = <[k := r]> (userProviderConnections w)
        /\ SetDocConnection k r ∈ emitted (handleConnectClick appConfig isLoadingConfig user provider) w
        /\ isFreeAccessFallbackEnabled appConfig = true
        /\ List.filter opt_enabled (default [] (connectionAccessOptions appConfig)) = []
        /\ accessType r = Some "free"
        /\ paymentId r = None).
Proof.
  run; trace_norm.
  all: first
    [ left; split; [reflexivity |]; intros k r H; in_events H; fail
    | right; eexists _, _; split; [reflexivity |];
      split; [rewrite !elem_of_cons; auto 10 |];
      split; [first [assumption | reflexivity] |];
      split; [| split; reflexivity];
      match goal with
      | Hlen : (0 <? Z.of_nat (length ?l)) = false |- ?l = [] =>
          destruct l; [reflexivity | cbn in Hlen; discriminate Hlen]
      end ].
Qed.

(** The subscription creates no connection: at most it sets the guard of
    the record it was handed. *)
Lemma observe_creates_no_connection user firestoreUser provider w :
  (forall k r, SetDocConnection k r ∉ emitted (observeConnection user firestoreUser provider) w)
  /\ (forall k,
        is_Some (userProviderConnections (exec (observeConnection user firestoreUser provider) w) !! k)
        <-> is_Some (userProviderConnections w !! k)).
Proof.
  split.
  - intros k r. run; trace_norm; intros H; in_events H.
  - intros k. run; try reflexivity.
    all: match goal with
         | |- is_Some (<[?i := _]> _ !! ?j) <-> _ =>
             destruct (decide (i = j)) as [<- | Hne];
             [ rewrite lookup_insert_eq; split; eauto
             | rewrite lookup_insert_ne by exact Hne; reflexivity ]
         end.
Qed.

(** The checkout callbacks leave the Firestore stores alone. *)
Lemma checkout_callbacks_write_nothing provider selectedOption response w :
  userProviderConnections (exec (razorpay_handler provider selectedOption response) w)
  = userProviderConnections w
  /\ userProviderConnections (exec razorpay_onPaymentFailed w) = userProviderConnections w
  /\ emitted razorpay_onPaymentFailed w = [Toast "Payment Failed"; HideLoading]
  /\ userProviderConnections (exec razorpay_ondismiss w) = userProviderConnections w
  /\ localStorage (exec razorpay_ondismiss w) = localStorage w
  /\ emitted razorpay_ondismiss w = [HideLoading].
Proof. unfold_model. cbn. trace_norm. repeat split; reflexivity. Qed.

(** C3 (no premature grant).  A [setDoc] on [userProviderConnections] is
    issued by the thank-you page only after the verification call answered
    success with status captured, and by a connect click only when the free
    fallback is enabled and no paid tier is enabled.  A verification that
    fails or is not captured, missing payment details, a failed or dismissed
    checkout and the expiry observation never create a connection. *)
Theorem no_premature_grant :
  (forall currentUser pid w k r,
     SetDocConnection k r ∈ emitted (processPage currentUser pid) w ->
     exists v, verifyPayment w = Some v /\ success v = true /\ v_status v = Some "captured")
  /\ (forall appConfig isLoadingConfig user provider w k r,
        SetDocConnection k r ∈ emitted (handleConnectClick appConfig isLoadingConfig user provider) w ->
        isFreeAccessFallbackEnabled appConfig = true
        /\ List.filter opt_enabled (default [] (connectionAccessOptions appConfig)) = [])
  /\ (forall currentUser pid w,
        (forall v, verifyPayment w = Some v -> success v = false \/ v_status v <> Some "captured") ->
        userProviderConnections (exec (processPage currentUser pid) w) = userProviderConnections w)
  /\ (forall currentUser pid w,
        localStorage w !! "isProcessingConnectionUnlock" = Some "true" ->
        JS.truthy (localStorage w !! "razorpayPaymentId") = false
        \/ JS.truthy (localStorage w !! "razorpayOrderId") = false
        \/ JS.truthy (localStorage w !! "razorpaySignature") = false ->
        userProviderConnections (exec (processPage currentUser pid) w) = userProviderConnections w)
  /\ (forall appConfig isLoadingConfig user provider w,
        isFreeAccessFallbackEnabled appConfig = false
        \/ List.filter opt_enabled (default [] (connectionAccessOptions appConfig)) <> [] ->
        userProviderConnections (exec (handleConnectClick appConfig isLoadingConfig user provider) w)
        = userProviderConnections w)
  /\ (forall provider selectedOption response w,
        userProviderConnections (exec (razorpay_handler provider selectedOption response) w)
        = userProviderConnections w
        /\ userProviderConnections (exec razorpay_onPaymentFailed w) = userProviderConnections w
        /\ userProviderConnections (exec razorpay_ondismiss w) = userProviderConnections w)
  /\ (forall user firestoreUser provider w k,
        is_Some (userProviderConnections (exec (observeConnection user firestoreUser provider) w) !! k)
        <-> is_Some (userProviderConnections w !! k)).
Proof.
  split; [exact grant_needs_capture |].
  split.
  { intros appConfig isLoadingConfig user provider w k r Hin.
    destruct (connect_click_store appConfig isLoadingConfig user provider w)
      as [[_ Hnone] | (k' & r' & _ & _ & Hfree & Hpaid & _)].
    - destruct (Hnone k r Hin).
    - auto. }
  split.
  { intros currentUser pid w Hfail.
    destruct (processPage_store currentUser pid w) as [[Hsame _] | (k & r & Hin & _)];
      [exact Hsame |].
    destruct (grant_needs_capture currentUser pid w k r Hin) as (v & Hv & Hs & Hc).
    destruct (Hfail v Hv) as [Hs' | Hc']; [congruence | contradiction]. }
  split.
  { intros currentUser pid w Hflag Hmissing.
    apply (missing_payment_details currentUser pid w Hflag Hmissing). }
  split.
  { intros appConfig isLoadingConfig user provider w Hoff.
    destruct (connect_click_store appConfig isLoadingConfig user provider w)
      as [[Hsame _] | (k & r & _ & _ & Hfree & Hpaid & _)]; [exact Hsame |].
    destruct Hoff as [Hoff | Hoff]; [congruence | contradiction]. }
  split.
  { intros provider selectedOption response w.
    destruct (checkout_callbacks_write_nothing provider selectedOption response w)
      as (H1 & H2 & _ & H3 & _).
    auto. }
  intros user firestoreUser provider w k.
  apply observe_creates_no_connection.
Qed.

(** The write of a completed checkout, traced back to the captured payment. *)
Lemma no_premature_grant_witness :
  exists k r,
    SetDocConnection k r ∈ emitted (processPage (Some alice) "prov1") checkoutDone
    /\ exists v, verifyPayment checkoutDone = Some v
                 /\ success v = true /\ v_status v = Some "captured".
Proof.
  assert (Hin : SetDocConnection (connectionKey "alice" "prov1")
                  {| userId := "alice"; providerId := "prov1";
                     accessType := Some "sevenDays"; grantedAt := 1001;
                     expiresAt := Some (1000 + 7 * msPerDay);
                     paymentId := Some "pay_1"; reviewRequested := None |}
                ∈ emitted (processPage (Some alice) "prov1") checkoutDone).
  { vm_compute. apply list_elem_of_further, list_elem_of_further, list_elem_of_here. }
  eexists _, _. split; [exact Hin |].
  exact (proj1 no_premature_grant _ _ _ _ _ Hin).
Defined.

(** Scenario E: the checkout is dismissed; the thank-you page is never
    reached and nothing was stored. *)
Example cancelled_checkout :
  let w := exec razorpay_ondismiss emptyWorld in
  userProviderConnections w = ∅ /\ localStorage w = ∅ /\ trace w = [HideLoading].
Proof. repeat split. Qed.

(** ** A grant replaces whatever was stored *)

(** The thank-you page never reads [userProviderConnections]: run against
    any other content [prior] of the collection it emits the same events,
    and the record it writes replaces the one at its key. *)
Lemma processPage_overwrites currentUser pid w prior k r :
  SetDocConnection k r ∈ emitted (processPage currentUser pid) w ->
  let w2 := set_userProviderConnections (λ _, prior) w in
  emitted (processPage currentUser pid) w2 = emitted (processPage currentUser pid) w
  /\ userProviderConnections (exec (processPage currentUser pid) w) = <[k := r]> (userProviderConnections w)
  /\ userProviderConnections (exec (processPage currentUser pid) w2) = <[k := r]> prior
  /\ reviewRequested r = None.
Proof.
  run; trace_norm; intros H; in_events H.
  all: injection H as -> ->; repeat split; reflexivity.
Qed.

Lemma connect_click_overwrites appConfig isLoadingConfig user provider w prior k r :
  SetDocConnection k r ∈ emitted (handleConnectClick appConfig isLoadingConfig user provider) w ->
  let click := handleConnectClick appConfig isLoadingConfig user provider in
  let w2 := set_userProviderConnections (λ _, prior) w in
  emitted click w2 = emitted click w
  /\ userProviderConnections (exec click w) = <[k := r]> (userProviderConnections w)
  /\ userProviderConnections (exec click w2) = <[k := r]> prior
  /\ reviewRequested r = None.
Proof.
  run; trace_norm; intros H; in_events H.
  all: injection H as -> ->; repeat split; reflexivity.
Qed.

(** C7 (re-grant resets).  Take a grant, paid or free, that writes the record
    [r] at key [k].  Performed against any other content [prior] of the
    collection (in particular one that holds an expired or active record at
    [k], with [reviewRequested] true), the same grant emits the same events
    and leaves exactly [r] at [k]: nothing of the previous record survives,
    [r] carries no [reviewRequested], and the guard read from it is false. *)
Theorem regrant_overwrites :
  (forall currentUser pid w prior k r,
     SetDocConnection k r ∈ emitted (processPage currentUser pid) w ->
     let w2 := set_userProviderConnections (λ _, prior) w in
     emitted (processPage currentUser pid) w2 = emitted (processPage currentUser pid) w
     /\ userProviderConnections (exec (processPage currentUser pid) w2) !! k = Some r
     /\ userProviderConnections (exec (processPage currentUser pid) w2) = <[k := r]> prior
     /\ userProviderConnections (exec (processPage currentUser pid) w) !! k = Some r
     /\ reviewRequested r = None
     /\ guardSet r = false)
  /\ (forall appConfig isLoadingConfig user provider w prior k r,
        let click := handleConnectClick appConfig isLoadingConfig user provider in
        SetDocConnection k r ∈ emitted click w ->
        let w2 := set_userProviderConnections (λ _, prior) w in
        emitted click w2 = emitted click w
        /\ userProviderConnections (exec click w2) !! k = Some r
        /\ userProviderConnections (exec click w2) = <[k := r]> prior
        /\ userProviderConnections (exec click w) !! k = Some r
        /\ reviewRequested r = None
        /\ guardSet r = false).
Proof.
  split.
  - intros currentUser pid w prior k r Hin w2.
    destruct (processPage_overwrites currentUser pid w prior k r Hin) as (He & Hw & Hw2 & Hr).
    fold w2 in He, Hw2.
    repeat split; try assumption.
    + rewrite Hw2. apply lookup_insert_eq.
    + rewrite Hw. apply lookup_insert_eq.
    + unfold guardSet. rewrite Hr. reflexivity.
  - intros appConfig isLoadingConfig user provider w prior k r click Hin w2.
    destruct (connect_click_overwrites appConfig isLoadingConfig user provider w prior k r Hin)
      as (He & Hw & Hw2 & Hr).
    fold click w2 in He, Hw, Hw2.
    repeat split; try assumption.
    + rewrite Hw2. apply lookup_insert_eq.
    + rewrite Hw. apply lookup_insert_eq.
    + unfold guardSet. rewrite Hr. reflexivity.
Qed.

(** A repurchase over [staleRecord] and a first purchase store the same
    record. *)
Lemma regrant_overwrites_witness :
  let prior := {[ connectionKey "alice" "prov1" := staleRecord ]} in
  let w2 := set_userProviderConnections (λ _, prior) checkoutDone in
  let r := {| userId := "alice"; providerId := "prov1";
              accessType := Some "sevenDays"; grantedAt := 1001;
              expiresAt := Some (1000 + 7 * msPerDay);
              paymentId := Some "pay_1"; reviewRequested := None |} in
  userProviderConnections (exec (processPage (Some alice) "prov1") checkoutDone)
    !! connectionKey "alice" "prov1" = Some r
  /\ userProviderConnections (exec (processPage (Some alice) "prov1") w2)
       !! connectionKey "alice" "prov1" = Some r
  /\ guardSet staleRecord = true
  /\ guardSet r = false.
Proof.
  intros prior w2 r.
  assert (Hin : SetDocConnection (connectionKey "alice" "prov1") r
                ∈ emitted (processPage (Some alice) "prov1") checkoutDone).
  { vm_compute. apply list_elem_of_further, list_elem_of_further, list_elem_of_here. }
  destruct (proj1 regrant_overwrites (Some alice) "prov1" checkoutDone prior _ _ Hin)
    as (_ & H2 & _ & H1 & _ & Hg).
  split; [exact H1 |]. split; [exact H2 |]. split; [reflexivity | exact Hg].
Defined.

(** ** The free fallback *)



(** ** No signed-in user *)

(** C9, as stated, fails on the thank-you page.  The payment is verified and
    nobody is signed in: the page neither redirects to sign-in nor reports an
    error; it clears the payment details and shows the unlocked provider,
    while no connection has been written. *)
Lemma paid_without_session_is_not_redirected :
  let w' := exec (processPage None "prov1") checkoutDone in
  localStorage checkoutDone !! "razorpayPaymentId" = Some "pay_1"
  /\ verifyPayment checkoutDone = Some captured
  /\ result (processPage None "prov1") checkoutDone = Ok tt
  /\ emitted (processPage None "prov1") checkoutDone
     = [HideLoading; Toast "Payment Verified"]
  /\ unlockedProviderDetails w' = Some plumber
  /\ isLoadingPage w' = false
  /\ userProviderConnections w' = ∅
  /\ localStorage w' !! "razorpayPaymentId" = None
  /\ localStorage w' !! "isProcessingConnectionUnlock" = None.
Proof. vm_compute. repeat split; reflexivity. Qed.

Lemma connect_click_signed_out appConfig isLoadingConfig provider w :
  let path := "/provider/" +:+ p_id provider +:+ "?connect=true" in
  let click := handleConnectClick appConfig isLoadingConfig None provider in
  emitted click w
  = [ SetAuthActionRedirectPath path;
      RouterPush ("/auth/login?redirect=" +:+ encodeURIComponent path) ]
  /\ userProviderConnections (exec click w) = userProviderConnections w
  /\ localStorage (exec click w) = localStorage w.
Proof. unfold_model. cbn. trace_norm. repeat split; reflexivity. Qed.

Lemma processPage_signed_out pid w :
  userProviderConnections (exec (processPage None pid) w) = userProviderConnections w
  /\ (forall k r, SetDocConnection k r ∉ emitted (processPage None pid) w)
  /\ (forall path, SetAuthActionRedirectPath path ∉ emitted (processPage None pid) w).
Proof.
  split; [| split].
  - run; reflexivity.
  - intros k r. run; trace_norm; intros H; in_events H.
  - intros path. run; trace_norm; intros H; in_events H.
Qed.

(** C9 (amended).  With nobody signed in no granting operation writes a
    connection.  The connect click redirects to sign-in and keeps the intent
    ([/provider/<id>?connect=true], both in the auth context and in the
    [redirect] parameter); the free unlock does nothing at all; the
    thank-you page skips the grant without any redirect to sign-in. *)
Theorem signed_out_grants_nothing :
  (forall appConfig isLoadingConfig provider w,
     let path := "/provider/" +:+ p_id provider +:+ "?connect=true" in
     let click := handleConnectClick appConfig isLoadingConfig None provider in
     emitted click w
     = [ SetAuthActionRedirectPath path;
         RouterPush ("/auth/login?redirect=" +:+ encodeURIComponent path) ]
     /\ userProviderConnections (exec click w) = userProviderConnections w)
  /\ (forall appConfig provider w, exec (handleFreeAccessUnlock appConfig None provider) w = w)
  /\ (forall pid w,
        userProviderConnections (exec (processPage None pid) w) = userProviderConnections w
        /\ (forall k r, SetDocConnection k r ∉ emitted (processPage None pid) w)
        /\ (forall path, SetAuthActionRedirectPath path ∉ emitted (processPage None pid) w)).
Proof.
  split; [| split].
  - intros appConfig isLoadingConfig provider w path click.
    destruct (connect_click_signed_out appConfig isLoadingConfig provider w) as (H1 & H2 & _).
    split; [exact H1 | exact H2].
  - reflexivity.
  - exact processPage_signed_out.
Qed.

(** A signed-out visitor clicks connect on "prov1". *)
Lemma signed_out_grants_nothing_witness :
  emitted (handleConnectClick freeOnlyConfig false None plumber) emptyWorld
  = [ SetAuthActionRedirectPath "/provider/prov1?connect=true";
      RouterPush "/auth/login?redirect=%2Fprovider%2Fprov1%3Fconnect%3Dtrue" ]
  /\ userProviderConnections (exec (processPage None "prov1") checkoutDone)
     = userProviderConnections checkoutDone.
Proof.
  split.
  - exact (proj1 (proj1 signed_out_grants_nothing freeOnlyConfig false plumber emptyWorld)).
  - exact (proj1 (proj2 (proj2 signed_out_grants_nothing) "prov1" checkoutDone)).
Defined.

(** ** The paid grant *)

Section PaidGrant.

Variables (u : User) (provider : ProviderApplication)
          (selectedOption : ConnectionAccessOption) (response : RazorpayResponse).

Let handler := razorpay_handler provider selectedOption response.

Lemma handler_returns w : result handler w = Ok tt.
Proof. reflexivity. Qed.

(** What the thank-you page finds in [localStorage] after the checkout. *)
Lemma handler_storage w :
  localStorage (exec handler w) !! "isProcessingConnectionUnlock" = Some "true"
  /\ localStorage (exec handler w) !! "razorpayPaymentId" = Some (razorpay_payment_id response)
  /\ localStorage (exec handler w) !! "razorpayOrderId" = Some (razorpay_order_id response)
  /\ localStorage (exec handler w) !! "razorpaySignature" = Some (razorpay_signature response)
  /\ localStorage (exec handler w) !! "connectionAccessType"
     = Some (AccessOptionId_string (opt_id selectedOption))
  /\ localStorage (exec handler w) !! "connectionDurationDays"
     = Some (JS.toString (storedDurationDays selectedOption)).
Proof.
  subst handler. unfold_model. cbn.
  repeat split; repeat (rewrite lookup_insert_ne by discriminate); apply lookup_insert_eq.
Qed.

Lemma handler_environment w :
  wallClock (exec handler w) = wallClock w
  /\ ticks (exec handler w) = ticks w
  /\ faults (exec handler w) = faults w
  /\ verifyPayment (exec handler w) = verifyPayment w
  /\ userProviderConnections (exec handler w) = userProviderConnections w.
Proof. repeat split. Qed.





End PaidGrant.




(** The lifetime tier stores no expiry; a timed tier without a configured
    duration gets one day. *)
Example lifetime_purchase :
  (userProviderConnections
     (exec (purchase (Some alice) plumber lifetimeOption paymentOk) shopWorld)
   !! connectionKey "alice" "prov1" ≫= expiresAt) = None.
Proof. vm_compute. reflexivity. Qed.

Example timed_tier_without_duration :
  let bare := {| opt_id := thirtyDays; opt_label := "30 Days Access"; opt_price := 800;
                 opt_durationDays := None; opt_enabled := true |} in
  (userProviderConnections
     (exec (purchase (Some alice) plumber bare paymentOk) shopWorld)
   !! connectionKey "alice" "prov1" ≫= expiresAt) = Some (1000 + 1 * msPerDay).
Proof. vm_compute. reflexivity. Qed.

(** * Further properties *)

Example normalizePhone_formatted : normalizePhone "+91 98765-43210" = "919876543210".
Proof. reflexivity. Qed.
Example normalizePhone_trunk : normalizePhone "098765 43210" = "919876543210".
Proof. reflexivity. Qed.
Example countdown_short : calculateTimeLeft 3725000 0 = ("01:02:05", false).
Proof. reflexivity. Qed.
Example countdown_days : calculateTimeLeft (2 * msPerDay + 3 * 3600000 + 5) 0 = ("2d 3h left", false).
Proof. reflexivity. Qed.

(** ** The WhatsApp number *)

Lemma removeNonDigits_allDigits s : allDigits (removeNonDigits s) = true.
Proof.
  induction s as [| c s IH]; [reflexivity |].
  cbn. destruct (isDigit c) eqn:Hc; [| exact IH].
  cbn. rewrite Hc, IH. reflexivity.
Qed.

Lemma removeNonDigits_fixed s : allDigits s = true -> removeNonDigits s = s.
Proof.
  induction s as [| c s IH]; [reflexivity |].
  cbn. intros H. apply andb_true_iff in H as [Hc Hs].
  rewrite Hc, (IH Hs). reflexivity.
Qed.

Lemma allDigits_tail s : allDigits s = true -> allDigits (substringFrom1 s) = true.
Proof.
  destruct s as [| c s]; [reflexivity |].
  cbn. intros H. apply andb_true_iff in H as [_ Hs]. exact Hs.
Qed.

Lemma length_tail s : String.length (substringFrom1 s) = Nat.pred (String.length s).
Proof. destruct s; reflexivity. Qed.

(** The three shapes of a normalised number. *)
Lemma normalizePhone_cases s :
  let d := removeNonDigits s in
  (String.length d = 10%nat /\ normalizePhone s = "91" +:+ d)
  \/ (String.length d = 11%nat /\ startsWith "0" d = true
      /\ normalizePhone s = "91" +:+ substringFrom1 d)
  \/ (String.length d <> 10%nat
      /\ (String.length d <> 11%nat \/ startsWith "0" d = false)
      /\ normalizePhone s = d).
Proof.
  intros d. unfold normalizePhone. fold d.
  destruct (Nat.eqb (String.length d) 10) eqn:H10.
  - left. apply Nat.eqb_eq in H10. auto.
  - apply Nat.eqb_neq in H10.
    destruct (Nat.eqb (String.length d) 11) eqn:H11; cbn [andb].
    + apply Nat.eqb_eq in H11.
      destruct (startsWith "0" d) eqn:Hp.
      * right. left. auto.
      * right. right. auto.
    + apply Nat.eqb_neq in H11. right. right. auto.
Qed.

(** X1.  The number in the link consists of decimal digits only, and
    normalising it again changes nothing. *)
Theorem normalizePhone_digits_idempotent (mobileNumber : string) :
  allDigits (normalizePhone mobileNumber) = true
  /\ normalizePhone (normalizePhone mobileNumber) = normalizePhone mobileNumber.
Proof.
  pose proof (removeNonDigits_allDigits mobileNumber) as Hd.
  destruct (normalizePhone_cases mobileNumber) as [[H10 ->] | [(H11 & Hp & ->) | (N10 & N11 & ->)]].
  - assert (Hall : allDigits ("91" +:+ removeNonDigits mobileNumber) = true) by exact Hd.
    split; [exact Hall |].
    unfold normalizePhone. rewrite (removeNonDigits_fixed _ Hall).
    change (String.length ("91" +:+ removeNonDigits mobileNumber))
      with (S (S (String.length (removeNonDigits mobileNumber)))).
    rewrite H10. reflexivity.
  - assert (Hall : allDigits ("91" +:+ substringFrom1 (removeNonDigits mobileNumber)) = true)
      by exact (allDigits_tail _ Hd).
    split; [exact Hall |].
    unfold normalizePhone. rewrite (removeNonDigits_fixed _ Hall).
    change (String.length ("91" +:+ substringFrom1 (removeNonDigits mobileNumber)))
      with (S (S (String.length (substringFrom1 (removeNonDigits mobileNumber))))).
    rewrite length_tail, H11. reflexivity.
  - split; [exact Hd |].
    unfold normalizePhone. rewrite (removeNonDigits_fixed _ Hd).
    destruct (Nat.eqb (String.length (removeNonDigits mobileNumber)) 10) eqn:E10.
    { apply Nat.eqb_eq in E10. contradiction. }
    destruct N11 as [N11 | Hp].
    + rewrite (proj2 (Nat.eqb_neq _ _) N11). reflexivity.
    + rewrite Hp, andb_false_r. reflexivity.
Qed.

(** X2.  A ten-digit national number gets the country code 91 however it is
    written: bare, with the trunk prefix 0 or already with 91, and with any
    spaces, dashes, brackets or plus signs in between. *)
Theorem normalizePhone_national (d bare trunk full : string) :
  String.length d = 10%nat ->
  removeNonDigits bare = d ->
  removeNonDigits trunk = "0" +:+ d ->
  removeNonDigits full = "91" +:+ d ->
  normalizePhone bare = "91" +:+ d
  /\ normalizePhone trunk = "91" +:+ d
  /\ normalizePhone full = "91" +:+ d.
Proof.
  intros Hlen Hbare Htrunk Hfull.
  unfold normalizePhone. rewrite Hbare, Htrunk, Hfull.
  change (String.length ("0" +:+ d)) with (S (String.length d)).
  change (String.length ("91" +:+ d)) with (S (S (String.length d))).
  rewrite Hlen. repeat split; reflexivity.
Qed.

Lemma normalizePhone_national_witness :
  normalizePhone "98765 43210" = "919876543210"
  /\ normalizePhone "(0) 98765-43210" = "919876543210"
  /\ normalizePhone "+91 98765 43210" = "919876543210".
Proof.
  exact (normalizePhone_national "9876543210" "98765 43210" "(0) 98765-43210"
           "+91 98765 43210" eq_refl eq_refl eq_refl eq_refl).
Defined.

(** ** The countdown *)

Lemma timeParts_spec difference :
  0 < difference ->
  let '(days, hours, minutes, seconds) := timeParts difference in
  0 <= days /\ 0 <= hours < 24 /\ 0 <= minutes < 60 /\ 0 <= seconds < 60
  /\ ((days * 24 + hours) * 60 + minutes) * 60 + seconds = difference / 1000.
Proof.
  intros Hpos. unfold timeParts.
  replace (difference / (1000 * 60 * 60 * 24)) with (difference / 1000 / 60 / 60 / 24)
    by (rewrite !Z.div_div by lia; reflexivity).
  replace (difference / (1000 * 60 * 60)) with (difference / 1000 / 60 / 60)
    by (rewrite !Z.div_div by lia; reflexivity).
  set (q := difference / 1000).
  assert (Hq : 0 <= q) by (apply Z.div_pos; lia).
  clearbody q. clear Hpos difference.
  Z.div_mod_to_equations. lia.
Qed.

Lemma toString_one_digit n : 0 <= n < 10 -> JS.toString n = String (JS.digit_char n) "".
Proof.
  intros Hn. unfold JS.toString, JS.digits.
  rewrite (proj2 (Z.ltb_ge n 0)) by lia.
  rewrite digits_acc_S, (proj2 (Z.ltb_lt n 10)) by lia. reflexivity.
Qed.

Lemma toString_two_digits n :
  10 <= n < 100 ->
  JS.toString n = String (JS.digit_char (n / 10)) (String (JS.digit_char (n mod 10)) "").
Proof.
  intros Hn. unfold JS.toString, JS.digits.
  rewrite (proj2 (Z.ltb_ge n 0)) by lia.
  rewrite digits_acc_S, (proj2 (Z.ltb_ge n 10)) by lia.
  assert (Hlog : 3 <= Z.log2 n).
  { change 3 with (Z.log2 10). apply Z.log2_le_mono. lia. }
  destruct (Z.to_nat (Z.log2 n)) as [| fuel] eqn:Hfuel; [lia |].
  rewrite digits_acc_S.
  rewrite (proj2 (Z.ltb_lt (n / 10) 10)) by (apply Z.div_lt_upper_bound; lia).
  reflexivity.
Qed.

(** Numbers below one hundred are shown with exactly two digits. *)
Lemma padStart2_two_digits n :
  0 <= n < 100 ->
  padStart2 (JS.toString n)
  = String (JS.digit_char (n / 10)) (String (JS.digit_char (n mod 10)) "").
Proof.
  intros Hn. destruct (Z.lt_ge_cases n 10) as [Hlt | Hge].
  - rewrite toString_one_digit by lia. cbn.
    rewrite Z.div_small, Z.mod_small by lia. reflexivity.
  - rewrite toString_two_digits by lia. reflexivity.
Qed.

Lemma parseInt_two_digits n :
  0 <= n < 100 ->
  JS.parseInt (String (JS.digit_char (n / 10)) (String (JS.digit_char (n mod 10)) "")) = Some n.
Proof.
  intros Hn.
  assert (H1 : 0 <= n / 10 < 10).
  { split; [apply Z.div_pos; lia | apply Z.div_lt_upper_bound; lia]. }
  assert (H0 : 0 <= n mod 10 < 10) by (apply Z.mod_pos_bound; lia).
  pose proof (digit_val_digit_char _ H1) as D1.
  pose proof (digit_val_digit_char _ H0) as D0.
  unfold JS.parseInt. cbn [JS.skip_white].
  rewrite (digit_is_not_white _ _ D1).
  destruct (digit_is_not_sign _ _ D1) as [-> ->].
  cbn [JS.parse_digits]. rewrite D1, D0. cbn.
  f_equal. pose proof (Z.div_mod n 10). lia.
Qed.

(** X3.  For a positive difference the four numbers of the countdown are a
    mixed-radix reading of the whole seconds that remain: hours below 24,
    minutes and seconds below 60, and together with the days they add up to
    [difference / 1000] seconds. *)
Theorem countdown_parts (expiryDate now : Z) :
  now < expiryDate ->
  let '(days, hours, minutes, seconds) := timeParts (expiryDate - now) in
  0 <= days /\ 0 <= hours < 24 /\ 0 <= minutes < 60 /\ 0 <= seconds < 60
  /\ ((days * 24 + hours) * 60 + minutes) * 60 + seconds = (expiryDate - now) / 1000
  /\ (0 <? days) = (msPerDay <=? expiryDate - now).
Proof.
  intros Hlt.
  pose proof (timeParts_spec (expiryDate - now) ltac:(lia)) as H.
  unfold timeParts in *.
  destruct H as (Hd & Hh & Hm & Hs & Hsum).
  repeat (split; [assumption |]).
  change (1000 * 60 * 60 * 24) with msPerDay.
  unfold msPerDay.
  destruct (0 <? (expiryDate - now) / 86400000) eqn:E.
  - apply Z.ltb_lt in E. symmetry. apply Z.leb_le.
    Z.div_mod_to_equations. lia.
  - apply Z.ltb_ge in E. symmetry. apply Z.leb_gt.
    Z.div_mod_to_equations. lia.
Qed.

Lemma countdown_parts_witness :
  timeParts (90061000 - 0) = (1, 1, 1, 1)
  /\ ((1 * 24 + 1) * 60 + 1) * 60 + 1 = (90061000 - 0) / 1000.
Proof.
  pose proof (countdown_parts 90061000 0 ltac:(lia)) as H.
  split; [reflexivity |]. apply H.
Defined.

Lemma clock_fields (a b c d e f : Ascii.ascii) :
  let t := String a (String b "") +:+ ":" +:+ String c (String d "") +:+ ":"
           +:+ String e (String f "") in
  String.substring 0 2 t = String a (String b "")
  /\ String.substring 3 2 t = String c (String d "")
  /\ String.substring 6 2 t = String e (String f "").
Proof. repeat split. Qed.

(** X4.  During the last day before expiry the countdown shows [HH:MM:SS]:
    eight characters whose three two-digit fields read back, with
    [parseInt], as the hours, minutes and seconds that remain. *)
Theorem countdown_clock_format (expiryDate now : Z) :
  now < expiryDate < now + msPerDay ->
  let '(timeLeft, isExpired) := calculateTimeLeft expiryDate now in
  isExpired = false
  /\ String.length timeLeft = 8%nat
  /\ String.substring 2 1 timeLeft = ":" /\ String.substring 5 1 timeLeft = ":"
  /\ exists h m s,
       JS.parseInt (String.substring 0 2 timeLeft) = Some h
       /\ JS.parseInt (String.substring 3 2 timeLeft) = Some m
       /\ JS.parseInt (String.substring 6 2 timeLeft) = Some s
       /\ 0 <= h < 24 /\ 0 <= m < 60 /\ 0 <= s < 60
       /\ (h * 60 + m) * 60 + s = (expiryDate - now) / 1000.
Proof.
  intros Hlast. unfold calculateTimeLeft.
  rewrite (proj2 (Z.ltb_lt 0 (expiryDate - now))) by lia.
  pose proof (timeParts_spec (expiryDate - now) ltac:(lia)) as H.
  assert (Hd0 : (timeParts (expiryDate - now)).1.1.1 = 0).
  { unfold timeParts. cbn [fst]. apply Z.div_small. unfold msPerDay in Hlast. lia. }
  destruct (timeParts (expiryDate - now)) as [[[days hours] minutes] seconds].
  destruct H as (Hd & Hh & Hm & Hs & Hsum).
  cbn [fst] in Hd0. subst days. change (0 <? 0) with false. cbv iota.
  rewrite !padStart2_two_digits by lia.
  split; [reflexivity |]. split; [reflexivity |].
  split; [reflexivity |]. split; [reflexivity |].
  exists hours, minutes, seconds.
  match goal with
  | |- context [String.substring 0 2 (String ?a (String ?b "") +:+ ":" +:+
                  String ?c (String ?d "") +:+ ":" +:+ String ?e (String ?f ""))] =>
      destruct (clock_fields a b c d e f) as (-> & -> & ->)
  end.
  rewrite !parseInt_two_digits by lia.
  repeat split; try reflexivity; lia.
Qed.

Lemma countdown_clock_format_witness :
  0 < 3725000 < 0 + msPerDay
  /\ calculateTimeLeft 3725000 0 = ("01:02:05", false)
  /\ String.length (calculateTimeLeft 3725000 0).1 = 8%nat.
Proof.
  assert (Hlast : 0 < 3725000 < 0 + msPerDay) by (unfold msPerDay; lia).
  pose proof (countdown_clock_format 3725000 0 Hlast) as H.
  split; [exact Hlast |]. split; [reflexivity |].
  destruct (calculateTimeLeft 3725000 0) as [timeLeft isExpired].
  apply H.
Defined.

Example nth_unit_prices :
  List.map (getPriceForNthUnit tieredService) [0; 1; 2; 3; 5; 6; 10; 11; 50]
  = [450; 400; 400; 350; 350; 300; 300; 300; 300].
Proof. reflexivity. Qed.

Example total_for_four : calculateIncrementalTotalPriceForItem tieredService 4 = 1500.
Proof. reflexivity. Qed.

(** ** Sorting with a comparator that orders by a key *)

Section ArraySort.

Context {A : Type} (compareFn : A -> A -> Z) (key : A -> Z).
Hypothesis compareFn_key : forall a b, compareFn a b <= 0 <-> key a <= key b.

Lemma sortInsert_Permutation x l : sortInsert compareFn x l ≡ₚ x :: l.
Proof.
  induction l as [|y l IH]; cbn; [reflexivity|].
  destruct (compareFn x y <=? 0); [reflexivity|].
  rewrite IH. apply perm_swap.
Qed.

Lemma arraySort_Permutation l : arraySort compareFn l ≡ₚ l.
Proof.
  induction l as [|y l IH]; cbn; [reflexivity|].
  rewrite sortInsert_Permutation. constructor. exact IH.
Qed.

Lemma elem_of_arraySort l t : t ∈ arraySort compareFn l <-> t ∈ l.
Proof. rewrite (arraySort_Permutation l). reflexivity. Qed.

Lemma sortInsert_sorted x l :
  StronglySorted (byKey key) l -> StronglySorted (byKey key) (sortInsert compareFn x l).
Proof.
  induction 1 as [|y l Hs IH Hy]; cbn.
  - repeat constructor.
  - destruct (compareFn x y <=? 0) eqn:E.
    + apply Z.leb_le, compareFn_key in E. constructor; [constructor; assumption|].
      constructor; [exact E|].
      eapply Forall_impl; [exact Hy|]. unfold byKey. intros; cbn in *; lia.
    + apply Z.leb_gt in E.
      assert (Hyx : key y <= key x).
      { destruct (Z.le_gt_cases (key x) (key y)) as [Hle | Hgt]; [| lia].
        apply compareFn_key in Hle. lia. }
      constructor; [exact IH|].
      apply Forall_forall. intros t Ht.
      rewrite (sortInsert_Permutation x l) in Ht.
      apply elem_of_cons in Ht as [-> | Ht]; [exact Hyx|].
      rewrite Forall_forall in Hy. apply Hy, Ht.
Qed.

Lemma arraySort_sorted l : StronglySorted (byKey key) (arraySort compareFn l).
Proof.
  induction l as [|y l IH]; cbn; [constructor|]. apply sortInsert_sorted, IH.
Qed.

Lemma sorted_split l1 x l2 :
  StronglySorted (byKey key) (l1 ++ x :: l2) ->
  (forall y, y ∈ l1 -> key y <= key x) /\ (forall y, y ∈ l2 -> key x <= key y).
Proof.
  induction l1 as [|z l1 IH]; cbn; intros H.
  - apply StronglySorted_inv in H as [_ H]. rewrite Forall_forall in H.
    split; [intros y Hy; apply elem_of_nil in Hy; destruct Hy | exact H].
  - apply StronglySorted_inv in H as [Hs H]. rewrite Forall_forall in H.
    destruct (IH Hs) as [Hl Hr]. split; [|exact Hr].
    intros y Hy. apply elem_of_cons in Hy as [-> | Hy]; [|apply Hl, Hy].
    apply H. apply elem_of_app. right. apply list_elem_of_here.
Qed.

Lemma sorted_unique l1 l2 :
  l1 ≡ₚ l2 -> NoDup (map key l1) ->
  StronglySorted (byKey key) l1 -> StronglySorted (byKey key) l2 -> l1 = l2.
Proof.
  revert l2. induction l1 as [|a l1 IH]; intros l2 Hperm Hnd Hs1 Hs2.
  - apply Permutation_nil_l in Hperm. congruence.
  - destruct l2 as [|b l2]; [apply Permutation_nil_r in Hperm; discriminate|].
    apply StronglySorted_inv in Hs1 as [Hs1 Ha]. apply StronglySorted_inv in Hs2 as [Hs2 Hb].
    rewrite Forall_forall in Ha, Hb.
    cbn in Hnd. apply NoDup_cons in Hnd as [Hnotin Hnd].
    assert (Hab : a = b).
    { assert (Hina : a ∈ b :: l2) by (rewrite <- Hperm; apply list_elem_of_here).
      assert (Hinb : b ∈ a :: l1) by (rewrite Hperm; apply list_elem_of_here).
      apply elem_of_cons in Hina as [Hina | Hina]; [exact Hina|].
      apply elem_of_cons in Hinb as [Hinb | Hinb]; [congruence|].
      exfalso. apply Hnotin.
      assert (Hk : key a = key b).
      { pose proof (Ha _ Hinb). pose proof (Hb _ Hina). unfold byKey in *. lia. }
      rewrite Hk. apply list_elem_of_fmap. exists b. split; [reflexivity | exact Hinb]. }
    subst b. f_equal. apply IH; try assumption.
    apply (Permutation_cons_inv Hperm).
Qed.

End ArraySort.

Lemma elem_of_sortVariants l t : t ∈ sortVariants l <-> t ∈ l.
Proof. apply elem_of_arraySort. Qed.

Lemma sortVariants_sorted l : StronglySorted (byKey fromQuantity) (sortVariants l).
Proof. apply arraySort_sorted. intros a b. lia. Qed.

Lemma find_first {A} (f : A -> bool) l x :
  List.find f l = Some x ->
  exists l1 l2, l = l1 ++ x :: l2 /\ f x = true /\ forall y, y ∈ l1 -> f y = false.
Proof.
  induction l as [|y l IH]; cbn; [discriminate|].
  destruct (f y) eqn:E.
  - intros [= ->]. exists [], l. split; [reflexivity|]. split; [exact E|].
    intros y Hy. apply elem_of_nil in Hy. destruct Hy.
  - intros H. destruct (IH H) as (l1 & l2 & -> & Hx & Hl1).
    exists (y :: l1), l2. split; [reflexivity|]. split; [exact Hx|].
    intros z Hz. apply elem_of_cons in Hz as [-> | Hz]; [exact E | apply Hl1, Hz].
Qed.

Lemma find_none {A} (f : A -> bool) l :
  List.find f l = None -> forall y, y ∈ l -> f y = false.
Proof.
  intros H y Hy. apply list_elem_of_In in Hy. exact (List.find_none f l H y Hy).
Qed.

Lemma elem_of_rev {A} (l : list A) x : x ∈ rev l <-> x ∈ l.
Proof. rewrite !list_elem_of_In. symmetry. apply in_rev. Qed.

(** X5.  The tier that prices the n-th unit: the covering tier that starts
    lowest; failing that, the tier that starts highest among those starting
    at or below n; failing that, the plain unit price. *)
Theorem nth_unit_tier (service : FirestoreService) (variants : list PriceVariant) (n : Z) :
  hasPriceVariants service = true ->
  priceVariants service = Some variants ->
  variants <> [] ->
  0 < n ->
  (exists t, t ∈ variants /\ covers n t = true
      /\ getPriceForNthUnit service n = pv_price t
      /\ forall t', t' ∈ variants -> covers n t' = true -> fromQuantity t <= fromQuantity t')
  \/ ((forall t, t ∈ variants -> covers n t = false)
      /\ exists t, t ∈ variants /\ fromQuantity t <= n
      /\ getPriceForNthUnit service n = pv_price t
      /\ forall t', t' ∈ variants -> fromQuantity t' <= n -> fromQuantity t' <= fromQuantity t)
  \/ ((forall t, t ∈ variants -> n < fromQuantity t)
      /\ getPriceForNthUnit service n = unitPrice service).
Proof.
  intros Hhas Hvs Hne Hn.
  unfold getPriceForNthUnit, noVariants. rewrite Hhas, Hvs.
  change (default [] (Some variants)) with variants.
  destruct variants as [|v0 vs]; [congruence|].
  change (Nat.eqb (length (v0 :: vs)) 0) with false. cbn [negb orb].
  destruct (n <=? 0) eqn:E; [apply Z.leb_le in E; lia|]. clear E.
  set (variants := v0 :: vs) in *.
  pose proof (sortVariants_sorted variants) as Hsorted.
  destruct (List.find (covers n) (sortVariants variants)) as [t|] eqn:Hfind.
  - left. apply find_first in Hfind as (l1 & l2 & Hl & Hc & Hbefore).
    rewrite Hl in Hsorted. apply sorted_split in Hsorted as [_ Hafter].
    exists t. split; [|split; [exact Hc|split; [reflexivity|]]].
    + apply elem_of_sortVariants. rewrite Hl. apply elem_of_app. right. apply list_elem_of_here.
    + intros t' Ht' Hc'. apply elem_of_sortVariants in Ht'. rewrite Hl in Ht'.
      apply elem_of_app in Ht' as [Ht' | Ht'].
      * rewrite (Hbefore _ Ht') in Hc'. discriminate.
      * apply elem_of_cons in Ht' as [-> | Ht']; [lia | apply Hafter, Ht'].
  - right. pose proof (find_none _ _ Hfind) as Hnone.
    assert (Hnone' : forall t, t ∈ variants -> covers n t = false).
    { intros t Ht. apply Hnone, elem_of_sortVariants, Ht. }
    destruct (List.find (startsAtOrBelow n) (rev (sortVariants variants))) as [t|] eqn:Hlast.
    + left. split; [exact Hnone'|].
      apply find_first in Hlast as (l1 & l2 & Hl & Hc & Hbefore).
      assert (Hl' : sortVariants variants = rev l2 ++ t :: rev l1).
      { rewrite <- (rev_involutive (sortVariants variants)), Hl, rev_app_distr. cbn.
        rewrite <- app_assoc. reflexivity. }
      rewrite Hl' in Hsorted. apply sorted_split in Hsorted as [Hearlier _].
      unfold startsAtOrBelow in *. apply Z.leb_le in Hc.
      exists t. split; [|split; [exact Hc|split; [reflexivity|]]].
      * apply elem_of_sortVariants. rewrite Hl'. apply elem_of_app. right. apply list_elem_of_here.
      * intros t' Ht' Hle. apply elem_of_sortVariants in Ht'. rewrite Hl' in Ht'.
        apply elem_of_app in Ht' as [Ht' | Ht']; [apply Hearlier, Ht'|].
        apply elem_of_cons in Ht' as [-> | Ht']; [lia|].
        rewrite elem_of_rev in Ht'. apply Hbefore in Ht'. apply Z.leb_gt in Ht'. lia.
    + right. split; [|reflexivity].
      intros t Ht. pose proof (find_none _ _ Hlast) as Hn'.
      assert (Hin : t ∈ rev (sortVariants variants)).
      { apply elem_of_rev, elem_of_sortVariants, Ht. }
      apply Hn' in Hin. unfold startsAtOrBelow in Hin. apply Z.leb_gt in Hin. exact Hin.
Qed.

(** Witness: the fourth unit of [tieredService] falls in the tier 3..5. *)
Lemma nth_unit_tier_witness :
  (exists t, t ∈ default [] (priceVariants tieredService) /\ covers 4 t = true
      /\ getPriceForNthUnit tieredService 4 = pv_price t
      /\ forall t', t' ∈ default [] (priceVariants tieredService) -> covers 4 t' = true ->
         fromQuantity t <= fromQuantity t')
  \/ ((forall t, t ∈ default [] (priceVariants tieredService) -> covers 4 t = false)
      /\ exists t, t ∈ default [] (priceVariants tieredService) /\ fromQuantity t <= 4
      /\ getPriceForNthUnit tieredService 4 = pv_price t
      /\ forall t', t' ∈ default [] (priceVariants tieredService) -> fromQuantity t' <= 4 ->
         fromQuantity t' <= fromQuantity t)
  \/ ((forall t, t ∈ default [] (priceVariants tieredService) -> 4 < fromQuantity t)
      /\ getPriceForNthUnit tieredService 4 = unitPrice tieredService).
Proof.
  apply (nth_unit_tier tieredService _ 4); [reflexivity | reflexivity | discriminate | lia].
Defined.

Lemma nth_unit_price_listed service n :
  getPriceForNthUnit service n = unitPrice service
  \/ exists t, t ∈ default [] (priceVariants service) /\ getPriceForNthUnit service n = pv_price t.
Proof.
  unfold getPriceForNthUnit.
  destruct (noVariants service || (n <=? 0)); [left; reflexivity|].
  destruct (List.find (covers n) _) as [t|] eqn:Hfind.
  - right. exists t. split; [|reflexivity].
    apply List.find_some in Hfind as [Hin _].
    apply elem_of_sortVariants, list_elem_of_In, Hin.
  - destruct (List.find (startsAtOrBelow n) _) as [t|] eqn:Hlast; [|left; reflexivity].
    right. exists t. split; [|reflexivity].
    apply List.find_some in Hlast as [Hin _].
    apply elem_of_sortVariants, elem_of_rev, list_elem_of_In, Hin.
Qed.

Lemma foldl_sum_bounds (f : Z -> Z) lo hi l :
  (forall i, lo <= f i <= hi) ->
  forall acc,
    acc + lo * Z.of_nat (length l) <= foldl (λ total i, total + f i) acc l
    <= acc + hi * Z.of_nat (length l).
Proof.
  intros Hf. induction l as [|x l IH]; intros acc.
  - cbn. lia.
  - cbn [foldl length]. specialize (IH (acc + f x)). specialize (Hf x). lia.
Qed.

(** X6.  The total for a quantity lies between the quantity times the lowest and
    times the highest listed price (the plain unit price and the tiers'). *)
Theorem incremental_total_bounds (service : FirestoreService) (quantity lo hi : Z) :
  0 <= quantity ->
  lo <= unitPrice service <= hi ->
  (forall t, t ∈ default [] (priceVariants service) -> lo <= pv_price t <= hi) ->
  lo * quantity <= calculateIncrementalTotalPriceForItem service quantity <= hi * quantity.
Proof.
  intros Hq Hbase Htiers. unfold calculateIncrementalTotalPriceForItem.
  destruct (noVariants service); [nia|].
  assert (Hf : forall i, lo <= getPriceForNthUnit service i <= hi).
  { intros i. destruct (nth_unit_price_listed service i) as [-> | (t & Ht & ->)];
      [exact Hbase | apply Htiers, Ht]. }
  pose proof (foldl_sum_bounds (getPriceForNthUnit service) lo hi (seqZ 1 quantity) Hf 0) as H.
  rewrite length_seqZ in H. rewrite Z2Nat.id in H by lia. lia.
Qed.

Lemma incremental_total_bounds_witness :
  300 * 4 <= calculateIncrementalTotalPriceForItem tieredService 4 <= 450 * 4.
Proof.
  apply (incremental_total_bounds tieredService 4 300 450); [lia | cbn; lia |].
  intros t Ht. cbn in Ht.
  repeat (apply elem_of_cons in Ht as [-> | Ht]; [cbn; lia|]).
  apply elem_of_nil in Ht. destruct Ht.
Defined.

Lemma sortVariants_order_independent v1 v2 :
  v1 ≡ₚ v2 -> NoDup (map fromQuantity v1) -> sortVariants v1 = sortVariants v2.
Proof.
  intros Hperm Hnd.
  apply (sorted_unique fromQuantity).
  - unfold sortVariants. rewrite !arraySort_Permutation. exact Hperm.
  - unfold sortVariants. rewrite arraySort_Permutation. exact Hnd.
  - apply sortVariants_sorted.
  - apply sortVariants_sorted.
Qed.

(** X7.  When no two tiers start at the same quantity, neither the price of a
    unit nor the total depends on the order in which the tiers are stored. *)
Theorem tier_order_is_irrelevant (s1 s2 : FirestoreService) (v1 v2 : list PriceVariant) :
  price s1 = price s2 ->
  discountedPrice s1 = discountedPrice s2 ->
  hasPriceVariants s1 = hasPriceVariants s2 ->
  priceVariants s1 = Some v1 ->
  priceVariants s2 = Some v2 ->
  v1 ≡ₚ v2 ->
  NoDup (map fromQuantity v1) ->
  (forall n, getPriceForNthUnit s1 n = getPriceForNthUnit s2 n)
  /\ (forall quantity,
        calculateIncrementalTotalPriceForItem s1 quantity
        = calculateIncrementalTotalPriceForItem s2 quantity).
Proof.
  intros Hp Hd Hh H1 H2 Hperm Hnd.
  assert (Hno : noVariants s1 = noVariants s2).
  { unfold noVariants. rewrite Hh, H1, H2, (Permutation_length Hperm). reflexivity. }
  assert (Hu : unitPrice s1 = unitPrice s2) by (unfold unitPrice; congruence).
  assert (Hn : forall n, getPriceForNthUnit s1 n = getPriceForNthUnit s2 n).
  { intros n. unfold getPriceForNthUnit. rewrite Hno, Hu, H1, H2.
    change (default [] (Some v1)) with v1. change (default [] (Some v2)) with v2.
    rewrite (sortVariants_order_independent v1 v2 Hperm Hnd). reflexivity. }
  split; [exact Hn|].
  intros quantity. unfold calculateIncrementalTotalPriceForItem. rewrite Hno, Hu.
  destruct (noVariants s2); [reflexivity|].
  assert (Hfold : forall l acc,
             foldl (λ total i, total + getPriceForNthUnit s1 i) acc l
             = foldl (λ total i, total + getPriceForNthUnit s2 i) acc l).
  { induction l as [|i l IH]; intros acc; cbn; [reflexivity|]. rewrite Hn. apply IH. }
  apply Hfold.
Qed.

Lemma tier_order_is_irrelevant_witness :
  getPriceForNthUnit tieredService 4 = getPriceForNthUnit tieredServiceSorted 4.
Proof.
  refine (proj1 (tier_order_is_irrelevant tieredService tieredServiceSorted _ _
                   eq_refl eq_refl eq_refl eq_refl eq_refl _ _) 4).
  - apply perm_trans with
      ({| fromQuantity := 1; toQuantity := Some 2; pv_price := 400 |}
       :: {| fromQuantity := 6; toQuantity := Some 10; pv_price := 300 |}
       :: [{| fromQuantity := 3; toQuantity := Some 5; pv_price := 350 |}]).
    + exact (perm_swap _ _ _).
    + apply perm_skip. exact (perm_swap _ _ _).
  - cbn. repeat constructor; rewrite ?elem_of_cons, ?elem_of_nil; intuition discriminate.
Defined.

(** ** The access window of a stored record *)




(** ** The thank-you page without the processing flag *)

(** X9.  Opened without the flag [isProcessingConnectionUnlock] set to "true" in
    [localStorage] (a reload, or a direct visit), the thank-you page takes
    the payment as verified: it consults neither the gateway nor the
    connections, writes nothing, and shows the details of the provider named
    in the address whenever that document can be read, whoever is signed
    in. *)
Theorem reload_skips_verification (currentUser : option User) (pid : string) (w : World) :
  localStorage w !! "isProcessingConnectionUnlock" <> Some "true" ->
  let page := processPage currentUser pid in
  userProviderConnections (exec page w) = userProviderConnections w
  /\ localStorage (exec page w) = localStorage w
  /\ wallClock (exec page w) = wallClock w
  /\ isLoadingPage (exec page w) = false
  /\ (forall p, hd false (faults w) = false -> providerApplications w !! pid = Some p ->
        unlockedProviderDetails (exec page w) = Some p /\ emitted page w = [HideLoading])
  /\ (hd false (faults w) = true \/ providerApplications w !! pid = None ->
        unlockedProviderDetails (exec page w) = unlockedProviderDetails w
        /\ emitted page w = [HideLoading; Toast "Error"]).
Proof.
  intros Hflag page. subst page.
  assert (Hb : bool_decide (localStorage w !! "isProcessingConnectionUnlock" = Some "true") = false)
    by (apply bool_decide_eq_false_2, Hflag).
  unfold_model. cbn. rewrite Hb. cbn.
  destruct (hd false (faults w)) eqn:Hf; cbn;
    [| destruct (providerApplications w !! pid) as [p |] eqn:Hp; cbn ];
    trace_norm; repeat split; try reflexivity.
  all: try congruence.
  all: match goal with H : _ \/ _ |- _ => destruct H; congruence end.
Qed.

(** A visitor who is not signed in and holds no connection opens the
    thank-you address of "prov1" in a fresh browser. *)
Lemma reload_skips_verification_witness :
  unlockedProviderDetails
    (exec (processPage None "prov1")
       (set_verifyPayment None shopWorld)) = Some plumber
  /\ userProviderConnections
       (exec (processPage None "prov1") (set_verifyPayment None shopWorld)) = ∅.
Proof.
  destruct (reload_skips_verification None "prov1" (set_verifyPayment None shopWorld))
    as (Hstore & _ & _ & _ & Hshown & _).
  - cbn. discriminate.
  - split; [apply (Hshown plumber); reflexivity | exact Hstore].
Defined.

(** ** [localStorage] after the thank-you page *)

Lemma lookup_foldl_delete (ks : list string) (m : gmap string string) (k : string) :
  foldl (λ m k, delete k m) m ks !! k = if bool_decide (k ∈ ks) then None else m !! k.
Proof.
  revert m. induction ks as [| k' ks IH]; intros m; cbn [foldl].
  - rewrite bool_decide_eq_false_2 by apply not_elem_of_nil. reflexivity.
  - rewrite IH. destruct (decide (k = k')) as [-> | Hne].
    + rewrite lookup_delete_eq.
      rewrite (bool_decide_eq_true_2 (k' ∈ k' :: ks)) by apply list_elem_of_here.
      destruct (bool_decide (k' ∈ ks)); reflexivity.
    + rewrite lookup_delete_ne by congruence.
      destruct (decide (k ∈ ks)) as [Hin | Hout].
      * rewrite !bool_decide_eq_true_2; [reflexivity | | exact Hin].
        apply list_elem_of_further, Hin.
      * rewrite !bool_decide_eq_false_2; [reflexivity | | exact Hout].
        rewrite elem_of_cons. tauto.
Qed.

(** The thank-you page on its successful path, for a signed-in user. *)
Lemma processPage_completes u pid w pay ord sig v :
  localStorage w !! "isProcessingConnectionUnlock" = Some "true" ->
  localStorage w !! "razorpayPaymentId" = Some pay ->
  localStorage w !! "razorpayOrderId" = Some ord ->
  localStorage w !! "razorpaySignature" = Some sig ->
  JS.truthy (Some pay) = true -> JS.truthy (Some ord) = true -> JS.truthy (Some sig) = true ->
  verifyPayment w = Some v -> success v = true -> v_status v = Some "captured" ->
  hd false (faults w) = false ->
  hd false (tl (faults w)) = false ->
  localStorage (exec (processPage (Some u) pid) w)
  = foldl (λ m k, delete k m) (localStorage w) clearedKeys
  /\ bookings (exec (processPage (Some u) pid) w) = bookings w.
Proof.
  intros Hflag Hpay Hord Hsig Tpay Tord Tsig Hv Hs Hc Hok Hok2.
  assert (Hrej : verificationRejected v = false).
  { unfold verificationRejected. rewrite Hs, Hc. reflexivity. }
  run.
  all: try congruence.
  all: try match goal with
           | H : bool_decide (_ !! "isProcessingConnectionUnlock" = _) = false |- _ =>
               rewrite Hflag in H; discriminate H
           | H : _ || _ || _ = true |- _ =>
               rewrite Hpay, Hord, Hsig, Tpay, Tord, Tsig in H; discriminate H
           end.
  all: split; reflexivity.
Qed.

Ltac in_clearedKeys := apply (bool_decide_unpack _); vm_compute; exact I.



Lemma purchase_storage u provider selectedOption response v w :
  JS.truthy (Some (razorpay_payment_id response)) = true ->
  JS.truthy (Some (razorpay_order_id response)) = true ->
  JS.truthy (Some (razorpay_signature response)) = true ->
  verifyPayment w = Some v -> success v = true -> v_status v = Some "captured" ->
  hd false (faults w) = false ->
  hd false (tl (faults w)) = false ->
  localStorage (exec (purchase (Some u) provider selectedOption response) w)
  = foldl (λ m k, delete k m)
      (localStorage (exec (razorpay_handler provider selectedOption response) w)) clearedKeys.
Proof.
  intros Tpay Tord Tsig Hv Hs Hc Hok Hok2.
  unfold purchase.
  rewrite (exec_seq (razorpay_handler provider selectedOption response) _ tt w
             (handler_returns provider selectedOption response w)).
  destruct (handler_storage provider selectedOption response w)
    as (Hflag & Hpay & Hord & Hsig & _ & _).
  apply (processPage_completes u (p_id provider)
           (exec (razorpay_handler provider selectedOption response) w) _ _ _ v
           Hflag Hpay Hord Hsig Tpay Tord Tsig Hv Hs Hc Hok Hok2).
Qed.



(** ** Reloading the thank-you page *)

Lemma reload_store currentUser pid w :
  localStorage w !! "isProcessingConnectionUnlock" <> Some "true" ->
  userProviderConnections (exec (processPage currentUser pid) w) = userProviderConnections w.
Proof.
  intros Hflag.
  assert (Hb : bool_decide (localStorage w !! "isProcessingConnectionUnlock" = Some "true") = false)
    by (apply bool_decide_eq_false_2, Hflag).
  unfold_model. cbn. rewrite Hb. cbn.
  repeat (split_atom; cbn); reflexivity.
Qed.

Lemma reload_store_later currentUser pid w t ts fs :
  localStorage w !! "isProcessingConnectionUnlock" <> Some "true" ->
  userProviderConnections (exec (processPage currentUser pid) (set_faults fs (laterAt t ts w)))
  = userProviderConnections w.
Proof.
  intros Hflag. exact (reload_store currentUser pid (set_faults fs (laterAt t ts w)) Hflag).
Qed.

(** X11.  Once a purchase has run to its end, loading the thank-you page again,
    at any later time, for any provider and whoever is signed in, leaves
    every connection as the purchase left it: the access is not renewed. *)
Theorem reload_does_not_renew (u : User) (provider : ProviderApplication)
    (selectedOption : ConnectionAccessOption) (response : RazorpayResponse)
    (v : VerificationResult) (w : World)
    (currentUser : option User) (pid : string) (t : Z) (ts : list Z) (fs : list bool) :
  JS.truthy (Some (razorpay_payment_id response)) = true ->
  JS.truthy (Some (razorpay_order_id response)) = true ->
  JS.truthy (Some (razorpay_signature response)) = true ->
  verifyPayment w = Some v -> success v = true -> v_status v = Some "captured" ->
  hd false (faults w) = false ->
  hd false (tl (faults w)) = false ->
  let w' := exec (purchase (Some u) provider selectedOption response) w in
  userProviderConnections (exec (processPage currentUser pid) (set_faults fs (laterAt t ts w')))
  = userProviderConnections w'.
Proof.
  intros Tpay Tord Tsig Hv Hs Hc Hok Hok2 w'. subst w'.
  assert (Hflag : localStorage (exec (purchase (Some u) provider selectedOption response) w)
                    !! "isProcessingConnectionUnlock" <> Some "true").
  { rewrite (purchase_storage u provider selectedOption response v w
               Tpay Tord Tsig Hv Hs Hc Hok Hok2).
    rewrite lookup_foldl_delete, bool_decide_eq_true_2 by in_clearedKeys.
    discriminate. }
  exact (reload_store_later currentUser pid _ t ts fs Hflag).
Qed.

Lemma reload_does_not_renew_witness :
  userProviderConnections
    (exec (processPage (Some alice) "prov1")
       (set_faults [] (laterAt (1000 + 3 * msPerDay) []
          (exec (purchase (Some alice) plumber sevenDayOption paymentOk) shopWorld))))
  = userProviderConnections
      (exec (purchase (Some alice) plumber sevenDayOption paymentOk) shopWorld).
Proof.
  exact (reload_does_not_renew alice plumber sevenDayOption paymentOk captured shopWorld
           (Some alice) "prov1" (1000 + 3 * msPerDay) [] []
           eq_refl eq_refl eq_refl eq_refl eq_refl eq_refl eq_refl eq_refl).
Defined.

(** ** A provider lookup that fails after the grant *)




(** ** A tier without a usable duration *)



(** ** A new grant re-arms the review trigger *)





(** ** The window of a free grant *)




Lemma StronglySorted_weaken {A} (R R' : A -> A -> Prop) l :
  (forall a b, R a b -> R' a b) -> StronglySorted R l -> StronglySorted R' l.
Proof.
  intros HR. induction 1 as [| x l Hs IH Hx]; constructor; [exact IH |].
  eapply Forall_impl; [exact Hx | apply HR].
Qed.

Lemma or_num_0 n : JS.or_num (Some n) 0 = n.
Proof.
  unfold JS.or_num, JS.truthy_num. destruct (n =? 0) eqn:E; [| reflexivity].
  apply Z.eqb_eq in E. subst n. reflexivity.
Qed.

Lemma enrichConnection_spec conn w :
  exists details w',
    enrichConnection conn w = (Ok (conn, details), w')
    /\ (details = None \/ details = providerApplications w !! providerId conn)
    /\ providerApplications w' = providerApplications w
    /\ userProviderConnections w' = userProviderConnections w
    /\ bookings w' = bookings w
    /\ wallClock w' = wallClock w.
Proof.
  unfold enrichConnection. unfold_model.
  destruct (JS.truthy (Some (providerId conn))); cbn.
  - destruct (hd false (faults w)); cbn.
    + eexists _, _. split; [reflexivity|]. auto 10.
    + destruct (providerApplications w !! providerId conn) eqn:Hp; cbn;
        eexists _, _; (split; [reflexivity|]); rewrite ?Hp; auto 10.
  - eexists _, _. split; [reflexivity|]. auto 10.
Qed.

Lemma enrichAll_spec conns : forall w,
  exists res w',
    enrichAll conns w = (Ok res, w')
    /\ res.*1 = conns
    /\ Forall (λ e, e.2 = None \/ e.2 = providerApplications w !! providerId e.1) res
    /\ providerApplications w' = providerApplications w
    /\ userProviderConnections w' = userProviderConnections w
    /\ bookings w' = bookings w
    /\ wallClock w' = wallClock w.
Proof.
  induction conns as [| conn rest IH]; intros w.
  - exists [], w. cbn. repeat split; constructor.
  - destruct (enrichConnection_spec conn w) as (d & w1 & He & Hd & Hp1 & Hc1 & Hb1 & Ht1).
    destruct (IH w1) as (res & w2 & Hr & Hfst & Hall & Hp2 & Hc2 & Hb2 & Ht2).
    exists ((conn, d) :: res), w2.
    split.
    { cbn [enrichAll]. unfold mbind, M_bind, mret, M_ret in *. rewrite He. cbn. rewrite Hr. reflexivity. }
    split; [cbn; congruence|].
    split.
    { constructor; [exact Hd|]. rewrite Hp1 in Hall. exact Hall. }
    repeat split; congruence.
Qed.

Lemma listed_is_counting_down conn now x :
  MyContactsPage_keeps conn now = true -> expiresAt conn = Some x ->
  (calculateTimeLeft x now).2 = false.
Proof.
  unfold MyContactsPage_keeps, calculateTimeLeft. intros Hk Hx. rewrite Hx in Hk.
  apply Z.ltb_lt in Hk. rewrite (proj2 (Z.ltb_lt 0 (x - now))) by lia.
  destruct (timeParts (x - now)) as [[[days hours] minutes] seconds].
  destruct (0 <? days); reflexivity.
Qed.

(** X16.  What the my-contacts page lists.  The callback never rejects and reads
    the clock once.  The connections it lists are exactly the documents of
    the snapshot that have no expiry or expire strictly after that reading,
    each once; a provider lookup that fails or finds nothing does not drop
    the contact, it leaves it without details; details that are shown are
    those stored under the connection's [providerId]; the list is in
    descending order of [grantedAt]; and the countdown of a listed contact,
    computed at the same reading, does not say expired. *)
Theorem contacts_listing (docs : list UserProviderConnection) (w : World) :
  exists listed,
    result (contactsSnapshot docs) w = Ok listed
    /\ listed.*1 ≡ₚ List.filter (λ conn, MyContactsPage_keeps conn (wallClock w)) docs
    /\ Forall (λ e, e.2 = None \/ e.2 = providerApplications w !! providerId e.1) listed
    /\ StronglySorted (λ a b, grantedAt b.1 <= grantedAt a.1) listed
    /\ Forall (λ e, forall x, expiresAt e.1 = Some x ->
                     (calculateTimeLeft x (wallClock w)).2 = false) listed
    /\ wallClock (exec (contactsSnapshot docs) w) = wallClock w + hd 0 (ticks w)
    /\ userProviderConnections (exec (contactsSnapshot docs) w) = userProviderConnections w.
Proof.
  destruct (enrichAll_spec (List.filter (λ conn, MyContactsPage_keeps conn (wallClock w)) docs)
              (set_clock (wallClock w + hd 0 (ticks w)) (tl (ticks w)) w))
    as (res & w2 & Hr & Hfst & Hall & Hp & Hc & Hb & Ht).
  assert (Hrun : contactsSnapshot docs w = (Ok (arraySort byGrantedAtDesc res), w2)).
  { unfold contactsSnapshot, newDate, readClock, mbind, M_bind, mret, M_ret. cbn.
    rewrite Hr. reflexivity. }
  unfold result, exec. rewrite Hrun. cbn [fst snd].
  eexists. split; [reflexivity|].
  split.
  { rewrite (arraySort_Permutation byGrantedAtDesc res). rewrite Hfst. reflexivity. }
  split.
  { rewrite (arraySort_Permutation byGrantedAtDesc res). exact Hall. }
  split.
  { pose proof (arraySort_sorted byGrantedAtDesc (λ e, - grantedAt e.1)) as Hs.
    eapply StronglySorted_weaken; [| apply Hs].
    - unfold byKey. intros a b H. lia.
    - intros a b. unfold byGrantedAtDesc. rewrite !or_num_0. lia. }
  split.
  { apply Forall_forall. intros e He x Hx.
    assert (Hin : e.1 ∈ (arraySort byGrantedAtDesc res).*1)
      by (apply list_elem_of_fmap; exists e; auto).
    rewrite (arraySort_Permutation byGrantedAtDesc res), Hfst in Hin.
    apply list_elem_of_In, List.filter_In in Hin as [_ Hkeep].
    apply listed_is_counting_down with (conn := e.1); assumption. }
  split; [rewrite Ht; reflexivity | rewrite Hc; reflexivity].
Qed.

Ltac unfold_admin :=
  unfold handleDeleteConnection, deleteDoc_connection,
         fetchPendingReview, onSubmit, updateDoc_reviewed in *.

Lemma connectionKey_truthy u p : JS.truthy (Some (connectionKey u p)) = true.
Proof. unfold connectionKey. destruct u; reflexivity. Qed.

Lemma observe_absent u fu provider w :
  JS.truthy (Some (uid u)) = true ->
  JS.truthy (Some (p_id provider)) = true ->
  userProviderConnections w !! connectionKey (uid u) (p_id provider) = None ->
  connection (exec (observeConnection (Some u) fu provider) w) = None
  /\ emitted (observeConnection (Some u) fu provider) w = []
  /\ bookings (exec (observeConnection (Some u) fu provider) w) = bookings w.
Proof.
  intros Hu Hp Hst. unfold_model. rewrite Hu, Hp. cbn. rewrite Hst. cbn.
  trace_norm. auto.
Qed.

(** X17.  The administrator deletes the connection of a user and a provider.
    The handler never rejects.  When the request succeeds, that record and
    no other is gone, and from then on the user's page shows no contact for
    this provider and solicits no review, even if the deleted record had
    expired without a review being requested.  When the request fails,
    every record stays. *)
Theorem admin_delete_revokes (u : User) (firestoreUser : option FirestoreUser)
    (provider : ProviderApplication) (w : World) (t : Z) (ts : list Z) (fs : list bool) :
  JS.truthy (Some (uid u)) = true ->
  JS.truthy (Some (p_id provider)) = true ->
  let key := connectionKey (uid u) (p_id provider) in
  let del := handleDeleteConnection key in
  let observe := observeConnection (Some u) firestoreUser provider in
  result del w = Ok tt
  /\ (hd false (faults w) = false ->
      userProviderConnections (exec del w) = delete key (userProviderConnections w)
      /\ emitted del w = [Toast "Success"]
      /\ let later := set_faults fs (laterAt t ts (exec del w)) in
         connection (exec observe later) = None
         /\ emitted observe later = []
         /\ bookings (exec observe later) = bookings w)
  /\ (hd false (faults w) = true ->
      userProviderConnections (exec del w) = userProviderConnections w
      /\ emitted del w = [ConsoleError "Error deleting connection:"; Toast "Error"]).
Proof.
  intros Hu Hp key del observe. subst del observe.
  pose proof (connectionKey_truthy (uid u) (p_id provider)) as Hk. fold key in Hk.
  split; [| split].
  - unfold_admin. unfold_model. rewrite Hk. cbn. destruct (hd false (faults w)); reflexivity.
  - intros Hok.
    assert (Hdel : exec (handleDeleteConnection key) w
                   = add_event (Toast "Success")
                       (set_userProviderConnections (delete key) (set_faults (tl (faults w)) w))).
    { unfold_admin. unfold_model. rewrite Hk. cbn. rewrite Hok. reflexivity. }
    split; [rewrite Hdel; reflexivity |].
    split; [unfold emitted; rewrite Hdel; cbn; trace_norm; reflexivity |].
    cbn zeta. rewrite Hdel.
    match goal with |- connection (exec _ ?later) = _ /\ _ =>
      destruct (observe_absent u firestoreUser provider later Hu Hp) as (H1 & H2 & H3)
    end.
    { cbn. apply lookup_delete_eq. }
    split; [exact H1 |]. split; [exact H2 |]. rewrite H3. reflexivity.
  - intros Hfail. unfold_admin. unfold_model. rewrite Hk. cbn. rewrite Hfail. cbn.
    trace_norm. split; reflexivity.
Qed.

(** The administrator deletes Alice's expired seven-day record; Alice then
    opens the provider's page. *)
Lemma admin_delete_revokes_witness :
  let w := worldWith sevenDayRecord (1000 + 8 * msPerDay) in
  let later := set_faults [] (laterAt (1000 + 9 * msPerDay) []
                 (exec (handleDeleteConnection (connectionKey "alice" "prov1")) w)) in
  connection (exec (observeConnection (Some alice) None plumber) later) = None
  /\ emitted (observeConnection (Some alice) None plumber) later = []
  /\ bookings (exec (observeConnection (Some alice) None plumber) later) = bookings w.
Proof.
  intros w later.
  destruct (admin_delete_revokes alice None plumber w (1000 + 9 * msPerDay) [] []
              eq_refl eq_refl) as (_ & Hok & _).
  exact (proj2 (proj2 (Hok eq_refl))).
Defined.

(** ** The review cycle *)

Lemma candidate_is_pending u b : isPopupCandidate u b = true -> isPendingReviewOf u b = true.
Proof.
  unfold isPopupCandidate, isPendingReviewOf.
  destruct (b_userId b); [| discriminate].
  destruct (isReviewedByCustomer b) as [[|] |]; try discriminate.
  intros H. apply andb_true_iff in H as [H _]. exact H.
Qed.

Lemma filter_nil_false {A} (P : A -> bool) l x :
  List.filter P l = [] -> x ∈ l -> P x = false.
Proof.
  intros Hf Hx. destruct (P x) eqn:E; [| reflexivity].
  assert (Hin : In x (List.filter P l)).
  { apply List.filter_In. split; [apply list_elem_of_In, Hx | exact E]. }
  rewrite Hf in Hin. destruct Hin.
Qed.

Lemma placeholder_is_found u bks ph :
  pendingCount u bks = 0%nat ->
  isPopupCandidate u ph = true ->
  list_find (λ b, isPopupCandidate u b = true) (bks ++ [ph]) = Some (length bks, ph).
Proof.
  intros Hnone Hph. apply pendingCount_0 in Hnone.
  apply list_find_Some. split; [| split].
  - rewrite lookup_app_r by lia. rewrite Nat.sub_diag. reflexivity.
  - exact Hph.
  - intros j y Hy Hj Hc. rewrite lookup_app_l in Hy by exact Hj.
    apply list_elem_of_lookup_2 in Hy.
    apply candidate_is_pending in Hc.
    rewrite (filter_nil_false _ _ _ Hnone Hy) in Hc. discriminate.
Qed.

Lemma reviewed_is_not_pending u bks ph now :
  pendingCount u bks = 0%nat ->
  pendingCount u (alter (markReviewed now) (length bks) (bks ++ [ph])) = 0%nat.
Proof.
  intros Hnone.
  replace (length bks) with (length bks + 0)%nat by lia.
  rewrite alter_app_r. cbn. unfold pendingCount in *.
  rewrite List.filter_app, length_app, Hnone. cbn.
  unfold isPendingReviewOf. cbn. destruct (b_userId ph); reflexivity.
Qed.

Lemma fetch_finds u w ph bks :
  bookings w = bks ++ [ph] ->
  pendingCount (uid u) bks = 0%nat ->
  isPopupCandidate (uid u) ph = true ->
  hd false (faults w) = false ->
  fetchPendingReview (Some u) false (None, false) w
  = (Ok (Some (length bks, ph), true), set_faults (tl (faults w)) w).
Proof.
  intros Hb Hnone Hph Hok.
  unfold_admin. unfold_model. cbn. rewrite Hok. cbn.
  rewrite Hb, (placeholder_is_found _ _ _ Hnone Hph). reflexivity.
Qed.

Lemma submit_marks u w ph bks :
  bookings w = bks ++ [ph] ->
  JS.truthy (b_providerId ph) = true ->
  hd false (faults w) = false ->
  hd false (tl (faults w)) = false ->
  exists now,
    bookings (exec (onSubmit (Some u) (Some (length bks), ph) true false) w)
    = alter (markReviewed now) (length bks) (bks ++ [ph])
    /\ emitted (onSubmit (Some u) (Some (length bks), ph) true false) w
       = [Toast "Review Submitted"].
Proof.
  intros Hb Hp Hok Hok2.
  unfold_admin. unfold_model. cbn. rewrite Hp. cbn. rewrite Hok. cbn. rewrite Hok2. cbn.
  rewrite Hb. rewrite lookup_app_r by lia. rewrite Nat.sub_diag. cbn.
  rewrite Hb. trace_norm. eexists. split; reflexivity.
Qed.

(** X18.  The placeholder filed by the review trigger goes round: with no review
    pending before, the popup's query finds exactly the new placeholder,
    the modal takes it for a review of the provider whose connection
    expired, and a submission whose requests succeed marks it reviewed, so
    that no review of the user is pending any more and a later expiry can
    solicit the next one. *)
Theorem review_cycle (u : User) (firestoreUser : option FirestoreUser)
    (provider : ProviderApplication) (c : UserProviderConnection) (w : World) (fs : list bool) :
  observesExpired u provider c w ->
  pendingCount (uid u) (bookings w) = 0%nat ->
  hd false (faults w) = false ->
  hd false (tl (faults w)) = false ->
  hd false (tl (tl (faults w))) = false ->
  hd false fs = false -> hd false (tl fs) = false -> hd false (tl (tl fs)) = false ->
  let placeholder :=
    reviewBooking u firestoreUser provider
      (wallClock w + hd 0 (ticks w))
      (wallClock w + hd 0 (ticks w) + hd 0 (tl (ticks w))) in
  let id := length (bookings w) in
  let w1 := set_faults fs (exec (observeConnection (Some u) firestoreUser provider) w) in
  let fetch := fetchPendingReview (Some u) false (None, false) in
  let submit := onSubmit (Some u) (Some id, placeholder) true false in
  result fetch w1 = Ok (Some (id, placeholder), true)
  /\ isProviderReviewBooking placeholder = true
  /\ b_providerId placeholder = Some (p_id provider)
  /\ emitted submit (exec fetch w1) = [Toast "Review Submitted"]
  /\ pendingCount (uid u) (bookings (exec submit (exec fetch w1))) = 0%nat.
Proof.
  intros Hobs Hnone F1 F2 F3 G1 G2 G3 placeholder id w1 fetch submit.
  destruct (trigger_creates u firestoreUser provider c w Hobs Hnone F1 F2 F3) as (Hb & _).
  cbn zeta in Hb. fold placeholder in Hb.
  destruct Hobs as (_ & Hp & _).
  assert (Hcand : isPopupCandidate (uid u) placeholder = true).
  { unfold isPopupCandidate. cbn. rewrite String.eqb_refl. reflexivity. }
  subst w1 fetch submit id.
  generalize dependent (exec (observeConnection (Some u) firestoreUser provider) w).
  intros w' Hb.
  pose proof (fetch_finds u (set_faults fs w') placeholder (bookings w) Hb Hnone Hcand G1) as Hf.
  assert (Hres : result (fetchPendingReview (Some u) false (None, false)) (set_faults fs w')
                 = Ok (Some (length (bookings w), placeholder), true))
    by (unfold result; rewrite Hf; reflexivity).
  assert (Hexec : exec (fetchPendingReview (Some u) false (None, false)) (set_faults fs w')
                  = set_faults (tl (faults (set_faults fs w'))) (set_faults fs w'))
    by (unfold exec; rewrite Hf; reflexivity).
  rewrite Hres, Hexec.
  split; [reflexivity |]. split; [reflexivity |]. split; [reflexivity |].
  destruct (submit_marks u (set_faults (tl (faults (set_faults fs w'))) (set_faults fs w'))
              placeholder (bookings w) Hb Hp G2 G3) as (now & Hs & Hev).
  split; [exact Hev |].
  rewrite Hs. apply reviewed_is_not_pending, Hnone.
Qed.

(** Alice's expired seven-day record is observed one day after its expiry;
    she has no booking yet. *)
Lemma review_cycle_witness :
  let w := worldWith sevenDayRecord (1000 + 8 * msPerDay) in
  let placeholder := reviewBooking alice None plumber (1000 + 8 * msPerDay) (1000 + 8 * msPerDay) in
  let w1 := set_faults [] (exec (observeConnection (Some alice) None plumber) w) in
  result (fetchPendingReview (Some alice) false (None, false)) w1
  = Ok (Some (0%nat, placeholder), true).
Proof.
  intros w placeholder w1.
  refine (proj1 (review_cycle alice None plumber sevenDayRecord w []
                   _ eq_refl eq_refl eq_refl eq_refl eq_refl eq_refl eq_refl)).
  repeat split; vm_compute; reflexivity.
Defined.

Example get_redirect_example :
  searchParams_get "redirect" (queryOf "/auth/login?a=1&redirect=%2Fprovider%2Fp+1%3Fconnect%3Dtrue#top")
  = Some "/provider/p 1?connect=true".
Proof. reflexivity. Qed.

Example finalRedirectPath_admin :
  finalRedirectPath (Some "FixBro.IN@gmail.com") (Some "/provider/p1") None = "/admin".
Proof. reflexivity. Qed.

(** ** Encoding and decoding *)

Lemma unreserved_is_kept c :
  isUnreserved c = true ->
  Ascii.eqb c "%"%char = false /\ Ascii.eqb c "+"%char = false
  /\ Ascii.eqb c "&"%char = false /\ Ascii.eqb c "="%char = false
  /\ Ascii.eqb c "#"%char = false /\ Ascii.eqb c "?"%char = false.
Proof.
  destruct c as [[] [] [] [] [] [] [] []]; vm_compute; intros H;
    first [discriminate H | repeat split; reflexivity].
Qed.

Lemma escape_is_read_back c :
  let n := Z.of_nat (Ascii.nat_of_ascii c) in
  hexVal (hexDigit (n / 16)) = Some (n / 16)
  /\ hexVal (hexDigit (n mod 16)) = Some (n mod 16)
  /\ Ascii.ascii_of_nat (Z.to_nat (16 * (n / 16) + n mod 16)) = c
  /\ queryInert (String (hexDigit (n / 16)) (String (hexDigit (n mod 16)) "")) = true.
Proof.
  destruct c as [[] [] [] [] [] [] [] []]; vm_compute; repeat split; reflexivity.
Qed.

Lemma formDecode_encode s : formDecode (encodeURIComponent s) = s.
Proof.
  induction s as [| c s IH]; [reflexivity |].
  cbn [encodeURIComponent]. destruct (isUnreserved c) eqn:Hu.
  - destruct (unreserved_is_kept c Hu) as (Hp & Hplus & _).
    cbn [formDecode]. rewrite Hp, Hplus, IH. reflexivity.
  - destruct (escape_is_read_back c) as (H1 & H2 & H3 & _). cbn zeta in *.
    cbn [formDecode]. change (Ascii.eqb "%"%char "%"%char) with true. cbn match.
    rewrite H1, H2, H3, IH. reflexivity.
Qed.

Lemma encode_queryInert s : queryInert (encodeURIComponent s) = true.
Proof.
  induction s as [| c s IH]; [reflexivity |].
  cbn [encodeURIComponent]. destruct (isUnreserved c) eqn:Hu.
  - destruct (unreserved_is_kept c Hu) as (_ & H1 & H2 & H3 & H4 & H5).
    cbn [queryInert]. rewrite H1, H2, H3, H4, H5, IH. reflexivity.
  - destruct (escape_is_read_back c) as (_ & _ & _ & H). cbn zeta in *.
    cbn [queryInert] in *. 
    change (Ascii.eqb "%"%char ?x) with false.
    repeat (apply andb_true_iff in H as [? H]).
    cbn. rewrite IH.
    repeat match goal with Hx : _ = true |- _ => rewrite Hx; clear Hx end.
    reflexivity.
Qed.

(** ** Reading the [redirect] parameter back *)

Lemma inert_beforeFirst s :
  queryInert s = true ->
  beforeFirst "#"%char s = s /\ beforeFirst "="%char s = s
  /\ afterFirst "="%char s = None /\ splitOn "&"%char s = [s].
Proof.
  induction s as [| c s IH]; [intros _; repeat split; reflexivity |].
  cbn [queryInert]. intros H.
  repeat (apply andb_true_iff in H as [H ?]).
  destruct IH as (I1 & I2 & I3 & I4); [assumption |].
  repeat match goal with Hx : negb _ = true |- _ => apply negb_true_iff in Hx end.
  cbn [beforeFirst afterFirst splitOn].
  repeat match goal with Hx : Ascii.eqb c _ = false |- _ => rewrite Hx; clear Hx end.
  rewrite I1, I2, I3, I4. repeat split; reflexivity.
Qed.

Lemma get_redirect_of_inert enc :
  queryInert enc = true ->
  searchParams_get "redirect" (queryOf ("/auth/login?redirect=" +:+ enc)) = Some (formDecode enc).
Proof.
  intros H. destruct (inert_beforeFirst enc H) as (I1 & I2 & I3 & I4).
  unfold queryOf. cbv [String.append]. cbn. rewrite I1. cbn.
  unfold searchParams_get. cbn. rewrite I4. cbn.
  unfold parsePair. cbn. reflexivity.
Qed.

(** X19.  Whatever path is handed to [triggerAuthRedirect], the login page reads
    exactly that path back from the [redirect] parameter of the URL it was
    sent to: nothing in the path is lost or cut by the escaping. *)
Theorem redirect_parameter_round_trip (intendedPath : string) (w : World) :
  exists url,
    emitted (triggerAuthRedirect intendedPath) w
    = [SetAuthActionRedirectPath intendedPath; RouterPush url]
    /\ searchParams_get "redirect" (queryOf url) = Some intendedPath.
Proof.
  eexists. split.
  - unfold_model. cbn. trace_norm. reflexivity.
  - rewrite get_redirect_of_inert by apply encode_queryInert.
    rewrite formDecode_encode. reflexivity.
Qed.

(** X20.  After signing in nobody is sent to a page under [/auth/]. *)
Theorem login_never_returns_to_auth (email redirectPathFromQuery authActionRedirectPath : option string) :
  startsWith "/auth/" (finalRedirectPath email redirectPathFromQuery authActionRedirectPath) = false.
Proof.
  unfold finalRedirectPath.
  destruct (match email with Some e => _ | None => _ end); [reflexivity |].
  destruct (JS.truthy redirectPathFromQuery) eqn:Hq; cbn [andb].
  - destruct (startsWith "/auth/" (default "" redirectPathFromQuery)) eqn:Hs; cbn [negb];
      [| exact Hs].
    destruct (JS.truthy authActionRedirectPath); cbn [andb]; [| reflexivity].
    destruct (startsWith "/auth/" (default "" authActionRedirectPath)) eqn:Ha; cbn [negb];
      [reflexivity | exact Ha].
  - destruct (JS.truthy authActionRedirectPath); cbn [andb]; [| reflexivity].
    destruct (startsWith "/auth/" (default "" authActionRedirectPath)) eqn:Ha; cbn [negb];
      [reflexivity | exact Ha].
Qed.

(** X21.  A signed-out visitor who clicks connect is brought back, once signed
    in, to the page of that provider with [connect=true]; only the
    administrator lands on [/admin] instead.  This holds whatever identifier
    the provider has and whatever [authActionRedirectPath] holds by then. *)
Theorem connect_intent_survives_login (appConfig : AppSettings) (isLoadingConfig : bool)
    (provider : ProviderApplication) (w : World)
    (email authActionRedirectPath : option string) :
  let path := "/provider/" +:+ p_id provider +:+ "?connect=true" in
  let isAdmin := match email with
                 | Some e => String.eqb (toLowerCase e) ADMIN_EMAIL
                 | None => false
                 end in
  exists url,
    emitted (handleConnectClick appConfig isLoadingConfig None provider) w
    = [SetAuthActionRedirectPath path; RouterPush url]
    /\ finalRedirectPath email (searchParams_get "redirect" (queryOf url)) authActionRedirectPath
       = if isAdmin then "/admin" else path.
Proof.
  intros path isAdmin. eexists. split.
  - unfold_model. cbn. trace_norm. reflexivity.
  - rewrite get_redirect_of_inert by apply encode_queryInert.
    rewrite formDecode_encode. fold path.
    unfold finalRedirectPath. change (toLowerCase ADMIN_EMAIL) with ADMIN_EMAIL.
    fold isAdmin. destruct isAdmin; [reflexivity |].
    subst path. cbv [String.append]. reflexivity.
Qed.

Example simpleHash_overflows :
  simpleHash [122; 122; 122; 122; 122; 122; 122; 122] = -1910022912
  /\ polynomial31 [122; 122; 122; 122; 122; 122; 122; 122] = 3468423552256.
Proof. split; reflexivity. Qed.

Lemma toInt32_shift x k : toInt32 (x + 2 ^ 32 * k) = toInt32 x.
Proof.
  unfold toInt32. f_equal.
  replace (x + 2 ^ 32 * k + 2 ^ 31) with (x + 2 ^ 31 + k * 2 ^ 32) by lia.
  apply Z_mod_plus_full.
Qed.

Lemma toInt32_decompose x : exists k, toInt32 x = x + 2 ^ 32 * k.
Proof.
  exists (- ((x + 2 ^ 31) / 2 ^ 32)). unfold toInt32.
  pose proof (Z.div_mod (x + 2 ^ 31) (2 ^ 32) ltac:(lia)). lia.
Qed.

Lemma toInt32_range x : - 2 ^ 31 <= toInt32 x < 2 ^ 31.
Proof.
  unfold toInt32. pose proof (Z.mod_pos_bound (x + 2 ^ 31) (2 ^ 32) ltac:(lia)). lia.
Qed.

Lemma hashStep_wraps a c : hashStep (toInt32 a) c = toInt32 (31 * a + c).
Proof.
  unfold hashStep.
  destruct (toInt32_decompose a) as (k & Hk).
  destruct (toInt32_decompose (toInt32 a * 2 ^ 5)) as (j & Hj).
  rewrite Hj, Hk.
  replace ((a + 2 ^ 32 * k) * 2 ^ 5 + 2 ^ 32 * j - (a + 2 ^ 32 * k) + c)
    with (31 * a + c + 2 ^ 32 * (31 * k + j)) by lia.
  apply toInt32_shift.
Qed.

Lemma foldl_hashStep cs : forall a,
  foldl hashStep (toInt32 a) cs = toInt32 (foldl (λ h c, 31 * h + c) a cs).
Proof.
  induction cs as [| c cs IH]; intros a; cbn [foldl]; [reflexivity |].
  rewrite hashStep_wraps. apply IH.
Qed.

(** X22.  The hash of the device fingerprint is the polynomial hash with
    multiplier 31 of the code units, wrapped once to a signed 32-bit
    integer: wrapping after every character, as the loop does, loses
    nothing more.  It always is a signed 32-bit integer. *)
Theorem device_hash_closed_form (dataString : list Z) :
  simpleHash dataString = toInt32 (polynomial31 dataString)
  /\ - 2 ^ 31 <= simpleHash dataString < 2 ^ 31.
Proof.
  assert (H : simpleHash dataString = toInt32 (polynomial31 dataString)).
  { unfold simpleHash, polynomial31. change 0 with (toInt32 0) at 1. apply foldl_hashStep. }
  split; [exact H |]. rewrite H. apply toInt32_range.
Qed.

Example chunks_of_65 :
  length <$> chunks ((λ n, JS.toString (Z.of_nat n)) <$> seq 0 65) = [30; 30; 5]%nat.
Proof. vm_compute. reflexivity. Qed.

(** ** Chunked [in] queries *)

Lemma chunkLoop_concat fuel : forall i ids,
  (length ids - i <= fuel)%nat ->
  concat (chunkLoop fuel i ids) = drop i ids
  /\ Forall (λ c, (1 <= length c <= CHUNK_SIZE)%nat) (chunkLoop fuel i ids).
Proof.
  induction fuel as [| fuel IH]; intros i ids Hfuel; cbn [chunkLoop].
  - rewrite drop_ge by lia. split; [reflexivity | constructor].
  - destruct (Nat.ltb i (length ids)) eqn:Hi.
    + apply Nat.ltb_lt in Hi.
      destruct (IH (i + CHUNK_SIZE)%nat ids) as [Hc Hl]; [unfold CHUNK_SIZE; lia |].
      split.
      * cbn [concat]. rewrite Hc.
        rewrite <- (drop_drop ids CHUNK_SIZE i). apply take_drop.
      * constructor; [| exact Hl].
        rewrite length_take, length_drop. unfold CHUNK_SIZE. lia.
    + apply Nat.ltb_ge in Hi. rewrite drop_ge by lia. split; [reflexivity | constructor].
Qed.

Lemma newSet_acc (l : list string) : forall acc : list string,
  NoDup acc ->
  NoDup (foldl (λ acc x, if bool_decide (x ∈ acc) then acc else acc ++ [x]) acc l)
  /\ forall x, x ∈ foldl (λ acc x, if bool_decide (x ∈ acc) then acc else acc ++ [x]) acc l
               <-> x ∈ acc \/ x ∈ l.
Proof.
  induction l as [| y l IH]; intros acc Hnd; cbn [foldl].
  - split; [exact Hnd |]. intros x. rewrite elem_of_nil. tauto.
  - destruct (bool_decide (y ∈ acc)) eqn:Hy.
    + apply bool_decide_eq_true in Hy.
      destruct (IH acc Hnd) as [H1 H2]. split; [exact H1 |].
      intros x. rewrite H2, elem_of_cons. split; [tauto |].
      intros [H | [-> | H]]; auto.
    + apply bool_decide_eq_false in Hy.
      destruct (IH (acc ++ [y])) as [H1 H2].
      { apply NoDup_app. split; [exact Hnd |]. split; [| apply NoDup_singleton].
        intros x Hx Hx'. apply list_elem_of_singleton in Hx'. subst x. contradiction. }
      split; [exact H1 |].
      intros x. rewrite H2, elem_of_app, list_elem_of_singleton, elem_of_cons. tauto.
Qed.

(** X23.  The [in] queries of the table.  The ids of a column are split into
    chunks that, put end to end, are exactly the distinct non-empty ids in
    the order of their first occurrence; every chunk holds between 1 and 30
    ids, so no query is empty or exceeds 30 values, and no id is asked for
    twice. *)
Theorem table_queries_cover_ids (column : list string) :
  let ids := newSet (filterBoolean column) in
  concat (chunks ids) = ids
  /\ Forall (λ chunk, (1 <= length chunk <= 30)%nat) (chunks ids)
  /\ NoDup ids
  /\ forall x, x ∈ ids <-> x ∈ column /\ x <> "".
Proof.
  intros ids.
  destruct (chunkLoop_concat (length ids) 0 ids) as [Hc Hl]; [lia |].
  destruct (newSet_acc (filterBoolean column) [] (NoDup_nil_2)) as [Hnd Hin].
  split; [exact Hc |]. split; [exact Hl |]. split; [exact Hnd |].
  intros x. unfold ids, newSet. rewrite Hin, elem_of_nil.
  unfold filterBoolean. rewrite list_elem_of_In, List.filter_In, <- list_elem_of_In.
  cbn. rewrite negb_true_iff, String.eqb_neq. tauto.
Qed.

(** ** The rows of the table *)

Lemma fill_lookup {A} (collection : gmap string A) ks : forall found k,
  fill collection found ks !! k
  = match (if bool_decide (k ∈ ks) then collection !! k else None) with
    | Some v => Some v
    | None => found !! k
    end.
Proof.
  induction ks as [| k' ks IH]; intros found k; cbn [fill foldl].
  - rewrite bool_decide_eq_false_2 by apply not_elem_of_nil. reflexivity.
  - unfold fill in IH. rewrite IH.
    destruct (decide (k ∈ ks)) as [Hin | Hout].
    + rewrite !bool_decide_eq_true_2; [| apply list_elem_of_further, Hin | exact Hin].
      destruct (collection !! k) as [v |] eqn:Hk; [reflexivity |].
      destruct (collection !! k') as [v' |] eqn:Hk'; [| reflexivity].
      rewrite lookup_insert_ne; [reflexivity | congruence].
    + rewrite (bool_decide_eq_false_2 (k ∈ ks)) by exact Hout.
      destruct (decide (k = k')) as [-> | Hne].
      * rewrite bool_decide_eq_true_2 by apply list_elem_of_here.
        destruct (collection !! k') as [v' |]; [apply lookup_insert_eq | reflexivity].
      * rewrite bool_decide_eq_false_2 by (rewrite elem_of_cons; tauto).
        destruct (collection !! k') as [v' |]; [| reflexivity].
        rewrite lookup_insert_ne by congruence. reflexivity.
Qed.

(** The queries of one column either all succeed, and the map holds what
    the collection holds for the ids asked, or one of them rejects. *)
Lemma fetchChunks_cases {A} (collection : gmap string A) cs : forall found w,
  (exists w',
     fetchChunks collection cs found w = (Ok (fill collection found (concat cs)), w')
     /\ trace w' = trace w /\ providerApplications w' = providerApplications w
     /\ (requestsSucceed w -> requestsSucceed w'))
  \/ (exists e w',
        fetchChunks collection cs found w = (Throw e, w')
        /\ trace w' = trace w /\ ~ requestsSucceed w).
Proof.
  induction cs as [| chunk rest IH]; intros found w; cbn [fetchChunks concat].
  - left. exists w. auto.
  - unfold fetchChunk. unfold mbind at 1. unfold M_bind at 1.
    destruct (Nat.ltb 0 (length chunk)) eqn:Hlen.
    + unfold firestoreRequest, mbind, M_bind, mret, M_ret.
      destruct (hd false (faults w)) eqn:Hf.
      * right. eexists _, _. split; [reflexivity |]. split; [reflexivity |].
        intros Hok. apply hd_requestsSucceed in Hok. congruence.
      * destruct (IH (fill collection found chunk) (set_faults (tl (faults w)) w))
          as [(w' & Hr & Ht & Hp & Hs) | (e & w' & Hr & Ht & Hs)].
        -- left. exists w'. rewrite Hr. unfold fill. rewrite foldl_app.
           split; [reflexivity |]. split; [exact Ht |]. split; [exact Hp |].
           intros Hok. apply Hs. unfold requestsSucceed in *. cbn. apply Forall_tl, Hok.
        -- right. exists e, w'. rewrite Hr. split; [reflexivity |]. split; [exact Ht |].
           intros Hok. apply Hs. unfold requestsSucceed in *. cbn. apply Forall_tl, Hok.
    + apply Nat.ltb_ge in Hlen.
      assert (chunk = []) as -> by (destruct chunk; [reflexivity | cbn in Hlen; lia]).
      unfold mbind, M_bind, mret, M_ret. cbn [app]. cbv beta iota.
      apply IH.
Qed.

Lemma fetched_lookup {A} (collection : gmap string A) (column : list string) k :
  k ∈ column -> k <> "" ->
  fill collection ∅ (concat (chunks (newSet (filterBoolean column)))) !! k = collection !! k.
Proof.
  intros Hin Hne.
  destruct (chunkLoop_concat (length (newSet (filterBoolean column))) 0
              (newSet (filterBoolean column))) as [Hc _]; [lia |].
  unfold chunks. rewrite Hc. cbn [drop].
  rewrite fill_lookup. rewrite bool_decide_eq_true_2.
  - destruct (collection !! k); [reflexivity | apply lookup_empty].
  - destruct (newSet_acc (filterBoolean column) [] (NoDup_nil_2)) as [_ Hmem].
    apply Hmem. right. unfold filterBoolean.
    apply list_elem_of_In, List.filter_In. split; [apply list_elem_of_In, Hin |].
    cbn. apply negb_true_iff, String.eqb_neq, Hne.
Qed.

(** X24.  The rows of the administrator's table.  The callback never rejects and
    always shows one row per connection of the snapshot, in the order of the
    snapshot.  Either every row is enriched and nothing is reported, or (a
    query was rejected) every row is the bare connection and the error is
    logged and shown.  When no request fails the rows are enriched, and the
    columns of a row are those of the [users] document of its [userId] and
    of the [providerApplications] document of its [providerId], with the
    placeholders for what is missing. *)
Theorem admin_table_rows (users : gmap string FirestoreUser)
    (fetchedConnections : list UserProviderConnection) (w : World) :
  let table := adminSnapshot users fetchedConnections in
  exists rows,
    result table w = Ok rows
    /\ row_connection <$> rows = fetchedConnections
    /\ ((rows = basicRow <$> fetchedConnections
         /\ emitted table w = [ConsoleError "Error enriching connection data:"; Toast "Data Error"]
         /\ ~ requestsSucceed w)
        \/ (emitted table w = []
            /\ Forall (λ r,
                 let conn := row_connection r in
                 (userId conn <> "" ->
                  userName r = Some (JS.or_str (users !! userId conn ≫= fs_displayName) "Unknown User")
                  /\ userEmail r = Some (JS.or_str (users !! userId conn ≫= fs_email) "N/A")
                  /\ userMobileNumber r
                     = Some (JS.or_str (users !! userId conn ≫= fs_mobileNumber) "N/A"))
                 /\ (providerId conn <> "" ->
                     providerName r
                     = Some (JS.or_str (providerApplications w !! providerId conn ≫= fullName)
                               "Unknown Provider")
                     /\ providerWorkCategory r
                        = Some (JS.or_str
                                  (providerApplications w !! providerId conn ≫= workCategoryName)
                                  "N/A"))) rows)).
Proof.
  intros table. subst table.
  destruct fetchedConnections as [| c0 cs].
  { exists []. split; [reflexivity |]. split; [reflexivity |]. right.
    split; [unfold emitted; cbn; apply drop_all | constructor]. }
  set (fetched := c0 :: cs).
  assert (Hmap : forall (f : UserProviderConnection -> ConnectionRow),
             (forall c, row_connection (f c) = c) -> row_connection <$> (f <$> fetched) = fetched).
  { intros f Hf. rewrite <- list_fmap_compose. rewrite <- (list_fmap_id fetched) at 2.
    apply list_fmap_ext. intros i x _. apply Hf. }
  destruct (fetchChunks_cases users (chunks (newSet (filterBoolean (userId <$> fetched)))) ∅ w)
    as [(w1 & Hr1 & Ht1 & Hp1 & Hs1) | (e & w1 & Hr1 & Ht1 & Hs1)].
  - destruct (fetchChunks_cases (providerApplications w1)
                (chunks (newSet (filterBoolean (providerId <$> fetched)))) ∅ w1)
      as [(w2 & Hr2 & Ht2 & Hp2 & Hs2) | (e & w2 & Hr2 & Ht2 & Hs2)].
    + assert (Hrun : adminSnapshot users fetched w
                     = (Ok (enrichRow
                              (fill users ∅
                                 (concat (chunks (newSet (filterBoolean (userId <$> fetched))))))
                              (fill (providerApplications w1) ∅
                                 (concat (chunks (newSet (filterBoolean (providerId <$> fetched))))))
                            <$> fetched), w2)).
      { unfold adminSnapshot, fetched, try_catch, gets, mbind, M_bind, mret, M_ret.
        cbv beta iota zeta. fold fetched. rewrite Hr1. cbv beta iota. rewrite Hr2. reflexivity. }
      unfold result, emitted, exec. rewrite Hrun. cbn [fst snd].
      eexists. split; [reflexivity |]. split; [apply Hmap; reflexivity |].
      right. rewrite Ht2, Ht1. split; [apply drop_all |].
      apply Forall_forall. intros r Hr.
      apply list_elem_of_fmap in Hr as (conn & -> & Hconn).
      cbn zeta. cbn [row_connection enrichRow userName userEmail userMobileNumber
                       providerName providerWorkCategory].
      split.
      * intros Hu. rewrite fetched_lookup; [auto | | exact Hu].
        apply list_elem_of_fmap. exists conn. auto.
      * intros Hp. rewrite fetched_lookup; [rewrite Hp1; auto | | exact Hp].
        apply list_elem_of_fmap. exists conn. auto.
    + assert (Hrun : adminSnapshot users fetched w
                     = (Ok (basicRow <$> fetched),
                        add_event (Toast "Data Error")
                          (add_event (ConsoleError "Error enriching connection data:") w2))).
      { unfold adminSnapshot, fetched, try_catch, gets, emit, modify, mbind, M_bind, mret, M_ret.
        cbv beta iota zeta. fold fetched. rewrite Hr1. cbv beta iota. rewrite Hr2. reflexivity. }
      unfold result, emitted, exec. rewrite Hrun. cbn [fst snd].
      eexists. split; [reflexivity |]. split; [apply Hmap; reflexivity |].
      left. split; [reflexivity |]. cbn [trace add_event]. rewrite Ht2, Ht1.
      rewrite <- app_assoc. cbn [app]. rewrite drop_app_length. split; [reflexivity |].
      intros Hok. apply Hs2, Hs1, Hok.
  - assert (Hrun : adminSnapshot users fetched w
                   = (Ok (basicRow <$> fetched),
                      add_event (Toast "Data Error")
                        (add_event (ConsoleError "Error enriching connection data:") w1))).
    { unfold adminSnapshot, fetched, try_catch, gets, emit, modify, mbind, M_bind, mret, M_ret.
      cbv beta iota zeta. fold fetched. rewrite Hr1. reflexivity. }
    unfold result, emitted, exec. rewrite Hrun. cbn [fst snd].
    eexists. split; [reflexivity |]. split; [apply Hmap; reflexivity |].
    left. split; [reflexivity |]. cbn [trace add_event]. rewrite Ht1.
    rewrite <- app_assoc. cbn [app]. rewrite drop_app_length. split; [reflexivity | exact Hs1].
Qed.

Lemma find_option_spec i options o :
  List.find (λ opt, bool_decide (opt_id opt = i)) options = Some o ->
  o ∈ options /\ opt_id o = i.
Proof.
  intros H. apply List.find_some in H as [Hin Hid].
  split; [apply list_elem_of_In, Hin | apply bool_decide_eq_true in Hid; exact Hid].
Qed.

(** X25.  The dialog opens the checkout only with everything in place: an option
    is selected and is the first offered option with that id, a user is
    signed in, a provider is given, online payment is enabled with a key,
    the gateway script is loaded and the order was created for a hundred
    times the price.  Then the overlay is on and [isProcessing] is set.  On
    every other way out nothing is opened, [isProcessing] is false again and
    the overlay was switched off as often as it was switched on.  The
    handler never rejects and touches neither the connections nor
    [localStorage]. *)
Theorem checkout_opens_only_when_ready (selectedOptionId : option AccessOptionId)
    (user : option User) (provider : option ProviderApplication)
    (options : list ConnectionAccessOption)
    (enableOnlinePayment : bool) (razorpayKeyId : option string) (scriptLoaded : bool)
    (createOrder : Z -> option OrderDetails) (w : World) :
  let proceed := handleProceedToPayment selectedOptionId user provider options
                   enableOnlinePayment razorpayKeyId scriptLoaded createOrder in
  exists isProcessing opened,
    result proceed w = Ok (isProcessing, opened)
    /\ userProviderConnections (exec proceed w) = userProviderConnections w
    /\ localStorage (exec proceed w) = localStorage w
    /\ match opened with
       | Some checkout =>
           isProcessing = true
           /\ emitted proceed w = [ShowLoading]
           /\ is_Some user /\ is_Some provider
           /\ enableOnlinePayment = true /\ JS.truthy razorpayKeyId = true
           /\ scriptLoaded = true
           /\ selectedOptionId = Some (opt_id (checkout_option checkout))
           /\ List.find (λ opt, bool_decide (opt_id opt = opt_id (checkout_option checkout)))
                options
              = Some (checkout_option checkout)
           /\ createOrder (opt_price (checkout_option checkout) * 100)
              = Some (checkout_order checkout)
       | None =>
           isProcessing = false
           /\ countShow (emitted proceed w) = countHide (emitted proceed w)
           /\ exists title, Toast title ∈ emitted proceed w
       end.
Proof.
  intros proceed. subst proceed. unfold handleProceedToPayment.
  destruct selectedOptionId as [i |]; [destruct user as [u |]; [destruct provider as [p |] |] |].
  2-4: (eexists _, _; unfold_model; cbn; trace_norm;
        repeat split; try reflexivity; eexists; apply list_elem_of_here).
  destruct (List.find (λ opt, bool_decide (opt_id opt = i)) options) as [o |] eqn:Hfind.
  2: { eexists _, _; unfold_model; cbn; trace_norm;
       repeat split; try reflexivity; eexists; apply list_elem_of_here. }
  destruct (find_option_spec _ _ _ Hfind) as [Hin Hid].
  destruct enableOnlinePayment; cbn [negb orb].
  2: { eexists _, _; unfold_model; cbn; trace_norm; repeat split; try reflexivity.
       eexists. apply list_elem_of_further, list_elem_of_here. }
  destruct (JS.truthy razorpayKeyId) eqn:Hkey; cbn [negb].
  2: { eexists _, _; unfold_model; cbn; trace_norm; repeat split; try reflexivity.
       eexists. apply list_elem_of_further, list_elem_of_here. }
  destruct scriptLoaded; cbn [negb].
  2: { eexists _, _; unfold_model; cbn; trace_norm; repeat split; try reflexivity.
       eexists. apply list_elem_of_further, list_elem_of_here. }
  destruct (createOrder (opt_price o * 100)) as [order |] eqn:Horder.
  2: { eexists _, _; unfold_model; cbn; trace_norm; repeat split; try reflexivity.
       eexists. apply list_elem_of_further, list_elem_of_here. }
  eexists _, _. unfold_model. cbn. trace_norm.
  split; [reflexivity |]. split; [reflexivity |]. split; [reflexivity |].
  cbn [checkout_option checkout_order].
  subst i.
  repeat split; try reflexivity; try (eexists; reflexivity); assumption.
Qed.



